(** * compas.geometry transformations: a shallow embedding

    The development follows
    [src/compas/geometry/_transformations/transformation.py] and
    [src/compas/geometry/_transformations/scale.py].

    Python objects live in a store indexed by locations, because the
    methods studied here hand list objects around without copying them:
    a matrix is a list object whose items are references to row list
    objects, and two instances may hold the same reference.  Methods are
    written in a state-and-exception monad over that store.  Numbers are
    IEEE binary64 floats (Rocq's primitive floats), as the docstrings
    declare them ([list of list of float]). *)

From Stdlib Require Import Floats ZArith.
From stdpp Require Import gmap strings list.

Set Warnings "-inexact-float".

(** ** Values, objects, the store *)

Definition loc := positive.

(** The classes that occur: the base class, the one constrained family
    whose source is at hand, and [Other] for objects of any class
    unrelated to [Transformation]. *)
Inductive cls := Transformation | Scale | Other.

(** [subclass c d]: [c] is [d] or derives from it
    ([class Scale(Transformation)]). *)
Definition subclass (c d : cls) : bool :=
  match c, d with
  | Transformation, Transformation => true
  | Scale, Scale => true
  | Scale, Transformation => true
  | Other, Other => true
  | _, _ => false
  end.

Inductive val :=
| VNone
| VFloat (x : float)
| VStr (s : string)
| VRef (l : loc).

Inductive obj :=
| OList (items : list val)
| ODict (entries : gmap string val)
| OInst (c : cls) (attrs : gmap string val).

Abbreviation heap := (gmap loc obj).

Inductive exn :=
| AttributeError
| TypeError
| IndexError
| KeyError
| ValueError (msg : string).

Inductive outcome (A : Type) :=
| Ret (a : A)
| Raise (e : exn).
Arguments Ret {A} a.
Arguments Raise {A} e.

(** ** The monad: a computation reads and writes the store and either
    returns or raises; a raise keeps the writes made before it. *)

Definition M (A : Type) : Type := heap -> outcome A * heap.

Definition ret {A} (a : A) : M A := fun h => (Ret a, h).

Definition raise {A} (e : exn) : M A := fun h => (Raise e, h).

Definition bind {A B} (c : M A) (k : A -> M B) : M B :=
  fun h => match c h with
           | (Ret a, h') => k a h'
           | (Raise e, h') => (Raise e, h')
           end.

(** [try: c except BaseException: return d] *)
Definition try_except {A} (c : M A) (d : A) : M A :=
  fun h => match c h with
           | (Ret a, h') => (Ret a, h')
           | (Raise _, h') => (Ret d, h')
           end.

Definition lift {A} (r : outcome A) : M A := fun h => (r, h).

Notation "'let*' x ':=' c 'in' k" := (bind c (fun x => k))
  (at level 10, x name, c at level 100, k at level 200).
Notation "c ;; k" := (bind c (fun _ => k))
  (at level 100, k at level 200, right associativity).

(** A [for] loop whose body may [return]: [Some r] leaves the loop (and
    the enclosing loops) with [r], [None] goes on to the next item. *)
Fixpoint for_ {A R} (xs : list A) (body : A -> M (option R)) : M (option R) :=
  match xs with
  | [] => ret None
  | x :: xs' =>
      let* r := body x in
      match r with
      | Some v => ret (Some v)
      | None => for_ xs' body
      end
  end.

(** [range(4)] *)
Definition range4 : list Z := [0; 1; 2; 3]%Z.

(** ** Primitive operations of the object model *)

Definition alloc (o : obj) : M loc :=
  fun h => let l := fresh (dom h) in (Ret l, <[l := o]> h).

(** [v.name] *)
Definition getattr (v : val) (name : string) : M val :=
  fun h =>
    match v with
    | VRef l =>
        match h !! l with
        | Some (OInst _ attrs) =>
            match attrs !! name with
            | Some x => (Ret x, h)
            | None => (Raise AttributeError, h)
            end
        | _ => (Raise AttributeError, h)
        end
    | _ => (Raise AttributeError, h)
    end.

(** [v.name = x] on an instance *)
Definition setattr (v : val) (name : string) (x : val) : M unit :=
  fun h =>
    match v with
    | VRef l =>
        match h !! l with
        | Some (OInst c attrs) => (Ret tt, <[l := OInst c (<[name := x]> attrs)]> h)
        | _ => (Raise AttributeError, h)
        end
    | _ => (Raise AttributeError, h)
    end.

(** Python's index normalisation for a sequence of length [n]:
    [-n <= i < 0] counts from the end. *)
Definition norm_index (n : nat) (i : Z) : option nat :=
  if (0 <=? i)%Z then
    (if (i <? Z.of_nat n)%Z then Some (Z.to_nat i) else None)
  else
    (if (- Z.of_nat n <=? i)%Z then Some (Z.to_nat (Z.of_nat n + i)) else None).

(** [v[i]] for an integer [i] *)
Definition getitem (v : val) (i : Z) : M val :=
  fun h =>
    match v with
    | VRef l =>
        match h !! l with
        | Some (OList xs) =>
            match norm_index (length xs) i with
            | Some k =>
                match xs !! k with
                | Some x => (Ret x, h)
                | None => (Raise IndexError, h)
                end
            | None => (Raise IndexError, h)
            end
        | Some (ODict _) => (Raise KeyError, h)
        | _ => (Raise TypeError, h)
        end
    | VStr s =>
        match norm_index (String.length s) i with
        | Some k =>
            match String.get k s with
            | Some c => (Ret (VStr (String c EmptyString)), h)
            | None => (Raise IndexError, h)
            end
        | None => (Raise IndexError, h)
        end
    | _ => (Raise TypeError, h)
    end.

(** [v[i] = x] for an integer [i] *)
Definition setitem (v : val) (i : Z) (x : val) : M unit :=
  fun h =>
    match v with
    | VRef l =>
        match h !! l with
        | Some (OList xs) =>
            match norm_index (length xs) i with
            | Some k => (Ret tt, <[l := OList (<[k := x]> xs)]> h)
            | None => (Raise IndexError, h)
            end
        | _ => (Raise TypeError, h)
        end
    | _ => (Raise TypeError, h)
    end.

(** [d[key]] for a string key *)
Definition getkey (v : val) (key : string) : M val :=
  fun h =>
    match v with
    | VRef l =>
        match h !! l with
        | Some (ODict d) =>
            match d !! key with
            | Some x => (Ret x, h)
            | None => (Raise KeyError, h)
            end
        | _ => (Raise TypeError, h)
        end
    | _ => (Raise TypeError, h)
    end.

(** [v.copy()]: [list.copy] and [dict.copy] build a new container
    holding the same items; no other value modelled here has the method. *)
Definition copy_method (v : val) : M val :=
  fun h =>
    match v with
    | VRef l =>
        match h !! l with
        | Some (OList xs) => bind (alloc (OList xs)) (fun l' => ret (VRef l')) h
        | Some (ODict d) => bind (alloc (ODict d)) (fun l' => ret (VRef l')) h
        | _ => (Raise AttributeError, h)
        end
    | _ => (Raise AttributeError, h)
    end.

(** [a - b] *)
Definition py_sub (a b : val) : M val :=
  match a, b with
  | VFloat x, VFloat y => ret (VFloat (x - y))
  | _, _ => raise TypeError
  end.

(** [math.fabs(v)] *)
Definition math_fabs (v : val) : M float :=
  match v with
  | VFloat x => ret (PrimFloat.abs x)
  | _ => raise TypeError
  end.

(** [type(v)] of an instance *)
Definition type_of (v : val) : M cls :=
  fun h =>
    match v with
    | VRef l =>
        match h !! l with
        | Some (OInst c _) => (Ret c, h)
        | _ => (Raise TypeError, h)
        end
    | _ => (Raise TypeError, h)
    end.

(** [isinstance(v, c)] *)
Definition isinstance (v : val) (c : cls) : M bool :=
  fun h =>
    match v with
    | VRef l =>
        match h !! l with
        | Some (OInst c' _) => (Ret (subclass c' c), h)
        | _ => (Ret false, h)
        end
    | _ => (Ret false, h)
    end.

(** ** Matrices in the store *)

(** A matrix as the numeric kernel sees it: rows of floats. *)
Abbreviation mat := (list (list float)).

Definition as_float (v : val) : option float :=
  match v with VFloat x => Some x | _ => None end.

(** The floats of the list object [v] refers to. *)
Definition read_row (h : heap) (v : val) : option (list float) :=
  match v with
  | VRef l =>
      match h !! l with
      | Some (OList xs) => mapM as_float xs
      | _ => None
      end
  | _ => None
  end.

(** The rows of the list-of-lists [v] refers to. *)
Definition read_matrix (h : heap) (v : val) : option mat :=
  match v with
  | VRef l =>
      match h !! l with
      | Some (OList rs) => mapM (read_row h) rs
      | _ => None
      end
  | _ => None
  end.

(** Handing a value to a kernel function: anything but a list of lists of
    floats makes the function raise. *)
Definition load_matrix (v : val) : M mat :=
  fun h => match read_matrix h v with
           | Some m => (Ret m, h)
           | None => (Raise TypeError, h)
           end.

(** A kernel function returns new list objects: one per row, then the
    outer list. *)
Fixpoint store_rows (m : mat) : M (list val) :=
  match m with
  | [] => ret []
  | r :: m' =>
      let* l := alloc (OList (VFloat <$> r)) in
      let* ls := store_rows m' in
      ret (VRef l :: ls)
  end.

Definition store_matrix (m : mat) : M val :=
  let* rs := store_rows m in
  let* lo := alloc (OList rs) in
  ret (VRef lo).

(** Modelled from the spec: [identity_matrix] of the Matrix Kernel
    ("identity() -> identity matrix"); its source is not among the files. *)
Definition identity_matrix (n : nat) : mat :=
  (fun i => (fun j => if Nat.eqb i j then 1%float else 0%float) <$> seq 0 n) <$> seq 0 n.

(** ** The numeric kernel

    [transformation.py] and [scale.py] import these functions from
    [compas.geometry] and [compas.utilities]; their sources are not among
    the files.  The methods below are written against this interface, and
    the theorems about the methods hold for every implementation of it. *)

(** [Frame]: an origin and two basis vectors. *)
Record frame := Frame { point : list float; xaxis : list float; yaxis : list float }.

(** What [decompose_matrix] returns: scale, shear, angles, translation,
    perspective. *)
Record decomposition := Decomposition {
  d_scale : list float;
  d_shear : list float;
  d_angles : list float;
  d_translation : list float;
  d_perspective : list float
}.

Class Kernel := {
  multiply_matrices : mat -> mat -> outcome mat;
  transpose_matrix : mat -> outcome mat;
  matrix_inverse : mat -> outcome mat;
  matrix_determinant : mat -> outcome float;
  matrix_from_frame : frame -> outcome mat;
  matrix_from_scale_factors : list float -> outcome mat;
  matrix_from_change_of_basis : frame -> frame -> outcome mat;
  decompose_matrix : mat -> outcome decomposition;
  allclose : list float -> list float -> bool;
  flatten : mat -> list float
}.

(** [Frame.worldXY()] *)
Definition worldXY : frame :=
  Frame [0; 0; 0]%float [1; 0; 0]%float [0; 1; 0]%float.

(** The default tolerance of [__eq__]. *)
Definition tol : float := 1e-05%float.

(** ** The methods of [Transformation] and [Scale] *)

Section Methods.
Context {K : Kernel}.

(** [len(v)] *)
Definition py_len (v : val) : M nat :=
  fun h =>
    match v with
    | VRef l =>
        match h !! l with
        | Some (OList xs) => (Ret (length xs), h)
        | Some (ODict d) => (Ret (size d), h)
        | Some (OInst Other _) => (Raise TypeError, h)
        | Some (OInst _ attrs) =>
            (* Transformation.__len__: len(self.matrix) *)
            match attrs !! "matrix" with
            | Some (VRef l') =>
                match h !! l' with
                | Some (OList xs) => (Ret (length xs), h)
                | Some (ODict d) => (Ret (size d), h)
                | _ => (Raise TypeError, h)
                end
            | Some (VStr s) => (Ret (String.length s), h)
            | Some _ => (Raise TypeError, h)
            | None => (Raise AttributeError, h)
            end
        | None => (Raise TypeError, h)
        end
    | VStr s => (Ret (String.length s), h)
    | _ => (Raise TypeError, h)
    end.

(** The truth value [if v:] tests: [None] and zero are false, an object
    with a length is true when the length is not zero, any other object
    is true. *)
Definition truthy (v : val) : M bool :=
  fun h =>
    match v with
    | VNone => (Ret false, h)
    | VFloat x => (Ret (negb (PrimFloat.eqb x 0)), h)
    | VStr s => (Ret (negb (Nat.eqb (String.length s) 0)), h)
    | VRef l =>
        match h !! l with
        | Some (OInst Other _) => (Ret true, h)
        | _ => bind (py_len v) (fun n => ret (negb (Nat.eqb n 0))) h
        end
    end.

(** [Transformation.__init__] *)
Definition Transformation_init (self matrix : val) : M unit :=
  setattr self "matrix" matrix.

(** The error of [Scale.__init__]:
    [ValueError('This is not a proper scale matrix.')] *)
Definition not_a_scale : exn := ValueError "This is not a proper scale matrix.".

(** [Scale.__init__] *)
Definition Scale_init (self matrix : val) : M unit :=
  let* t := truthy matrix in
  (if t then
     let* m := load_matrix matrix in
     let* d := lift (decompose_matrix m) in
     let* check := lift (matrix_from_scale_factors (d_scale d)) in
     if negb (allclose (flatten m) (flatten check))
     then raise not_a_scale
     else ret tt
   else ret tt) ;;
  Transformation_init self matrix.

(** [c(matrix)]: a new instance of [c] is made, then [c.__init__] runs
    on it. *)
Definition new (c : cls) (matrix : val) : M val :=
  let* l := alloc (OInst c ∅) in
  match c with
  | Transformation => Transformation_init (VRef l) matrix
  | Scale => Scale_init (VRef l) matrix
  | Other => raise TypeError
  end ;;
  ret (VRef l).

(** [__getitem__]: [self[i, j]] *)
Definition Transformation_getitem (self : val) (i j : Z) : M val :=
  let* m := getattr self "matrix" in
  let* row := getitem m i in
  getitem row j.

(** [__setitem__]: [self[i, j] = value] *)
Definition Transformation_setitem (self : val) (i j : Z) (value : val) : M unit :=
  let* m := getattr self "matrix" in
  let* row := getitem m i in
  setitem row j value.

(** The body of the loops of [__eq__]:
    [if math.fabs(A[i][j] - B[i][j]) > tol: return False] *)
Definition eq_body (A B : val) (i j : Z) : M (option bool) :=
  let* Ai := getitem A i in
  let* a := getitem Ai j in
  let* Bi := getitem B i in
  let* b := getitem Bi j in
  let* d := py_sub a b in
  let* f := math_fabs d in
  if PrimFloat.ltb tol f then ret (Some false) else ret None.

(** [__eq__] *)
Definition Transformation_eq (self other : val) : M bool :=
  try_except
    (let* A := getattr self "matrix" in
     let* B := getattr other "matrix" in
     let* r := for_ range4 (fun i => for_ range4 (fun j => eq_body A B i j)) in
     match r with
     | Some b => ret b
     | None => ret true
     end)
    false.

(** [copy] *)
Definition copy (self : val) : M val :=
  let* c := type_of self in
  let* m := getattr self "matrix" in
  let* m' := copy_method m in
  new c m'.

(** [from_data] *)
Definition from_data (c : cls) (data : val) : M val :=
  let* m := getkey data "matrix" in
  new c m.

(** [to_data] *)
Definition to_data (self : val) : M val :=
  let* m := getattr self "matrix" in
  let* l := alloc (ODict {["matrix" := m]}) in
  ret (VRef l).

(** [from_matrix] *)
Definition from_matrix (c : cls) (matrix : val) : M val := new c matrix.

(** [numbers[i]] on a list of floats *)
Definition index (numbers : list float) (i : Z) : M float :=
  match norm_index (length numbers) i with
  | Some k =>
      match numbers !! k with
      | Some x => ret x
      | None => raise IndexError
      end
  | None => raise IndexError
  end.

(** The body of the loops of [from_list]:
    [matrix[i][j] = float(numbers[i * 4 + j])] *)
Definition from_list_body (numbers : list float) (matrix : val) (i j : Z) : M (option unit) :=
  let* x := index numbers (i * 4 + j) in
  let* row := getitem matrix i in
  setitem row j (VFloat x) ;;
  ret None.

(** [from_list] *)
Definition from_list (c : cls) (numbers : list float) : M val :=
  let* matrix := store_matrix (identity_matrix 4) in
  for_ range4 (fun i => for_ range4 (fun j => from_list_body numbers matrix i j)) ;;
  new c matrix.

(** [from_frame] *)
Definition from_frame (c : cls) (f : frame) : M val :=
  let* m := lift (matrix_from_frame f) in
  let* v := store_matrix m in
  new c v.

(** Calling a kernel function on matrices of the store. *)
Definition call1 (f : mat -> outcome mat) (a : val) : M val :=
  let* A := load_matrix a in
  let* R := lift (f A) in
  store_matrix R.

Definition call2 (f : mat -> mat -> outcome mat) (a b : val) : M val :=
  let* A := load_matrix a in
  let* B := load_matrix b in
  let* R := lift (f A B) in
  store_matrix R.

(** [from_frame_to_frame] *)
Definition from_frame_to_frame (c : cls) (frame_from frame_to : frame) : M val :=
  let* T1 := from_frame c frame_from in
  let* T2 := from_frame c frame_to in
  let* m2 := getattr T2 "matrix" in
  let* m1 := getattr T1 "matrix" in
  let* i1 := call1 matrix_inverse m1 in
  let* p := call2 multiply_matrices m2 i1 in
  new c p.

(** [change_basis] *)
Definition change_basis (c : cls) (frame_from frame_to : frame) : M val :=
  let* T1 := from_frame c frame_from in
  let* T2 := from_frame c frame_to in
  let* m2 := getattr T2 "matrix" in
  let* i2 := call1 matrix_inverse m2 in
  let* m1 := getattr T1 "matrix" in
  let* p := call2 multiply_matrices i2 m1 in
  new c p.

(** [transpose] *)
Definition transpose (self : val) : M unit :=
  let* m := getattr self "matrix" in
  let* t := call1 transpose_matrix m in
  setattr self "matrix" t.

(** [transposed] *)
Definition transposed (self : val) : M val :=
  let* T := copy self in
  transpose T ;;
  ret T.

(** [invert] *)
Definition invert (self : val) : M unit :=
  let* m := getattr self "matrix" in
  let* t := call1 matrix_inverse m in
  setattr self "matrix" t.

(** [inverse] (also bound to the name [inverted]) *)
Definition inverse (self : val) : M val :=
  let* T := copy self in
  invert T ;;
  ret T.

(** [determinant] *)
Definition determinant (self : val) : M float :=
  let* m := getattr self "matrix" in
  let* A := load_matrix m in
  lift (matrix_determinant A).

(** [concatenate] *)
Definition concatenate (self other : val) : M unit :=
  let* a := getattr self "matrix" in
  let* b := getattr other "matrix" in
  let* p := call2 multiply_matrices a b in
  setattr self "matrix" p.

(** [concatenated] *)
Definition concatenated (self other : val) : M val :=
  let* c := type_of self in
  let* same := isinstance other c in
  if same then
    let* a := getattr self "matrix" in
    let* b := getattr other "matrix" in
    let* p := call2 multiply_matrices a b in
    new c p
  else
    let* a := getattr self "matrix" in
    let* b := getattr other "matrix" in
    let* p := call2 multiply_matrices a b in
    new Transformation p.

(** [__mul__] and [__imul__] *)
Definition Transformation_mul (self other : val) : M val := concatenated self other.

(** [Scale.from_factors]; the matrices between the kernel calls are
    temporaries nothing else refers to, so only the result is stored. *)
Definition from_factors (c : cls) (factors : list float) (fr : option frame) : M val :=
  let* S := new c VNone in
  match fr with
  | Some f =>
      let* Tl := lift (matrix_from_change_of_basis worldXY f) in
      let* Sc := lift (matrix_from_scale_factors factors) in
      let* Tw := lift (matrix_from_change_of_basis f worldXY) in
      let* TwSc := lift (multiply_matrices Tw Sc) in
      let* m := lift (multiply_matrices TwSc Tl) in
      let* v := store_matrix m in
      setattr S "matrix" v
  | None =>
      let* m := lift (matrix_from_scale_factors factors) in
      let* v := store_matrix m in
      setattr S "matrix" v
  end ;;
  ret S.

End Methods.

(** ** A kernel computed on binary64 floats

    One implementation of the interface, written from the specification's
    description of the Matrix Kernel and of the Decomposition Engine.  It
    is used to run the methods on explicit inputs. *)

Module SpecKernel.
Local Open Scope float_scope.

(** The specification's error kinds; the library raises them as
    [ValueError]. *)
Definition DimensionMismatchError : exn := ValueError "DimensionMismatchError".
Definition SingularMatrixError : exn := ValueError "SingularMatrixError".

Definition fsum (xs : list float) : float := fold_left PrimFloat.add xs 0.

Definition dot (u v : list float) : float := fsum (zip_with PrimFloat.mul u v).

Definition norm (u : list float) : float := PrimFloat.sqrt (dot u u).

Definition scale_vector (u : list float) (s : float) : list float :=
  (fun x => x * s) <$> u.

Definition divide_vector (u : list float) (s : float) : list float :=
  (fun x => x / s) <$> u.

Definition subtract_vectors (u v : list float) : list float :=
  zip_with PrimFloat.sub u v.

Definition column (A : mat) (j : nat) : list float :=
  (fun r => default 0 (r !! j)) <$> A.

(** Modelled from the spec: [transpose(A)], "swap rows/columns". *)
Definition transpose (A : mat) : mat :=
  match A with
  | [] => []
  | r :: _ => column A <$> seq 0 (length r)
  end.

(** Modelled from the spec: [multiply(A, B)], "standard matrix product;
    fails with DimensionMismatchError if inner dimensions disagree". *)
Definition multiply (A B : mat) : outcome mat :=
  if forallb (fun r => Nat.eqb (length r) (length B)) A
  then Ret ((fun r => dot r <$> transpose B) <$> A)
  else Raise DimensionMismatchError.

(** The matrix without row [i] and column [j]. *)
Definition minor (A : mat) (i j : nat) : mat := delete j <$> delete i A.

Definition sign (k : nat) : float := if Nat.even k then 1 else -1.

(** Modelled from the spec: [determinant(A)], "closed-form cofactor
    expansion", along the first row; [n] is the size. *)
Fixpoint det_n (n : nat) (A : mat) : float :=
  match n with
  | O => 1
  | S n' =>
      match A with
      | [] => 1
      | r :: _ => fsum (imap (fun j a => sign j * a * det_n n' (minor A 0 j)) r)
      end
  end.

Definition det (A : mat) : float := det_n (length A) A.

Definition is_square (A : mat) : bool :=
  forallb (fun r => Nat.eqb (length r) (length A)) A.

Definition determinant (A : mat) : outcome float :=
  if is_square A then Ret (det A) else Raise DimensionMismatchError.

(** The matrix of cofactors. *)
Definition cofactors (A : mat) : mat :=
  imap (fun i r => imap (fun j _ => sign (i + j) * det (minor A i j)) r) A.

(** Modelled from the spec: [inverse(A)], "adjugate/cofactor inverse;
    fails with SingularMatrixError when |det(A)| is below a numeric
    tolerance (suggested 1e-9 ...)". *)
Definition inverse (A : mat) : outcome mat :=
  if is_square A then
    let d := det A in
    if PrimFloat.ltb (PrimFloat.abs d) 1e-9
    then Raise SingularMatrixError
    else Ret ((fun r => divide_vector r d) <$> transpose (cofactors A))
  else Raise DimensionMismatchError.

Definition cross (u v : list float) : list float :=
  match u, v with
  | [u0; u1; u2], [v0; v1; v2] =>
      [u1 * v2 - u2 * v1; u2 * v0 - u0 * v2; u0 * v1 - u1 * v0]
  | _, _ => []
  end.

(** Modelled from the spec: the matrix of [from_frame], "the world -> frame
    transform for a given Frame": the frame's axes in the first three
    columns (the third axis completes the right-handed system) and its
    origin in the translation column. *)
Definition from_frame (f : frame) : outcome mat :=
  match xaxis f, yaxis f, cross (xaxis f) (yaxis f), point f with
  | [x0; x1; x2], [y0; y1; y2], [z0; z1; z2], [o0; o1; o2] =>
      Ret [[x0; y0; z0; o0]; [x1; y1; z1; o1]; [x2; y2; z2; o2]; [0; 0; 0; 1]]
  | _, _, _, _ => Raise TypeError
  end.

(** Modelled from the spec: the canonical matrix of the Scale family,
    diagonal (x, y, z, 1), "all off-diagonal entries zero". *)
Definition from_scale_factors (factors : list float) : outcome mat :=
  match factors with
  | x :: y :: z :: _ =>
      Ret [[x; 0; 0; 0]; [0; y; 0; 0]; [0; 0; z; 0]; [0; 0; 0; 1]]
  | _ => Raise IndexError
  end.

(** Modelled from the spec:
    "change_basis(A,B) = inverse(from_frame(B)) o from_frame(A)". *)
Definition from_change_of_basis (f1 f2 : frame) : outcome mat :=
  match from_frame f1, from_frame f2 with
  | Ret T1, Ret T2 =>
      match inverse T2 with
      | Ret I2 => multiply I2 T1
      | Raise e => Raise e
      end
  | Raise e, _ => Raise e
  | _, Raise e => Raise e
  end.

Definition near_zero (x : float) : bool := PrimFloat.leb (PrimFloat.abs x) tol.

Definition take3 (r : list float) : list float := take 3 r.

(** Modelled from the spec: the Decomposition Engine, steps 1 to 7.  Step
    8 turns the orthonormal rows into Euler angles with [atan2], which
    the float type does not provide: the third component holds the nine
    entries of the orthonormal rows [r0, r1, r2] in place of the three
    angles. *)
Definition decompose (Mx : mat) : outcome decomposition :=
  match Mx with
  | [m0; m1; m2; m3] =>
      (* 1. perspective *)
      let last_ok := forallb near_zero (subtract_vectors m3 [0; 0; 0; 1]) in
      let m33 := default 0 (m3 !! 3%nat) in
      let P := if last_ok then [0; 0; 0; 1]
               else if PrimFloat.eqb m33 0 then m3 else divide_vector m3 m33 in
      (* 2. translation *)
      let T := take3 (column Mx 3) in
      (* 3. rows of the linear part *)
      let r0 := take3 m0 in
      let r1 := take3 m1 in
      let r2 := take3 m2 in
      (* 4. *)
      let sx := norm r0 in
      if near_zero sx then Raise SingularMatrixError else
      let r0 := divide_vector r0 sx in
      (* 5. *)
      let shxy := dot r0 r1 in
      let r1 := subtract_vectors r1 (scale_vector r0 shxy) in
      let sy := norm r1 in
      if near_zero sy then Raise SingularMatrixError else
      let r1 := divide_vector r1 sy in
      (* 6. *)
      let shxz := dot r0 r2 in
      let shyz := dot r1 r2 in
      let r2 := subtract_vectors (subtract_vectors r2 (scale_vector r0 shxz))
                                 (scale_vector r1 shyz) in
      let sz := norm r2 in
      if near_zero sz then Raise SingularMatrixError else
      let r2 := divide_vector r2 sz in
      (* 7. *)
      let flip := PrimFloat.ltb (det [r0; r1; r2]) 0 in
      let sx := if flip then - sx else sx in
      let r0 := if flip then scale_vector r0 (-1) else r0 in
      Ret (Decomposition [sx; sy; sz] [shxy; shxz; shyz] (r0 ++ r1 ++ r2) T P)
  | _ => Raise DimensionMismatchError
  end.

(** Modelled from the spec: "match ... within tolerance 1e-5", elementwise
    on two flat lists of the same length. *)
Definition close_lists (xs ys : list float) : bool :=
  Nat.eqb (length xs) (length ys) &&
  forallb (fun d => PrimFloat.leb (PrimFloat.abs d) tol) (subtract_vectors xs ys).

#[global] Instance kernel : Kernel := {
  multiply_matrices := multiply;
  transpose_matrix := fun A => Ret (transpose A);
  matrix_inverse := inverse;
  matrix_determinant := determinant;
  matrix_from_frame := from_frame;
  matrix_from_scale_factors := from_scale_factors;
  matrix_from_change_of_basis := from_change_of_basis;
  decompose_matrix := decompose;
  allclose := close_lists;
  flatten := @concat float
}.

(** Modelled from the spec: applying a transform to a point, "a 4x4 matrix
    representing an affine ... map in 3D via an added coordinate": the
    point gets the coordinate 1 and the first three coordinates of the
    product are the image. *)
Definition transform_point (Mx : mat) (p : list float) : list float :=
  take 3 ((fun r => dot r (p ++ [1])) <$> Mx).

End SpecKernel.

(** [p.transformed(T)] for a point [p] and an instance [T]. *)
Definition transformed (p : list float) (T : val) : M (list float) :=
  let* m := getattr T "matrix" in
  let* A := load_matrix m in
  ret (SpecKernel.transform_point A p).

(** Running a computation from the empty store. *)
Definition run {A} (c : M A) : outcome A := fst (c ∅).

(** ** Reading the store without running a method *)

(** The value of attribute [name] of the instance [v] refers to. *)
Definition attr (h : heap) (v : val) (name : string) : option val :=
  match v with
  | VRef l =>
      match h !! l with
      | Some (OInst _ attrs) => attrs !! name
      | _ => None
      end
  | _ => None
  end.

(** The class of the instance [v] refers to. *)
Definition class_of (h : heap) (v : val) : option cls :=
  match v with
  | VRef l =>
      match h !! l with
      | Some (OInst c _) => Some c
      | _ => None
      end
  | _ => None
  end.

(** [v[i]] where it is defined. *)
Definition item (h : heap) (v : val) (i : Z) : option val :=
  match getitem v i h with
  | (Ret x, _) => Some x
  | (Raise _, _) => None
  end.

(** [m[i][j]] where it is defined and a float. *)
Definition cell (h : heap) (m : val) (i j : Z) : option float :=
  match item h m i with
  | Some r =>
      match item h r j with
      | Some x => as_float x
      | None => None
      end
  | None => None
  end.

(** The matrix of the instance [v] refers to, as rows of floats. *)
Definition matrix_of (h : heap) (v : val) : option mat :=
  match attr h v "matrix" with
  | Some m => read_matrix h m
  | None => None
  end.

(** The test [__eq__] applies to a pair of elements: the difference is
    not above the tolerance. *)
Definition close (a b : float) : bool :=
  negb (PrimFloat.ltb tol (PrimFloat.abs (a - b))).

Definition close_at (h : heap) (A B : val) (i j : Z) : bool :=
  match cell h A i j, cell h B i j with
  | Some a, Some b => close a b
  | _, _ => false
  end.

(** What [__eq__] computes, as a function of the store: both operands
    have a [matrix] attribute, and the sixteen elements at rows and
    columns 0 to 3 exist on both sides, are floats and pass [close]. *)
Definition eq_spec (h : heap) (self other : val) : bool :=
  match attr h self "matrix", attr h other "matrix" with
  | Some A, Some B =>
      forallb (fun i => forallb (fun j => close_at h A B i j) range4) range4
  | _, _ => false
  end.

(** A list object [lo] whose items refer to the row objects [ls], which
    hold [rows]. *)
Definition matrix_at (h : heap) (lo : loc) (ls : list loc) (rows : list (list val)) : Prop :=
  h !! lo = Some (OList (VRef <$> ls)) /\
  Forall2 (fun l r => h !! l = Some (OList r)) ls rows.

(** The rows of floats as rows of values. *)
Definition float_rows (m : mat) : list (list val) :=
  (fun r : list float => VFloat <$> r) <$> m.

(** Rows of values after [rows[i][j] = x]. *)
Definition write (rows : list (list val)) (i j : nat) (x : val) : list (list val) :=
  match rows !! i with
  | Some r => <[i := <[j := x]> r]> rows
  | None => rows
  end.

(** What the inner loop of [from_list] leaves in the rows, for the
    columns [js] of row [i]; [None] when [numbers] ends before. *)
Fixpoint fill_row (numbers : list float) (i : Z) (js : list Z) (rows : list (list val))
  : option (list (list val)) :=
  match js with
  | [] => Some rows
  | j :: js' =>
      match numbers !! Z.to_nat (i * 4 + j) with
      | Some x => fill_row numbers i js' (write rows (Z.to_nat i) (Z.to_nat j) (VFloat x))
      | None => None
      end
  end.

(** The same for the outer loop, over the rows [ks]. *)
Fixpoint fill (numbers : list float) (ks js : list Z) (rows : list (list val))
  : option (list (list val)) :=
  match ks with
  | [] => Some rows
  | i :: ks' =>
      match fill_row numbers i js rows with
      | Some rows' => fill numbers ks' js rows'
      | None => None
      end
  end.

(** Four rows of four values. *)
Definition shape4 (rows : list (list val)) : Prop :=
  length rows = 4%nat /\ Forall (fun r => length r = 4%nat) rows.

(** Sixteen numbers as four rows, row-major ([None] when there are fewer). *)
Definition row_major (numbers : list float) : option mat :=
  match numbers with
  | a0 :: a1 :: a2 :: a3 :: b0 :: b1 :: b2 :: b3 ::
    c0 :: c1 :: c2 :: c3 :: d0 :: d1 :: d2 :: d3 :: _ =>
      Some [[a0; a1; a2; a3]; [b0; b1; b2; b3]; [c0; c1; c2; c3]; [d0; d1; d2; d3]]
  | _ => None
  end.

(** The element at row [i] and column [j] of rows of floats. *)
Definition entry (m : mat) (i j : nat) : option float :=
  match m !! i with
  | Some r => r !! j
  | None => None
  end.

(** A 4x4 matrix. *)
Definition is_4x4 (m : mat) : Prop :=
  length m = 4%nat /\ Forall (fun r => length r = 4%nat) m.

(** Every list object of [h] is in [h'] with the same items. *)
Definition lists_kept (h h' : heap) : Prop :=
  forall l xs, h !! l = Some (OList xs) -> h' !! l = Some (OList xs).

(** A loop body that does not go on to the next item: it returned
    [False] or raised. *)
Definition stops (r : outcome (option bool)) : Prop :=
  r = Ret (Some false) \/ exists e, r = Raise e.

(** ** Further members of [Transformation] *)

(** The items a [for] loop over [v] visits: the items of a list, the
    characters of a string, the rows of the matrix of a [Transformation]
    ([__iter__] returns [iter(self.matrix)]).  Dicts are left out (the
    order of their keys is not modelled). *)
Definition py_iter (v : val) : M (list val) :=
  fun h =>
    match v with
    | VRef l =>
        match h !! l with
        | Some (OList xs) => (Ret xs, h)
        | Some (OInst Other _) => (Raise TypeError, h)
        | Some (OInst _ attrs) =>
            match attrs !! "matrix" with
            | Some (VRef l') =>
                match h !! l' with
                | Some (OList xs) => (Ret xs, h)
                | _ => (Raise TypeError, h)
                end
            | Some (VStr s) =>
                (Ret ((fun c => VStr (String c EmptyString)) <$> String.list_ascii_of_string s), h)
            | Some _ => (Raise TypeError, h)
            | None => (Raise AttributeError, h)
            end
        | _ => (Raise TypeError, h)
        end
    | VStr s => (Ret ((fun c => VStr (String c EmptyString)) <$> String.list_ascii_of_string s), h)
    | _ => (Raise TypeError, h)
    end.

(** A loop that collects: [[a for c in rows for a in c]]. *)
Fixpoint collect (rows : list val) : M (list val) :=
  match rows with
  | [] => ret []
  | c :: rows' =>
      let* xs := py_iter c in
      let* ys := collect rows' in
      ret (xs ++ ys)
  end.

(** The property [list]: [[a for c in self.matrix for a in c]], a new
    list object. *)
Definition Transformation_list (self : val) : M val :=
  let* m := getattr self "matrix" in
  let* rows := py_iter m in
  let* xs := collect rows in
  let* l := alloc (OList xs) in
  ret (VRef l).

(** The property [scale]:
    [[self.matrix[0][0], self.matrix[1][1], self.matrix[2][2]]] *)
Definition Transformation_scale (self : val) : M val :=
  let* m0 := getattr self "matrix" in
  let* r0 := getitem m0 0 in
  let* a := getitem r0 0 in
  let* m1 := getattr self "matrix" in
  let* r1 := getitem m1 1 in
  let* b := getitem r1 1 in
  let* m2 := getattr self "matrix" in
  let* r2 := getitem m2 2 in
  let* c := getitem r2 2 in
  let* l := alloc (OList [a; b; c]) in
  ret (VRef l).

(** ** [LinesConduit.thickness] (compas_rhino/conduits/lines.py)

    A conduit is an object of a class unrelated to [Transformation]; the
    setter reads its attributes [lines] and [_default_thickness]. *)

(** [len(v)] of a list, dict or string. *)
Definition len (v : val) : M nat :=
  fun h =>
    match v with
    | VRef l =>
        match h !! l with
        | Some (OList xs) => (Ret (length xs), h)
        | Some (ODict d) => (Ret (size d), h)
        | _ => (Raise TypeError, h)
        end
    | VStr s => (Ret (String.length s), h)
    | _ => (Raise TypeError, h)
    end.

(** [if v:] for [None], a number, a string, a list or a dict. *)
Definition is_true (v : val) : M bool :=
  fun h =>
    match v with
    | VNone => (Ret false, h)
    | VFloat x => (Ret (negb (PrimFloat.eqb x 0)), h)
    | VStr s => (Ret (negb (Nat.eqb (String.length s) 0)), h)
    | VRef l =>
        match h !! l with
        | Some (OList xs) => (Ret (negb (Nat.eqb (length xs) 0)), h)
        | Some (ODict d) => (Ret (negb (Nat.eqb (size d) 0)), h)
        | _ => (Ret true, h)
        end
    end.

(** [v += items] on a list object: the object itself is extended. *)
Definition list_iadd (v : val) (items : list val) : M unit :=
  fun h =>
    match v with
    | VRef l =>
        match h !! l with
        | Some (OList xs) => (Ret tt, <[l := OList (xs ++ items)]> h)
        | _ => (Raise TypeError, h)
        end
    | _ => (Raise TypeError, h)
    end.

(** [v[:] = v[:n]] on a list object: the object itself is cut. *)
Definition list_keep (v : val) (n : nat) : M unit :=
  fun h =>
    match v with
    | VRef l =>
        match h !! l with
        | Some (OList xs) => (Ret tt, <[l := OList (take n xs)]> h)
        | _ => (Raise TypeError, h)
        end
    | _ => (Raise TypeError, h)
    end.

(** The setter of [thickness]. *)
Definition set_thickness (self thickness : val) : M unit :=
  let* t := is_true thickness in
  if t then
    let* lines := getattr self "lines" in
    let* l := len lines in
    let* t := len thickness in
    (if Nat.ltb t l then
       let* d := getattr self "_default_thickness" in
       list_iadd thickness (replicate (l - t) d)
     else if Nat.ltb l t then
       list_keep thickness l
     else ret tt) ;;
    setattr self "_thickness" thickness
  else ret tt.

(** The getter of [thickness]. *)
Definition get_thickness (self : val) : M val := getattr self "_thickness".

(** ** Properties of computations *)

(** A computation that changes no object of the store it starts from,
    whatever its outcome. *)
Definition extends {A} (c : M A) : Prop :=
  forall h r h', c h = (r, h') -> h ⊆ h'.

(** A computation that leaves the store as it is. *)
Definition readonly {A} (c : M A) : Prop :=
  forall h r h', c h = (r, h') -> h' = h.

(** [h'] differs from [h] at most at the locations [ls]. *)
Definition same_outside (ls : list loc) (h h' : heap) : Prop :=
  forall l, l ∉ ls -> h' !! l = h !! l.

(** ** Explicit inputs *)

Section Inputs.
Local Open Scope float_scope.

Definition example_frame : frame := Frame [2; 5; 0] [1; 0; 0] [0; 1; 0].
Definition other_frame : frame := Frame [1; 1; 1] [0; 1; 0] [-1; 0; 0].

Definition row (xs : list float) : obj := OList (VFloat <$> xs).

(** A store with one instance of class [c] at location 6; its matrix is
    the list at location 5 of the rows at locations 1 to 4. *)
Definition instance_store (c : cls) (r0 r1 r2 r3 : list float) : heap :=
  list_to_map
    [(1%positive, row r0); (2%positive, row r1);
     (3%positive, row r2); (4%positive, row r3);
     (5%positive, OList (VRef <$> [1; 2; 3; 4]%positive));
     (6%positive, OInst c {["matrix" := VRef 5%positive]})].

(** The same with a second instance at location 12 (matrix at 11, rows
    at 7 to 10). *)
Definition two_instances_store (c : cls) (r0 r1 r2 r3 : list float)
    (c' : cls) (s0 s1 s2 s3 : list float) : heap :=
  list_to_map
    [(7%positive, row s0); (8%positive, row s1);
     (9%positive, row s2); (10%positive, row s3);
     (11%positive, OList (VRef <$> [7; 8; 9; 10]%positive));
     (12%positive, OInst c' {["matrix" := VRef 11%positive]})]
  ∪ instance_store c r0 r1 r2 r3.

Definition scale_222 : heap :=
  instance_store Scale [2; 0; 0; 0] [0; 2; 0; 0] [0; 0; 2; 0] [0; 0; 0; 1].
Definition plain_222 : heap :=
  instance_store Transformation [2; 0; 0; 0] [0; 2; 0; 0] [0; 0; 2; 0] [0; 0; 0; 1].
Definition sheared : heap :=
  instance_store Transformation [1; 0.5; 0; 0] [0; 1; 0; 0] [0; 0; 1; 0] [0; 0; 0; 1].
Definition frame_scale : heap :=
  instance_store Scale [2; 0; 0; -2] [0; 2; 0; -5] [0; 0; 2; 0] [0; 0; 0; 1].

Definition T6 : val := VRef 6%positive.
Definition T12 : val := VRef 12%positive.
Definition m5 : val := VRef 5%positive.
Definition m11 : val := VRef 11%positive.

(** A store with two instances, the second with a matrix of NaNs. *)
Definition with_nan : heap :=
  two_instances_store Transformation [1; 0.5; 0; 0] [0; 1; 0; 0] [0; 0; 1; 0] [0; 0; 0; 1]
                      Transformation [nan; nan; nan; nan] [nan; nan; nan; nan]
                                     [nan; nan; nan; nan] [nan; nan; nan; nan].

(** A [Scale] at location 6 and a shear, a base [Transformation], at
    location 12; and the two the other way round. *)
Definition scale_and_shear : heap :=
  two_instances_store Scale [2; 0; 0; 0] [0; 2; 0; 0] [0; 0; 2; 0] [0; 0; 0; 1]
                      Transformation [1; 0.5; 0; 0] [0; 1; 0; 0] [0; 0; 1; 0] [0; 0; 0; 1].
Definition plain_and_scale : heap :=
  two_instances_store Transformation [1; 0.5; 0; 0] [0; 1; 0; 0] [0; 0; 1; 0] [0; 0; 0; 1]
                      Scale [2; 0; 0; 0] [0; 2; 0; 0] [0; 0; 2; 0] [0; 0; 0; 1].

(** A conduit at location 3 with three lines (what a line is plays no
    part) and a list of one thickness at location 2. *)
Definition conduit_store : heap :=
  list_to_map
    [(1%positive, OList [VStr "a"; VStr "b"; VStr "c"]);
     (2%positive, OList [VFloat 2]);
     (3%positive, OInst Other {["lines" := VRef 1%positive;
                                "_default_thickness" := VFloat 1;
                                "_thickness" := VNone]})].

End Inputs.

(** * Proofs *)

Section Proofs.
Context {K : Kernel}.

Lemma bind_Ret {A B} (c : M A) (k : A -> M B) h a h' :
  c h = (Ret a, h') -> bind c k h = k a h'.
Proof. intros E. unfold bind. by rewrite E. Qed.

Lemma bind_Raise {A B} (c : M A) (k : A -> M B) h e h' :
  c h = (Raise e, h') -> bind c k h = (Raise e, h').
Proof. intros E. unfold bind. by rewrite E. Qed.

Lemma getattr_attr v name h :
  getattr v name h =
  (match attr h v name with Some x => Ret x | None => Raise AttributeError end, h).
Proof.
  unfold getattr, attr. destruct v as [| | |l]; try done.
  destruct (h !! l) as [[| |c a]|]; try done. by destruct (a !! name).
Qed.

Lemma getitem_heap v i h : (getitem v i h).2 = h.
Proof.
  unfold getitem. destruct v as [| |s|l]; try done.
  - destruct (norm_index _ _); try done. by destruct (String.get _ _).
  - destruct (h !! l) as [[xs| |]|]; try done.
    destruct (norm_index _ _); try done. by destruct (xs !! _).
Qed.

Lemma getitem_cases v i h :
  (exists x, getitem v i h = (Ret x, h) /\ item h v i = Some x) \/
  (exists e, getitem v i h = (Raise e, h) /\ item h v i = None).
Proof.
  unfold item. pose proof (getitem_heap v i h) as E.
  destruct (getitem v i h) as [[x|e] h']; simpl in *; subst; eauto.
Qed.

Lemma for_all_or_stop {A} (P : A -> bool) (body : A -> M (option bool)) h xs :
  (forall x, exists r, body x h = (r, h) /\ if P x then r = Ret None else stops r) ->
  exists r, for_ xs body h = (r, h) /\ if forallb P xs then r = Ret None else stops r.
Proof.
  intros Hb. induction xs as [|x xs IH]; simpl.
  - by eexists.
  - destruct (Hb x) as (r & E & Hr). unfold bind. rewrite E.
    destruct (P x); simpl.
    + subst r. exact IH.
    + destruct Hr as [->|[e ->]]; eexists; (split; [done|]); [by left|right; by eexists].
Qed.

Lemma eq_body_spec A B i j h :
  exists r, eq_body A B i j h = (r, h) /\
            if close_at h A B i j then r = Ret None else stops r.
Proof.
  unfold eq_body, close_at, cell, stops.
  destruct (getitem_cases A i h) as [(Ai & E1 & ->)|(e & E1 & ->)];
    [rewrite (bind_Ret _ _ _ _ _ E1)|rewrite (bind_Raise _ _ _ _ _ E1); eauto].
  destruct (getitem_cases Ai j h) as [(a & E2 & ->)|(e & E2 & ->)];
    [rewrite (bind_Ret _ _ _ _ _ E2)|rewrite (bind_Raise _ _ _ _ _ E2); eauto].
  destruct (getitem_cases B i h) as [(Bi & E3 & ->)|(e & E3 & ->)];
    [rewrite (bind_Ret _ _ _ _ _ E3)|rewrite (bind_Raise _ _ _ _ _ E3);
     destruct (as_float a); eauto].
  destruct (getitem_cases Bi j h) as [(b & E4 & ->)|(e & E4 & ->)];
    [rewrite (bind_Ret _ _ _ _ _ E4)|rewrite (bind_Raise _ _ _ _ _ E4);
     destruct (as_float a); eauto].
  destruct a as [|x| |], b as [|y| |]; simpl; eauto.
  unfold close, bind, ret; simpl. destruct (PrimFloat.ltb _ _); simpl; eauto.
Qed.

Lemma eq_spec_correct self other h :
  Transformation_eq self other h = (Ret (eq_spec h self other), h).
Proof.
  unfold Transformation_eq, try_except, eq_spec.
  unfold bind at 1. rewrite getattr_attr.
  destruct (attr h self "matrix") as [A|]; [|done].
  unfold bind at 1. rewrite getattr_attr.
  destruct (attr h other "matrix") as [B|]; [|done].
  destruct (for_all_or_stop
              (fun i => forallb (fun j => close_at h A B i j) range4)
              (fun i => for_ range4 (fun j => eq_body A B i j)) h range4) as (r & E & Hr).
  { intros i. apply for_all_or_stop. intros j. apply eq_body_spec. }
  unfold bind at 1. rewrite E.
  destruct (forallb _ range4).
  - by subst r.
  - by destruct Hr as [->|[e ->]].
Qed.

(** C9 (as amended).  [__eq__] never raises and never writes: on every
    pair of operands and every store it returns the value of [eq_spec],
    that is [True] exactly when both operands have a [matrix] attribute
    whose elements at rows and columns 0 to 3 exist, are floats, and
    differ by no more than the tolerance (a difference that is not a
    number passes the test); every failure to read or subtract gives
    [False].  Rows or columns beyond the fourth are never read. *)
Theorem eq_is_eq_spec self other h :
  Transformation_eq self other h = (Ret (eq_spec h self other), h).
Proof. apply eq_spec_correct. Qed.

Lemma fresh_None (h : heap) : h !! fresh (dom h) = None.
Proof. apply not_elem_of_dom, is_fresh. Qed.

Lemma insert_fresh_subseteq (h : heap) o : h ⊆ <[fresh (dom h) := o]> h.
Proof. apply insert_subseteq, fresh_None. Qed.

Lemma mapM_as_float (r : list float) : mapM as_float (VFloat <$> r) = Some r.
Proof. apply mapM_Some. induction r; constructor; auto. Qed.

Lemma read_row_mono (h h' : heap) v r :
  h ⊆ h' -> read_row h v = Some r -> read_row h' v = Some r.
Proof.
  intros Hs. unfold read_row. destruct v as [| | |l]; try done.
  destruct (h !! l) as [o|] eqn:E; [|done].
  by rewrite (lookup_weaken _ _ _ _ E Hs).
Qed.

Lemma read_matrix_mono (h h' : heap) v m :
  h ⊆ h' -> read_matrix h v = Some m -> read_matrix h' v = Some m.
Proof.
  intros Hs. unfold read_matrix. destruct v as [| | |l]; try done.
  destruct (h !! l) as [o|] eqn:E; [|done].
  rewrite (lookup_weaken _ _ _ _ E Hs). destruct o as [rs| |]; try done.
  rewrite !mapM_Some. intros HF. eapply Forall2_impl; [exact HF|].
  intros ??. by apply read_row_mono.
Qed.

Lemma attr_mono (h h' : heap) v name x :
  h ⊆ h' -> attr h v name = Some x -> attr h' v name = Some x.
Proof.
  intros Hs. unfold attr. destruct v as [| | |l]; try done.
  destruct (h !! l) as [o|] eqn:E; [|done].
  by rewrite (lookup_weaken _ _ _ _ E Hs).
Qed.

Lemma matrix_of_mono (h h' : heap) v m :
  h ⊆ h' -> matrix_of h v = Some m -> matrix_of h' v = Some m.
Proof.
  intros Hs. unfold matrix_of. destruct (attr h v "matrix") as [x|] eqn:E; [|done].
  rewrite (attr_mono _ _ _ _ _ Hs E). by apply read_matrix_mono.
Qed.

Lemma store_rows_spec m h :
  exists ls h', store_rows m h = (Ret (VRef <$> ls), h') /\ h ⊆ h' /\
    Forall2 (fun l r => h' !! l = Some (OList (VFloat <$> r))) ls m /\
    Forall (fun l => h !! l = None) ls.
Proof.
  revert h. induction m as [|r m IH]; intros h; simpl.
  - exists [], h. by repeat split.
  - unfold bind at 1. unfold alloc at 1. cbn zeta.
    set (l := fresh (dom h)). set (h1 := <[l := _]> h).
    destruct (IH h1) as (ls & h' & E & Hs & Hrows & Hfresh).
    unfold bind at 1. rewrite E. exists (l :: ls), h'. repeat split.
    + etrans; [apply insert_fresh_subseteq|exact Hs].
    + constructor; [|done]. eapply lookup_weaken; [|exact Hs]. apply lookup_insert_eq.
    + constructor; [apply fresh_None|].
      eapply Forall_impl; [exact Hfresh|]. intros l' Hl'. simpl in Hl'.
      unfold h1 in Hl'. apply lookup_insert_None in Hl'. tauto.
Qed.

Lemma store_matrix_spec m h :
  exists lo h', store_matrix m h = (Ret (VRef lo), h') /\ h ⊆ h' /\
    h !! lo = None /\ read_matrix h' (VRef lo) = Some m.
Proof.
  unfold store_matrix. destruct (store_rows_spec m h) as (ls & h1 & E & Hs & Hrows & Hfresh).
  rewrite (bind_Ret _ _ _ _ _ E). unfold bind, alloc, ret. cbn zeta.
  set (lo := fresh (dom h1)). exists lo, (<[lo := OList (VRef <$> ls)]> h1).
  assert (h1 !! lo = None) as Hlo by apply fresh_None.
  repeat split.
  - etrans; [exact Hs|]. by apply insert_subseteq.
  - eapply lookup_weaken_None; eauto.
  - unfold read_matrix. rewrite lookup_insert_eq. apply mapM_Some.
    apply Forall2_fmap_l. eapply Forall2_impl; [exact Hrows|].
    intros l r Hl. simpl in *.
    rewrite lookup_insert_ne; [|intros ->; congruence].
    rewrite Hl. apply mapM_as_float.
Qed.

Lemma new_Transformation_eq v h :
  new Transformation v h =
  (Ret (VRef (fresh (dom h))), <[fresh (dom h) := OInst Transformation {["matrix" := v]}]> h).
Proof.
  unfold new, bind, alloc, Transformation_init, setattr, ret. cbn zeta.
  rewrite lookup_insert_eq, insert_insert_eq. by rewrite insert_empty.
Qed.

Lemma load_matrix_eq v m h : read_matrix h v = Some m -> load_matrix v h = (Ret m, h).
Proof. intros E. unfold load_matrix. by rewrite E. Qed.

Lemma call1_ok f a A R h :
  read_matrix h a = Some A -> f A = Ret R ->
  exists lo h', call1 f a h = (Ret (VRef lo), h') /\ h ⊆ h' /\ h !! lo = None /\
               read_matrix h' (VRef lo) = Some R.
Proof.
  intros Ha Hf. unfold call1. rewrite (bind_Ret _ _ _ _ _ (load_matrix_eq _ _ _ Ha)).
  unfold bind at 1, lift. rewrite Hf. apply store_matrix_spec.
Qed.

Lemma call2_ok f a b A B R h :
  read_matrix h a = Some A -> read_matrix h b = Some B -> f A B = Ret R ->
  exists lo h', call2 f a b h = (Ret (VRef lo), h') /\ h ⊆ h' /\ h !! lo = None /\
               read_matrix h' (VRef lo) = Some R.
Proof.
  intros Ha Hb Hf. unfold call2.
  rewrite (bind_Ret _ _ _ _ _ (load_matrix_eq _ _ _ Ha)).
  rewrite (bind_Ret _ _ _ _ _ (load_matrix_eq _ _ _ Hb)).
  unfold bind at 1, lift. rewrite Hf. apply store_matrix_spec.
Qed.

Lemma getattr_eq v name x h : attr h v name = Some x -> getattr v name h = (Ret x, h).
Proof. intros E. by rewrite getattr_attr, E. Qed.

Lemma lift_eq {A} (r : outcome A) h : lift r h = (r, h).
Proof. done. Qed.

Lemma new_Transformation_ok v m h :
  read_matrix h v = Some m ->
  exists l h', new Transformation v h = (Ret (VRef l), h') /\ h ⊆ h' /\ h !! l = None /\
    attr h' (VRef l) "matrix" = Some v /\ read_matrix h' v = Some m /\
    class_of h' (VRef l) = Some Transformation.
Proof.
  intros Hm. rewrite new_Transformation_eq. do 2 eexists. split; [done|].
  pose proof (fresh_None h) as Hl. pose proof (insert_fresh_subseteq h) as Hs.
  repeat split; try done.
  - unfold attr. rewrite lookup_insert_eq. apply lookup_singleton_eq.
  - eapply read_matrix_mono; [apply Hs|done].
  - unfold class_of. by rewrite lookup_insert_eq.
Qed.

Lemma from_frame_ok f Mf h :
  matrix_from_frame f = Ret Mf ->
  exists l v h', from_frame Transformation f h = (Ret (VRef l), h') /\ h ⊆ h' /\
    h !! l = None /\ attr h' (VRef l) "matrix" = Some v /\ read_matrix h' v = Some Mf /\
    class_of h' (VRef l) = Some Transformation.
Proof.
  intros Hf. unfold from_frame. unfold bind at 1. rewrite lift_eq, Hf.
  destruct (store_matrix_spec Mf h) as (lo & h1 & E1 & Hs1 & Hlo & Hr).
  rewrite (bind_Ret _ _ _ _ _ E1).
  destruct (new_Transformation_ok _ _ _ Hr) as (l & h2 & E2 & Hs2 & Hl & Ha & Hr2 & Hc).
  exists l, (VRef lo), h2. repeat split; try done.
  - by etrans.
  - eapply lookup_weaken_None; eauto.
Qed.

(** C5.  For frames [A] and [B] whose matrices the kernel gives as [MA]
    and [MB]: [from_frame] stores exactly these matrices,
    [from_frame_to_frame(A, B)] has the matrix [MB x inverse(MA)] and
    [change_basis(A, B)] has the matrix [inverse(MB) x MA], each built by
    its own sequence of kernel calls; no object of the store is changed. *)
Theorem frame_to_frame_and_change_basis (A B : frame) (MA MB : mat) (h : heap) :
  matrix_from_frame A = Ret MA ->
  matrix_from_frame B = Ret MB ->
  (exists T h', from_frame Transformation A h = (Ret T, h') /\ matrix_of h' T = Some MA) /\
  (exists T h', from_frame Transformation B h = (Ret T, h') /\ matrix_of h' T = Some MB) /\
  (forall Ai P, matrix_inverse MA = Ret Ai -> multiply_matrices MB Ai = Ret P ->
     exists T h', from_frame_to_frame Transformation A B h = (Ret T, h') /\
                  h ⊆ h' /\ matrix_of h' T = Some P) /\
  (forall Bi Q, matrix_inverse MB = Ret Bi -> multiply_matrices Bi MA = Ret Q ->
     exists T h', change_basis Transformation A B h = (Ret T, h') /\
                  h ⊆ h' /\ matrix_of h' T = Some Q).
Proof.
  intros HA HB.
  assert (forall f Mf h0, matrix_from_frame f = Ret Mf ->
            exists T h', from_frame Transformation f h0 = (Ret T, h') /\
                         matrix_of h' T = Some Mf) as Hff.
  { intros f Mf h0 Hf.
    destruct (from_frame_ok f Mf h0 Hf) as (l & v & h' & E & _ & _ & Ha & Hr & _).
    exists (VRef l), h'. split; [done|]. unfold matrix_of. by rewrite Ha. }
  split; [by apply Hff|]. split; [by apply Hff|].
  destruct (from_frame_ok A MA h HA) as (l1 & v1 & h1 & E1 & Hs1 & _ & Ha1 & Hr1 & _).
  destruct (from_frame_ok B MB h1 HB) as (l2 & v2 & h2 & E2 & Hs2 & _ & Ha2 & Hr2 & _).
  pose proof (attr_mono _ _ _ _ _ Hs2 Ha1) as Ha1'.
  pose proof (read_matrix_mono _ _ _ _ Hs2 Hr1) as Hr1'.
  split.
  - intros Ai P Hi HP. unfold from_frame_to_frame.
    rewrite (bind_Ret _ _ _ _ _ E1), (bind_Ret _ _ _ _ _ E2).
    rewrite (bind_Ret _ _ _ _ _ (getattr_eq _ _ _ _ Ha2)).
    rewrite (bind_Ret _ _ _ _ _ (getattr_eq _ _ _ _ Ha1')).
    destruct (call1_ok _ _ _ _ _ Hr1' Hi) as (li & h3 & E3 & Hs3 & _ & Hr3).
    rewrite (bind_Ret _ _ _ _ _ E3).
    pose proof (read_matrix_mono _ _ _ _ Hs3 Hr2) as Hr2'.
    destruct (call2_ok _ _ _ _ _ _ _ Hr2' Hr3 HP) as (lp & h4 & E4 & Hs4 & _ & Hr4).
    rewrite (bind_Ret _ _ _ _ _ E4).
    destruct (new_Transformation_ok _ _ _ Hr4) as (l & h5 & E5 & Hs5 & _ & Ha5 & Hr5 & _).
    exists (VRef l), h5. split; [done|]. split.
    + repeat (etrans; [eassumption|]). done.
    + unfold matrix_of. by rewrite Ha5.
  - intros Bi Q Hi HQ. unfold change_basis.
    rewrite (bind_Ret _ _ _ _ _ E1), (bind_Ret _ _ _ _ _ E2).
    rewrite (bind_Ret _ _ _ _ _ (getattr_eq _ _ _ _ Ha2)).
    destruct (call1_ok _ _ _ _ _ Hr2 Hi) as (li & h3 & E3 & Hs3 & _ & Hr3).
    rewrite (bind_Ret _ _ _ _ _ E3).
    rewrite (bind_Ret _ _ _ _ _ (getattr_eq _ _ _ _ (attr_mono _ _ _ _ _ Hs3 Ha1'))).
    pose proof (read_matrix_mono _ _ _ _ Hs3 Hr1') as Hr1''.
    destruct (call2_ok _ _ _ _ _ _ _ Hr3 Hr1'' HQ) as (lp & h4 & E4 & Hs4 & _ & Hr4).
    rewrite (bind_Ret _ _ _ _ _ E4).
    destruct (new_Transformation_ok _ _ _ Hr4) as (l & h5 & E5 & Hs5 & _ & Ha5 & Hr5 & _).
    exists (VRef l), h5. split; [done|]. split.
    + repeat (etrans; [eassumption|]). done.
    + unfold matrix_of. by rewrite Ha5.
Qed.

Lemma truthy_matrix v m h :
  read_matrix h v = Some m -> m <> [] -> truthy v h = (Ret true, h).
Proof.
  intros Hr Hm. unfold read_matrix in Hr. destruct v as [| | |l]; try done.
  unfold truthy. destruct (h !! l) as [[rs| |]|] eqn:E; try done.
  unfold bind, py_len, ret. rewrite E.
  apply length_mapM in Hr. destruct rs; [by destruct m|done].
Qed.

Lemma new_Scale_eq v m d check h :
  read_matrix h v = Some m -> m <> [] ->
  decompose_matrix m = Ret d ->
  matrix_from_scale_factors (d_scale d) = Ret check ->
  new Scale v h =
  if allclose (flatten m) (flatten check)
  then (Ret (VRef (fresh (dom h))), <[fresh (dom h) := OInst Scale {["matrix" := v]}]> h)
  else (Raise not_a_scale, <[fresh (dom h) := OInst Scale ∅]> h).
Proof.
  intros Hr Hm Hd Hc. unfold new. unfold bind at 1, alloc. cbn zeta.
  set (l := fresh (dom h)). set (h1 := <[l := OInst Scale ∅]> h).
  assert (h ⊆ h1) as Hs by apply insert_fresh_subseteq.
  pose proof (read_matrix_mono _ _ _ _ Hs Hr) as Hr1.
  unfold bind at 1. unfold Scale_init.
  rewrite (bind_Ret _ _ _ _ _ (truthy_matrix _ _ _ Hr1 Hm)).
  unfold bind at 1. rewrite (bind_Ret _ _ _ _ _ (load_matrix_eq _ _ _ Hr1)).
  unfold bind at 1. rewrite lift_eq, Hd.
  unfold bind at 1. rewrite lift_eq, Hc.
  destruct (allclose _ _); simpl; [|done].
  unfold ret, Transformation_init, setattr, h1.
  rewrite lookup_insert_eq, insert_insert_eq. by rewrite insert_empty.
Qed.

(** C7.  [Scale(matrix)] on a non-empty matrix that decomposes: when the
    canonical scale matrix rebuilt from the extracted factors is not
    close to the input, the constructor raises the [ValueError] "This is
    not a proper scale matrix." (the specification's InvalidTransformError)
    before [matrix] is assigned, leaving only a new object without
    attributes that nothing refers to; when it is close, the instance is
    returned with the given matrix object as its [matrix]. *)
Theorem Scale_validates_eagerly (v : val) (m : mat) (d : decomposition) (check : mat) (h : heap) :
  read_matrix h v = Some m -> m <> [] ->
  decompose_matrix m = Ret d ->
  matrix_from_scale_factors (d_scale d) = Ret check ->
  (allclose (flatten m) (flatten check) = false ->
     new Scale v h = (Raise not_a_scale, <[fresh (dom h) := OInst Scale ∅]> h)) /\
  (allclose (flatten m) (flatten check) = true ->
     new Scale v h = (Ret (VRef (fresh (dom h))),
                      <[fresh (dom h) := OInst Scale {["matrix" := v]}]> h)).
Proof.
  intros Hr Hm Hd Hc. rewrite (new_Scale_eq _ _ _ _ _ Hr Hm Hd Hc).
  split; intros ->; reflexivity.
Qed.

Lemma type_of_eq v c h : class_of h v = Some c -> type_of v h = (Ret c, h).
Proof.
  unfold class_of, type_of. destruct v as [| | |l]; try done.
  destruct (h !! l) as [[| |c' a]|]; try done. by intros [= ->].
Qed.

Lemma isinstance_eq v c c' h :
  class_of h v = Some c' -> isinstance v c h = (Ret (subclass c' c), h).
Proof.
  unfold class_of, isinstance. destruct v as [| | |l]; try done.
  destruct (h !! l) as [[| |c'' a]|]; try done. by intros [= ->].
Qed.


Lemma norm_index_lt n i k : norm_index n i = Some k -> (k < n)%nat.
Proof.
  unfold norm_index. repeat case_match; intros [= <-]; lia.
Qed.

Lemma norm_index_nonneg n i :
  (0 <= i < Z.of_nat n)%Z -> norm_index n i = Some (Z.to_nat i).
Proof.
  intros [H0 H1]. unfold norm_index.
  destruct (Z.leb_spec 0 i); [|lia]. destruct (Z.ltb_spec i (Z.of_nat n)); [done|lia].
Qed.

(** A row list never is the outer list of a matrix of floats. *)
Lemma row_is_not_outer (h : heap) lo rs M k lr :
  h !! lo = Some (OList rs) -> mapM (read_row h) rs = Some M ->
  rs !! k = Some (VRef lr) -> lr <> lo.
Proof.
  intros Hlo HM Hk ->. apply mapM_Some in HM.
  destruct (Forall2_lookup_l _ _ _ _ _ HM Hk) as (r & _ & Hr).
  unfold read_row in Hr. rewrite Hlo in Hr. apply mapM_Some in Hr.
  destruct (Forall2_lookup_l _ _ _ _ _ Hr Hk) as (x & _ & Hx). done.
Qed.

Lemma setitem_visible (h h3 : heap) X Y lx ly rs M i j x :
  attr h X "matrix" = Some (VRef lx) -> attr h Y "matrix" = Some (VRef ly) ->
  h !! lx = Some (OList rs) -> h !! ly = Some (OList rs) ->
  mapM (read_row h) rs = Some M ->
  Transformation_setitem X i j x h = (Ret tt, h3) ->
  Transformation_getitem Y i j h3 = (Ret x, h3).
Proof.
  intros HaX HaY Hlx Hly HM. unfold Transformation_setitem.
  rewrite (bind_Ret _ _ _ _ _ (getattr_eq _ _ _ _ HaX)).
  unfold bind, getitem. rewrite Hlx.
  destruct (norm_index (length rs) i) as [ki|] eqn:Hi; [|done].
  destruct (rs !! ki) as [row|] eqn:Hrow; [|done].
  unfold setitem. destruct row as [| | |lr]; try done.
  destruct (h !! lr) as [[xs| |]|] eqn:Hlr; try done.
  destruct (norm_index (length xs) j) as [kj|] eqn:Hj; [|done].
  intros [= <-].
  assert (lr <> ly) as Hne1 by (eapply row_is_not_outer; eauto).
  unfold Transformation_getitem.
  assert (attr (<[lr:=OList (<[kj:=x]> xs)]> h) Y "matrix" = Some (VRef ly)) as HaY'.
  { unfold attr in *. destruct Y as [| | |lY]; try done.
    destruct (decide (lr = lY)) as [->|Hne]; [by rewrite Hlr in HaY|].
    by rewrite lookup_insert_ne. }
  rewrite (bind_Ret _ _ _ _ _ (getattr_eq _ _ _ _ HaY')).
  unfold bind, getitem. rewrite lookup_insert_ne by done. rewrite Hly, Hi, Hrow.
  rewrite lookup_insert_eq, length_insert, Hj.
  rewrite list_lookup_insert_eq; [done|]. by eapply norm_index_lt.
Qed.

Lemma setitem_ok (h : heap) X lx rs M r i j x :
  attr h X "matrix" = Some (VRef lx) -> h !! lx = Some (OList rs) ->
  mapM (read_row h) rs = Some M ->
  (0 <= i)%Z -> (0 <= j)%Z -> M !! Z.to_nat i = Some r -> (Z.to_nat j < length r)%nat ->
  exists h3, Transformation_setitem X i j x h = (Ret tt, h3).
Proof.
  intros HaX Hlx HM Hi Hj Hr Hlen. unfold Transformation_setitem.
  rewrite (bind_Ret _ _ _ _ _ (getattr_eq _ _ _ _ HaX)).
  apply mapM_Some in HM.
  destruct (Forall2_lookup_r _ _ _ _ _ HM Hr) as (row & Hrow & Hrr).
  unfold bind, getitem. rewrite Hlx.
  rewrite norm_index_nonneg.
  2:{ split; [done|]. apply lookup_lt_Some in Hrow. lia. }
  rewrite Hrow. unfold read_row in Hrr. destruct row as [| | |lr]; try done.
  unfold setitem. destruct (h !! lr) as [[xs| |]|] eqn:Hlr; try done.
  apply length_mapM in Hrr.
  rewrite norm_index_nonneg by lia. by eexists.
Qed.

Lemma cell_of_matrix (h : heap) lo rs M r a (i j : nat) :
  h !! lo = Some (OList rs) -> mapM (read_row h) rs = Some M ->
  M !! i = Some r -> r !! j = Some a ->
  cell h (VRef lo) (Z.of_nat i) (Z.of_nat j) = Some a.
Proof.
  intros Hlo HM Hr Ha. apply mapM_Some in HM.
  destruct (Forall2_lookup_r _ _ _ _ _ HM Hr) as (row & Hrow & Hrr).
  unfold cell, item, getitem. rewrite Hlo.
  rewrite norm_index_nonneg, Nat2Z.id.
  2:{ apply lookup_lt_Some in Hrow. lia. }
  rewrite Hrow. unfold read_row in Hrr. destruct row as [| | |lr]; try done.
  destruct (h !! lr) as [[xs| |]|] eqn:Hlr; try done.
  apply mapM_Some in Hrr.
  destruct (Forall2_lookup_r _ _ _ _ _ Hrr Ha) as (xa & Hxa & Hfl).
  rewrite norm_index_nonneg, Nat2Z.id.
  2:{ apply lookup_lt_Some in Hxa. lia. }
  by rewrite Hxa.
Qed.

Lemma self_close (x : float) : close x x = true.
Proof.
  unfold close. rewrite ltb_spec, abs_spec, sub_spec.
  destruct (Prim2SF x) as [s|s| |s m e]; try (destruct s; reflexivity); try reflexivity.
  unfold SF64sub, SFsub. rewrite Z.sub_diag. reflexivity.
Qed.

Lemma range4_nat (i : Z) : In i range4 -> exists n : nat, (n < 4)%nat /\ i = Z.of_nat n.
Proof.
  intros [<-|[<-|[<-|[<-|[]]]]];
    [exists 0%nat|exists 1%nat|exists 2%nat|exists 3%nat]; split; (lia || done).
Qed.

Lemma eq_spec_shared (h : heap) X Y lx ly rs M :
  attr h X "matrix" = Some (VRef lx) -> attr h Y "matrix" = Some (VRef ly) ->
  h !! lx = Some (OList rs) -> h !! ly = Some (OList rs) ->
  mapM (read_row h) rs = Some M -> is_4x4 M ->
  eq_spec h X Y = true.
Proof.
  intros HaX HaY Hlx Hly HM [Hlen Hrows]. unfold eq_spec. rewrite HaX, HaY.
  assert (forall i j : nat, (i < 4)%nat -> (j < 4)%nat ->
            close_at h (VRef lx) (VRef ly) (Z.of_nat i) (Z.of_nat j) = true) as Hc.
  { intros i j Hi Hj.
    destruct (lookup_lt_is_Some_2 M i) as [r Hr]; [lia|].
    pose proof (proj1 (Forall_lookup _ _) Hrows i r Hr) as Hlr. simpl in Hlr.
    destruct (lookup_lt_is_Some_2 r j) as [a Ha]; [lia|].
    unfold close_at.
    rewrite (cell_of_matrix _ _ _ _ _ _ _ _ Hlx HM Hr Ha).
    rewrite (cell_of_matrix _ _ _ _ _ _ _ _ Hly HM Hr Ha).
    apply self_close. }
  apply forallb_forall. intros i (n & Hn & ->)%range4_nat.
  apply forallb_forall. intros j (k & Hk & ->)%range4_nat. by apply Hc.
Qed.

(** The parts of a well-formed matrix value. *)
Lemma read_matrix_inv (h : heap) m M :
  read_matrix h m = Some M ->
  exists lm rs, m = VRef lm /\ h !! lm = Some (OList rs) /\ mapM (read_row h) rs = Some M.
Proof.
  unfold read_matrix. destruct m as [| | |lm]; try done.
  destruct (h !! lm) as [[rs| |]|] eqn:E; try done. intros HM. by exists lm, rs.
Qed.

Lemma shared_rows_observable (h : heap) X Y lx ly rs M :
  attr h X "matrix" = Some (VRef lx) -> attr h Y "matrix" = Some (VRef ly) ->
  h !! lx = Some (OList rs) -> h !! ly = Some (OList rs) ->
  mapM (read_row h) rs = Some M -> is_4x4 M ->
  forall i j x, (0 <= i < 4)%Z -> (0 <= j < 4)%Z ->
    exists h3, Transformation_setitem X i j x h = (Ret tt, h3) /\
               Transformation_getitem Y i j h3 = (Ret x, h3).
Proof.
  intros HaX HaY Hlx Hly HM [Hlen Hrows] i j x Hi Hj.
  destruct (lookup_lt_is_Some_2 M (Z.to_nat i)) as [r Hr]; [lia|].
  pose proof (proj1 (Forall_lookup _ _) Hrows _ _ Hr) as Hlr. simpl in Hlr.
  destruct (setitem_ok h X lx rs M r i j x) as [h3 E]; try done; try lia.
  exists h3. split; [done|].
  exact (setitem_visible h h3 X Y lx ly rs M i j x HaX HaY Hlx Hly HM E).
Qed.

(** C10.  For an instance [T] whose [matrix] attribute [m] is a 4x4
    matrix of floats: the dict [to_data] returns holds [m] itself under
    "matrix"; [Transformation.from_data] of that dict returns a new
    instance [T'] whose [matrix] is [m] itself; [T' == T] is [True]; and
    an element assigned through either instance is read back through the
    other. *)
Theorem data_round_trip_shares_the_matrix (T m : val) (M : mat) (h : heap) :
  attr h T "matrix" = Some m ->
  read_matrix h m = Some M ->
  is_4x4 M ->
  exists d T' h1 h2,
    to_data T h = (Ret d, h1) /\
    getkey d "matrix" h1 = (Ret m, h1) /\
    from_data Transformation d h1 = (Ret T', h2) /\
    T' <> T /\
    attr h2 T' "matrix" = Some m /\
    attr h2 T "matrix" = Some m /\
    Transformation_eq T' T h2 = (Ret true, h2) /\
    forall i j x, (0 <= i < 4)%Z -> (0 <= j < 4)%Z ->
      (exists h3, Transformation_setitem T' i j x h2 = (Ret tt, h3) /\
                  Transformation_getitem T i j h3 = (Ret x, h3)) /\
      (exists h3, Transformation_setitem T i j x h2 = (Ret tt, h3) /\
                  Transformation_getitem T' i j h3 = (Ret x, h3)).
Proof.
  intros Ha Hr H44.
  set (ld := fresh (dom h)).
  set (h1 := <[ld := ODict {["matrix" := m]}]> h).
  set (lT' := fresh (dom h1)).
  set (h2 := <[lT' := OInst Transformation {["matrix" := m]}]> h1).
  assert (h ⊆ h1) as Hs1 by apply insert_fresh_subseteq.
  assert (h1 ⊆ h2) as Hs2 by apply insert_fresh_subseteq.
  assert (h ⊆ h2) as Hs by (by etrans).
  assert (attr h2 (VRef lT') "matrix" = Some m) as Ha'.
  { unfold attr, h2. rewrite lookup_insert_eq. apply lookup_singleton_eq. }
  pose proof (attr_mono _ _ _ _ _ Hs Ha) as Ha2.
  pose proof (read_matrix_mono _ _ _ _ Hs Hr) as Hr2.
  destruct (read_matrix_inv _ _ _ Hr2) as (lm & rs & -> & Hlm & HM).
  exists (VRef ld), (VRef lT'), h1, h2. repeat split.
  - unfold to_data. by rewrite (bind_Ret _ _ _ _ _ (getattr_eq _ _ _ _ Ha)).
  - unfold getkey, h1. rewrite lookup_insert_eq. by rewrite lookup_singleton_eq.
  - unfold from_data, bind, getkey. unfold h1 at 1. rewrite lookup_insert_eq.
    rewrite lookup_singleton_eq. apply new_Transformation_eq.
  - intros <-. unfold attr in Ha. pose proof (fresh_None h1) as Hn. fold lT' in Hn.
    destruct (h !! lT') as [o|] eqn:E; [|done].
    by rewrite (lookup_weaken _ _ _ _ E Hs1) in Hn.
  - done.
  - done.
  - rewrite eq_spec_correct. f_equal. f_equal. eapply eq_spec_shared; eauto.
  - eapply shared_rows_observable; eauto.
  - eapply shared_rows_observable; eauto.
Qed.
(** ** [from_list] *)

Lemma bind_assoc_at {A B C} (c : M A) (f : A -> M B) (g : B -> M C) h :
  bind (bind c f) g h = bind c (fun x => bind (f x) g) h.
Proof. unfold bind. by destruct (c h) as [[a|e] h']. Qed.

Lemma store_rows_fresh m h :
  exists ls h', store_rows m h = (Ret (VRef <$> ls), h') /\ h ⊆ h' /\
    Forall2 (fun l r => h' !! l = Some (OList (VFloat <$> r))) ls m /\
    Forall (fun l => h !! l = None) ls /\ NoDup ls.
Proof.
  revert h. induction m as [|r m IH]; intros h; simpl.
  - exists [], h. repeat split; try done. constructor.
  - unfold bind at 1. unfold alloc at 1. cbn zeta.
    set (l := fresh (dom h)). set (h1 := <[l := _]> h).
    destruct (IH h1) as (ls & h' & E & Hs & Hrows & Hfresh & Hnd).
    unfold bind at 1. rewrite E. exists (l :: ls), h'. repeat split.
    + etrans; [apply insert_fresh_subseteq|exact Hs].
    + constructor; [|done]. eapply lookup_weaken; [|exact Hs]. apply lookup_insert_eq.
    + constructor; [apply fresh_None|].
      eapply Forall_impl; [exact Hfresh|]. intros l' Hl'. simpl in Hl'.
      unfold h1 in Hl'. apply lookup_insert_None in Hl'. tauto.
    + constructor; [|done]. intros Hin.
      pose proof (proj1 (Forall_forall _ _) Hfresh _ Hin) as Hl. simpl in Hl.
      unfold h1 in Hl. by rewrite lookup_insert_eq in Hl.
Qed.

Lemma store_matrix_at m h :
  exists lo ls h', store_matrix m h = (Ret (VRef lo), h') /\
    matrix_at h' lo ls (float_rows m) /\ NoDup ls /\ lo ∉ ls.
Proof.
  unfold store_matrix.
  destruct (store_rows_fresh m h) as (ls & h1 & E & Hs & Hrows & Hfresh & Hnd).
  rewrite (bind_Ret _ _ _ _ _ E). unfold bind, alloc, ret. cbn zeta.
  set (lo := fresh (dom h1)). exists lo, ls, (<[lo := OList (VRef <$> ls)]> h1).
  assert (h1 !! lo = None) as Hlo by apply fresh_None.
  assert (lo ∉ ls) as Hnot.
  { intros Hin. destruct (list_elem_of_lookup_1 _ _ Hin) as [k Hk].
    destruct (Forall2_lookup_l _ _ _ _ _ Hrows Hk) as (r & _ & Hr). congruence. }
  split; [done|]. split; [|done]. split; [apply lookup_insert_eq|].
  unfold float_rows. apply Forall2_fmap_r. eapply Forall2_impl; [exact Hrows|].
  intros l r Hl. simpl in *. rewrite lookup_insert_ne; [done|]. intros ->. congruence.
Qed.

Lemma matrix_at_read (h : heap) lo ls (m : mat) :
  matrix_at h lo ls (float_rows m) -> read_matrix h (VRef lo) = Some m.
Proof.
  intros [Hlo Hrows]. unfold read_matrix. rewrite Hlo. apply mapM_Some.
  unfold float_rows in Hrows. apply Forall2_fmap_l. apply Forall2_fmap_r in Hrows.
  eapply Forall2_impl; [exact Hrows|]. intros l r Hl. simpl in *.
  rewrite Hl. apply mapM_as_float.
Qed.

(** One assignment [matrix[i][j] = x] on a matrix with distinct rows. *)
Lemma matrix_at_set (h : heap) lo ls rows (i j : nat) l r x :
  matrix_at h lo ls rows -> NoDup ls ->
  ls !! i = Some l -> rows !! i = Some r -> (j < length r)%nat ->
  (let* row := getitem (VRef lo) (Z.of_nat i) in setitem row (Z.of_nat j) x) h =
    (Ret tt, <[l := OList (<[j := x]> r)]> h) /\
  (lo ∉ ls -> matrix_at (<[l := OList (<[j := x]> r)]> h) lo ls (<[i := <[j := x]> r]> rows)).
Proof.
  intros [Hlo Hrows] Hnd Hl Hr Hj.
  pose proof (Forall2_lookup_lr _ _ _ _ _ _ Hrows Hl Hr) as Hlr. simpl in Hlr.
  split.
  - unfold bind, getitem. rewrite Hlo, length_fmap.
    rewrite norm_index_nonneg, Nat2Z.id by (apply lookup_lt_Some in Hl; lia).
    rewrite list_lookup_fmap, Hl. simpl. unfold setitem. rewrite Hlr.
    by rewrite norm_index_nonneg, Nat2Z.id by lia.
  - intros Hnot. split.
    + rewrite lookup_insert_ne; [done|]. intros ->. apply Hnot.
      by eapply list_elem_of_lookup_2.
    + apply Forall2_lookup. intros k. destruct (decide (k = i)) as [->|Hne].
      * rewrite Hl, list_lookup_insert_eq by (apply lookup_lt_Some in Hr; lia).
        constructor. apply lookup_insert_eq.
      * rewrite list_lookup_insert_ne by done.
        destruct (ls !! k) as [l'|] eqn:Hl', (rows !! k) as [r'|] eqn:Hr'.
        -- constructor. rewrite lookup_insert_ne.
           ++ exact (Forall2_lookup_lr _ _ _ _ _ _ Hrows Hl' Hr').
           ++ intros <-. apply Hne. eapply NoDup_lookup; eauto.
        -- apply lookup_lt_Some in Hl'. apply lookup_ge_None in Hr'.
           apply Forall2_length in Hrows. lia.
        -- apply lookup_lt_Some in Hr'. apply lookup_ge_None in Hl'.
           apply Forall2_length in Hrows. lia.
        -- constructor.
Qed.

Lemma index_nonneg (numbers : list float) (z : Z) h :
  (0 <= z)%Z ->
  index numbers z h =
  (match numbers !! Z.to_nat z with Some x => Ret x | None => Raise IndexError end, h).
Proof.
  intros Hz. unfold index, norm_index.
  destruct (Z.leb_spec 0 z); [|lia].
  destruct (Z.ltb_spec z (Z.of_nat (length numbers))).
  - by destruct (numbers !! Z.to_nat z).
  - rewrite (proj2 (lookup_ge_None numbers (Z.to_nat z))); [done|lia].
Qed.

Lemma write_shape rows i j x : shape4 rows -> shape4 (write rows i j x).
Proof.
  intros [Hlen Hrows]. unfold write. destruct (rows !! i) as [r|] eqn:Hr; [|done].
  split; [by rewrite length_insert|].
  apply Forall_insert; [done|]. rewrite length_insert.
  exact (proj1 (Forall_lookup _ _) Hrows _ _ Hr).
Qed.

Lemma from_list_body_eq numbers (h : heap) lo ls rows (i j : Z) :
  matrix_at h lo ls rows -> shape4 rows -> NoDup ls -> lo ∉ ls ->
  (0 <= i < 4)%Z -> (0 <= j < 4)%Z ->
  exists h',
    match numbers !! Z.to_nat (i * 4 + j) with
    | Some x =>
        from_list_body numbers (VRef lo) i j h = (Ret None, h') /\
        matrix_at h' lo ls (write rows (Z.to_nat i) (Z.to_nat j) (VFloat x))
    | None => from_list_body numbers (VRef lo) i j h = (Raise IndexError, h')
    end.
Proof.
  intros Hmat [Hlen Hrows] Hnd Hnot Hi Hj.
  assert (0 <= i * 4 + j)%Z as Hz by lia.
  pose proof (index_nonneg numbers _ h Hz) as Hx.
  unfold from_list_body.
  destruct (numbers !! Z.to_nat (i * 4 + j)) as [x|];
    [rewrite (bind_Ret _ _ _ _ _ Hx)|rewrite (bind_Raise _ _ _ _ _ Hx); by eexists].
  destruct (lookup_lt_is_Some_2 rows (Z.to_nat i)) as [r Hr]; [lia|].
  destruct (lookup_lt_is_Some_2 ls (Z.to_nat i)) as [l Hl].
  { destruct Hmat as [_ HF]. apply Forall2_length in HF. lia. }
  pose proof (proj1 (Forall_lookup _ _) Hrows _ _ Hr) as Hlr. simpl in Hlr.
  destruct (matrix_at_set h lo ls rows (Z.to_nat i) (Z.to_nat j) l r (VFloat x)
              Hmat Hnd Hl Hr ltac:(lia)) as [E Hmat'].
  rewrite !Z2Nat.id in E by lia.
  eexists. rewrite <- bind_assoc_at. rewrite (bind_Ret _ _ _ _ _ E).
  split; [reflexivity|]. unfold write. rewrite Hr. by apply Hmat'.
Qed.

Lemma inner_loop numbers lo ls (i : Z) js :
  NoDup ls -> lo ∉ ls -> (0 <= i < 4)%Z -> Forall (fun j => 0 <= j < 4)%Z js ->
  forall (h : heap) rows, matrix_at h lo ls rows -> shape4 rows ->
  exists h',
    match fill_row numbers i js rows with
    | Some rows' =>
        for_ js (fun j => from_list_body numbers (VRef lo) i j) h = (Ret None, h') /\
        matrix_at h' lo ls rows' /\ shape4 rows'
    | None =>
        for_ js (fun j => from_list_body numbers (VRef lo) i j) h = (Raise IndexError, h')
    end.
Proof.
  intros Hnd Hnot Hi Hjs. induction Hjs as [|j js Hj Hjs IH]; intros h rows Hmat Hsh; simpl.
  - by exists h.
  - destruct (from_list_body_eq numbers h lo ls rows i j Hmat Hsh Hnd Hnot Hi Hj) as [h1 Hb].
    destruct (numbers !! Z.to_nat (i * 4 + j)) as [x|].
    + destruct Hb as [E Hmat1]. rewrite (bind_Ret _ _ _ _ _ E).
      apply IH; [done|]. by apply write_shape.
    + exists h1. by rewrite (bind_Raise _ _ _ _ _ Hb).
Qed.

Lemma outer_loop numbers lo ls ks js :
  NoDup ls -> lo ∉ ls ->
  Forall (fun i => 0 <= i < 4)%Z ks -> Forall (fun j => 0 <= j < 4)%Z js ->
  forall (h : heap) rows, matrix_at h lo ls rows -> shape4 rows ->
  exists h',
    match fill numbers ks js rows with
    | Some rows' =>
        for_ ks (fun i => for_ js (fun j => from_list_body numbers (VRef lo) i j)) h
          = (Ret None, h') /\
        matrix_at h' lo ls rows' /\ shape4 rows'
    | None =>
        for_ ks (fun i => for_ js (fun j => from_list_body numbers (VRef lo) i j)) h
          = (Raise IndexError, h')
    end.
Proof.
  intros Hnd Hnot His Hjs. induction His as [|i ks Hi His IH]; intros h rows Hmat Hsh; simpl.
  - by exists h.
  - destruct (inner_loop numbers lo ls i js Hnd Hnot Hi Hjs h rows Hmat Hsh) as [h1 Hb].
    destruct (fill_row numbers i js rows) as [rows1|].
    + destruct Hb as (E & Hmat1 & Hsh1). rewrite (bind_Ret _ _ _ _ _ E). by apply IH.
    + exists h1. by rewrite (bind_Raise _ _ _ _ _ Hb).
Qed.

Lemma range4_bounds : Forall (fun i => 0 <= i < 4)%Z range4.
Proof. repeat constructor; lia. Qed.

Lemma row_major_None numbers : (length numbers < 16)%nat -> row_major numbers = None.
Proof.
  intros Hlen.
  do 16 (destruct numbers as [|? numbers]; [done|]). simpl in Hlen. lia.
Qed.

Lemma row_major_Some numbers :
  (16 <= length numbers)%nat ->
  exists M, row_major numbers = Some M /\ is_4x4 M /\
    forall i j : nat, (i < 4)%nat -> (j < 4)%nat -> entry M i j = numbers !! (4 * i + j)%nat.
Proof.
  intros Hlen.
  do 16 (destruct numbers as [|? numbers]; [simpl in Hlen; lia|]).
  eexists. split; [reflexivity|]. split.
  - split; [done|]. by repeat constructor.
  - intros i j Hi Hj.
    destruct i as [|[|[|[|]]]]; try lia; destruct j as [|[|[|[|]]]]; try lia; reflexivity.
Qed.

Lemma fill_identity numbers :
  fill numbers range4 range4 (float_rows (identity_matrix 4)) = float_rows <$> row_major numbers.
Proof.
  do 16 (destruct numbers as [|? numbers]; [reflexivity|]). reflexivity.
Qed.

(** C4 (as amended).  [Transformation.from_list] has no check of the
    length.  On fewer than 16 numbers the first missing index raises
    [IndexError].  On 16 numbers or more (what follows the sixteenth is
    ignored) it returns an instance whose matrix is 4x4 and holds
    [numbers[4 * i + j]] at row [i], column [j]: row-major, the
    translation column taken from the indices 3, 7 and 11. *)
Theorem from_list_reads_sixteen (numbers : list float) (h : heap) :
  ((length numbers < 16)%nat ->
     exists h', from_list Transformation numbers h = (Raise IndexError, h')) /\
  ((16 <= length numbers)%nat ->
     exists T M h',
       from_list Transformation numbers h = (Ret T, h') /\
       matrix_of h' T = Some M /\ is_4x4 M /\
       (forall i j : nat, (i < 4)%nat -> (j < 4)%nat ->
          entry M i j = numbers !! (4 * i + j)%nat) /\
       entry M 0 3 = numbers !! 3%nat /\
       entry M 1 3 = numbers !! 7%nat /\
       entry M 2 3 = numbers !! 11%nat).
Proof.
  destruct (store_matrix_at (identity_matrix 4) h) as (lo & ls & h1 & E1 & Hmat & Hnd & Hnot).
  assert (shape4 (float_rows (identity_matrix 4))) as Hsh.
  { split; [done|]. by repeat constructor. }
  destruct (outer_loop numbers lo ls range4 range4 Hnd Hnot range4_bounds range4_bounds
              h1 _ Hmat Hsh) as [h2 Hloop].
  rewrite fill_identity in Hloop. unfold from_list. rewrite (bind_Ret _ _ _ _ _ E1).
  split; intros Hlen.
  - rewrite row_major_None in Hloop by done. simpl in Hloop.
    exists h2. by rewrite (bind_Raise _ _ _ _ _ Hloop).
  - destruct (row_major_Some numbers Hlen) as (M & HM & H44 & Hent).
    rewrite HM in Hloop. simpl in Hloop. destruct Hloop as (E2 & Hmat2 & _).
    rewrite (bind_Ret _ _ _ _ _ E2).
    destruct (new_Transformation_ok _ _ _ (matrix_at_read _ _ _ _ Hmat2))
      as (l & h3 & E3 & _ & _ & Ha & Hr & _).
    exists (VRef l), M, h3. split; [done|]. split; [unfold matrix_of; by rewrite Ha|].
    split; [done|]. split; [done|]. repeat split; apply Hent; lia.
Qed.
(** ** [copy] and [inverse] *)

Lemma lists_kept_inst (h : heap) l c a o :
  h !! l = Some (OInst c a) -> lists_kept h (<[l := o]> h).
Proof.
  intros Hl l' xs Hl'. rewrite lookup_insert_ne; [done|]. intros ->. congruence.
Qed.

Lemma read_matrix_kept (h h' : heap) v m :
  lists_kept h h' -> read_matrix h v = Some m -> read_matrix h' v = Some m.
Proof.
  intros Hk. unfold read_matrix. destruct v as [| | |l]; try done.
  destruct (h !! l) as [[rs| |]|] eqn:E; try done.
  rewrite (Hk _ _ E). rewrite !mapM_Some. intros HF. eapply Forall2_impl; [exact HF|].
  intros v r. unfold read_row. destruct v as [| | |l']; try done.
  destruct (h !! l') as [[xs| |]|] eqn:E'; try done. by rewrite (Hk _ _ E').
Qed.

Lemma copy_Transformation_eq (h : heap) T lm rs :
  class_of h T = Some Transformation ->
  attr h T "matrix" = Some (VRef lm) -> h !! lm = Some (OList rs) ->
  copy T h =
  (Ret (VRef (fresh (dom (<[fresh (dom h) := OList rs]> h)))),
   <[fresh (dom (<[fresh (dom h) := OList rs]> h)) :=
       OInst Transformation {["matrix" := VRef (fresh (dom h))]}]>
     (<[fresh (dom h) := OList rs]> h)).
Proof.
  intros Hc Ha Hlm. unfold copy.
  rewrite (bind_Ret _ _ _ _ _ (type_of_eq _ _ _ Hc)).
  rewrite (bind_Ret _ _ _ _ _ (getattr_eq _ _ _ _ Ha)).
  unfold bind at 1. unfold copy_method. rewrite Hlm.
  unfold bind, alloc, ret. cbn zeta. apply new_Transformation_eq.
Qed.

(** X1.  For every base-class instance [T] with a 4x4 matrix of floats,
    [T.copy()] returns a new instance whose [matrix] is a new outer list
    holding the row objects of [T] themselves: an element assigned
    through the copy is read back through [T]. *)
Theorem copy_shares_rows (T m : val) (M : mat) (h : heap) :
  class_of h T = Some Transformation ->
  attr h T "matrix" = Some m ->
  read_matrix h m = Some M ->
  is_4x4 M ->
  exists C m' h',
    copy T h = (Ret C, h') /\ h ⊆ h' /\ C <> T /\
    attr h' C "matrix" = Some m' /\ m' <> m /\
    read_matrix h' m' = Some M /\
    forall i j x, (0 <= i < 4)%Z -> (0 <= j < 4)%Z ->
      exists h3, Transformation_setitem C i j x h' = (Ret tt, h3) /\
                 Transformation_getitem T i j h3 = (Ret x, h3).
Proof.
  intros Hc Ha Hr H44.
  destruct (read_matrix_inv _ _ _ Hr) as (lm & rs & -> & Hlm & HM).
  rewrite (copy_Transformation_eq h T lm rs Hc Ha Hlm).
  set (l1 := fresh (dom h)). set (h1 := <[l1 := OList rs]> h).
  set (l2 := fresh (dom h1)).
  set (h2 := <[l2 := OInst Transformation {["matrix" := VRef l1]}]> h1).
  assert (h !! l1 = None) as Hl1 by apply fresh_None.
  assert (h1 !! l2 = None) as Hl2 by apply fresh_None.
  assert (h ⊆ h1) as Hs1 by apply insert_fresh_subseteq.
  assert (h1 ⊆ h2) as Hs2 by apply insert_fresh_subseteq.
  assert (h ⊆ h2) as Hs by (by etrans).
  assert (attr h2 (VRef l2) "matrix" = Some (VRef l1)) as Ha2.
  { unfold attr, h2. rewrite lookup_insert_eq. apply lookup_singleton_eq. }
  assert (h2 !! l1 = Some (OList rs)) as Hl1'.
  { eapply lookup_weaken; [|exact Hs2]. apply lookup_insert_eq. }
  pose proof (lookup_weaken _ _ _ _ Hlm Hs) as Hlm2.
  pose proof (read_matrix_mono _ _ _ _ Hs Hr) as Hr2.
  assert (mapM (read_row h2) rs = Some M) as HM2.
  { unfold read_matrix in Hr2. by rewrite Hlm2 in Hr2. }
  exists (VRef l2), (VRef l1), h2. repeat split; try done.
  - intros <-. unfold class_of in Hc.
    destruct (h !! l2) as [o|] eqn:E; [|done].
    by rewrite (lookup_weaken _ _ _ _ E Hs1) in Hl2.
  - intros [= <-]. congruence.
  - unfold read_matrix. by rewrite Hl1'.
  - intros i j x Hi Hj.
    exact (shared_rows_observable h2 (VRef l2) T l1 lm rs M Ha2
             (attr_mono _ _ _ _ _ Hs Ha) Hl1' Hlm2 HM2 H44 i j x Hi Hj).
Qed.

(** X2.  For every base-class instance [T] whose matrix the kernel inverts,
    [T.inverse()] returns a new instance holding the inverse and changes
    no object of the store: [T] keeps its matrix. *)
Theorem inverse_returns_a_new_instance (T m : val) (A Ai : mat) (h : heap) :
  class_of h T = Some Transformation ->
  attr h T "matrix" = Some m ->
  read_matrix h m = Some A ->
  matrix_inverse A = Ret Ai ->
  exists T' h',
    inverse T h = (Ret T', h') /\ h ⊆ h' /\ T' <> T /\
    class_of h' T' = Some Transformation /\
    matrix_of h' T' = Some Ai /\
    matrix_of h' T = Some A.
Proof.
  intros Hc Ha Hr Hinv.
  destruct (read_matrix_inv _ _ _ Hr) as (lm & rs & -> & Hlm & HM).
  unfold inverse. rewrite (bind_Ret _ _ _ _ _ (copy_Transformation_eq h T lm rs Hc Ha Hlm)).
  set (l1 := fresh (dom h)). set (h1 := <[l1 := OList rs]> h).
  set (l2 := fresh (dom h1)).
  set (h2 := <[l2 := OInst Transformation {["matrix" := VRef l1]}]> h1).
  assert (h !! l1 = None) as Hl1 by apply fresh_None.
  assert (h1 !! l2 = None) as Hl2 by apply fresh_None.
  assert (h ⊆ h1) as Hs1 by apply insert_fresh_subseteq.
  assert (h1 ⊆ h2) as Hs2 by apply insert_fresh_subseteq.
  assert (h ⊆ h2) as Hs by (by etrans).
  assert (h !! l2 = None) as Hl2' by (eapply lookup_weaken_None; eauto).
  assert (attr h2 (VRef l2) "matrix" = Some (VRef l1)) as Ha2.
  { unfold attr, h2. rewrite lookup_insert_eq. apply lookup_singleton_eq. }
  assert (h2 !! l1 = Some (OList rs)) as Hl1'.
  { eapply lookup_weaken; [|exact Hs2]. apply lookup_insert_eq. }
  pose proof (lookup_weaken _ _ _ _ Hlm Hs) as Hlm2.
  pose proof (read_matrix_mono _ _ _ _ Hs Hr) as Hr2.
  assert (read_matrix h2 (VRef l1) = Some A) as Hr1.
  { unfold read_matrix in *. by rewrite Hl1', <- Hr2, Hlm2. }
  unfold bind at 1. unfold invert.
  rewrite (bind_Ret _ _ _ _ _ (getattr_eq _ _ _ _ Ha2)).
  destruct (call1_ok _ _ _ _ h2 Hr1 Hinv) as (li & h3 & E3 & Hs3 & Hli & Hr3).
  rewrite (bind_Ret _ _ _ _ _ E3).
  assert (h3 !! l2 = Some (OInst Transformation {["matrix" := VRef l1]})) as Hl23.
  { eapply lookup_weaken; [|exact Hs3]. apply lookup_insert_eq. }
  unfold setattr. rewrite Hl23. unfold ret.
  set (h4 := <[l2 := _]> h3).
  assert (h ⊆ h4) as Hs4.
  { unfold h4. apply insert_subseteq_r; [done|]. by etrans. }
  exists (VRef l2), h4. repeat split; try done.
  - intros <-. unfold class_of in Hc. by rewrite Hl2' in Hc.
  - unfold class_of, h4. by rewrite lookup_insert_eq.
  - unfold matrix_of. replace (attr h4 (VRef l2) "matrix") with (Some (VRef li)).
    + eapply read_matrix_kept; [|exact Hr3]. by eapply lists_kept_inst.
    + unfold attr, h4. rewrite lookup_insert_eq. by rewrite lookup_insert_eq.
  - eapply matrix_of_mono; [exact Hs4|]. unfold matrix_of. by rewrite Ha.
Qed.

(** X3.  [copy] builds its result with the constructor of the class of [self]:
    a [Scale] instance whose matrix does not pass the check of
    [Scale.__init__] can neither be copied nor inverted. *)
Theorem copy_validates_again (T m : val) (A : mat) (d : decomposition) (check : mat) (h : heap) :
  class_of h T = Some Scale ->
  attr h T "matrix" = Some m ->
  read_matrix h m = Some A -> A <> [] ->
  decompose_matrix A = Ret d ->
  matrix_from_scale_factors (d_scale d) = Ret check ->
  allclose (flatten A) (flatten check) = false ->
  (exists h', copy T h = (Raise not_a_scale, h')) /\
  (exists h', inverse T h = (Raise not_a_scale, h')).
Proof.
  intros Hc Ha Hr Hne Hd Hck Hfar.
  destruct (read_matrix_inv _ _ _ Hr) as (lm & rs & -> & Hlm & HM).
  assert (exists h', copy T h = (Raise not_a_scale, h')) as [h' E].
  { unfold copy.
    rewrite (bind_Ret _ _ _ _ _ (type_of_eq _ _ _ Hc)).
    rewrite (bind_Ret _ _ _ _ _ (getattr_eq _ _ _ _ Ha)).
    unfold bind at 1. unfold copy_method. rewrite Hlm.
    unfold bind, alloc, ret. cbn zeta.
    set (l1 := fresh (dom h)). set (h1 := <[l1 := OList rs]> h).
    assert (read_matrix h1 (VRef l1) = Some A) as Hr1.
    { assert (h ⊆ h1) as Hs by apply insert_fresh_subseteq.
      pose proof (read_matrix_mono _ _ _ _ Hs Hr) as Hr'.
      unfold read_matrix in Hr'. rewrite (lookup_weaken _ _ _ _ Hlm Hs) in Hr'.
      unfold read_matrix, h1. by rewrite lookup_insert_eq. }
    rewrite (new_Scale_eq _ _ _ _ _ Hr1 Hne Hd Hck), Hfar. by eexists. }
  split; [by exists h'|]. exists h'. unfold inverse. by rewrite (bind_Raise _ _ _ _ _ E).
Qed.
End Proofs.

(** ** What the methods leave alone *)

Section Frames.
Context {K : Kernel}.

Lemma readonly_extends {A} (c : M A) : readonly c -> extends c.
Proof. intros Hc h r h' E. by rewrite (Hc _ _ _ E). Qed.

Lemma readonly_ret {A} (a : A) : readonly (ret a).
Proof. by intros h r h' [= _ <-]. Qed.

Lemma readonly_raise {A} e : readonly (raise (A := A) e).
Proof. by intros h r h' [= _ <-]. Qed.

Lemma readonly_lift {A} (o : outcome A) : readonly (lift o).
Proof. by intros h r h' [= _ <-]. Qed.

Lemma readonly_bind {A B} (c : M A) (k : A -> M B) :
  readonly c -> (forall a, readonly (k a)) -> readonly (bind c k).
Proof.
  intros Hc Hk h r h'. unfold bind. destruct (c h) as [[a|e] h1] eqn:E.
  - intros E'. rewrite (Hk _ _ _ _ E'). by apply (Hc _ _ _ E).
  - intros [= _ <-]. by apply (Hc _ _ _ E).
Qed.

Lemma extends_bind {A B} (c : M A) (k : A -> M B) :
  extends c -> (forall a, extends (k a)) -> extends (bind c k).
Proof.
  intros Hc Hk h r h'. unfold bind. destruct (c h) as [[a|e] h1] eqn:E.
  - intros E'. etrans; [exact (Hc _ _ _ E)|exact (Hk _ _ _ _ E')].
  - intros [= _ <-]. exact (Hc _ _ _ E).
Qed.

Lemma readonly_getattr v name : readonly (getattr v name).
Proof.
  intros h r h'. unfold getattr. repeat case_match; by intros [= _ <-].
Qed.

Lemma readonly_getitem v i : readonly (getitem v i).
Proof. intros h r h' E. pose proof (getitem_heap v i h) as Hh. by rewrite E in Hh. Qed.

Lemma readonly_getkey v k : readonly (getkey v k).
Proof.
  intros h r h'. unfold getkey. repeat case_match; by intros [= _ <-].
Qed.

Lemma readonly_type_of v : readonly (type_of v).
Proof.
  intros h r h'. unfold type_of. repeat case_match; by intros [= _ <-].
Qed.

Lemma readonly_isinstance v c : readonly (isinstance v c).
Proof.
  intros h r h'. unfold isinstance. repeat case_match; by intros [= _ <-].
Qed.

Lemma readonly_py_len v : readonly (py_len v).
Proof.
  intros h r h'. unfold py_len. repeat case_match; by intros [= _ <-].
Qed.

Lemma readonly_truthy v : readonly (truthy v).
Proof.
  intros h r h'. unfold truthy. destruct v as [| | |l]; try by intros [= _ <-].
  destruct (h !! l) as [[| |[] a]|] eqn:E; try by intros [= _ <-].
  all: intros E'; eapply (readonly_bind (py_len (VRef l))); [apply readonly_py_len| |exact E'].
  all: intros n; apply readonly_ret.
Qed.

Lemma readonly_load_matrix v : readonly (load_matrix v).
Proof.
  intros h r h'. unfold load_matrix. case_match; by intros [= _ <-].
Qed.

Lemma readonly_py_sub a b : readonly (py_sub a b).
Proof. unfold py_sub. repeat case_match; (apply readonly_ret || apply readonly_raise). Qed.

Lemma readonly_math_fabs v : readonly (math_fabs v).
Proof. unfold math_fabs. case_match; (apply readonly_ret || apply readonly_raise). Qed.

Lemma extends_alloc o : extends (alloc o).
Proof. intros h r h' [= _ <-]. apply insert_fresh_subseteq. Qed.

Lemma extends_store_rows m : extends (store_rows m).
Proof.
  induction m as [|r m IH]; simpl.
  - apply readonly_extends, readonly_ret.
  - apply extends_bind; [apply extends_alloc|]. intros l.
    apply extends_bind; [exact IH|]. intros ls. apply readonly_extends, readonly_ret.
Qed.

Lemma extends_store_matrix m : extends (store_matrix m).
Proof.
  unfold store_matrix. apply extends_bind; [apply extends_store_rows|]. intros rs.
  apply extends_bind; [apply extends_alloc|]. intros l. apply readonly_extends, readonly_ret.
Qed.

Lemma extends_copy_method v : extends (copy_method v).
Proof.
  intros h r h'. unfold copy_method. destruct v as [| | |l]; try by intros [= _ <-].
  destruct (h !! l) as [[xs|d|]|]; try by intros [= _ <-].
  all: unfold bind, alloc, ret; intros [= _ <-]; apply insert_fresh_subseteq.
Qed.

Lemma extends_call1 f a : extends (call1 f a).
Proof.
  unfold call1. apply extends_bind; [apply readonly_extends, readonly_load_matrix|]. intros A.
  apply extends_bind; [apply readonly_extends, readonly_lift|]. intros R.
  apply extends_store_matrix.
Qed.

Lemma extends_call2 f a b : extends (call2 f a b).
Proof.
  unfold call2. apply extends_bind; [apply readonly_extends, readonly_load_matrix|]. intros A.
  apply extends_bind; [apply readonly_extends, readonly_load_matrix|]. intros B.
  apply extends_bind; [apply readonly_extends, readonly_lift|]. intros R.
  apply extends_store_matrix.
Qed.

(** Assigning an attribute of an object that was not in [h0] keeps [h0]. *)
Lemma setattr_fresh (h0 h h' : heap) l name x r :
  h0 ⊆ h -> h0 !! l = None -> setattr (VRef l) name x h = (r, h') -> h0 ⊆ h'.
Proof.
  intros Hs Hl. unfold setattr. destruct (h !! l) as [[| |c a]|]; try by intros [= _ <-].
  intros [= _ <-]. by apply insert_subseteq_r.
Qed.

Lemma bind_inv {A B} (c : M A) (k : A -> M B) h r h' :
  bind c k h = (r, h') ->
  (exists a h1, c h = (Ret a, h1) /\ k a h1 = (r, h')) \/
  (exists e, c h = (Raise e, h') /\ r = Raise e).
Proof.
  unfold bind. destruct (c h) as [[a|e] h1].
  - intros E. left. by exists a, h1.
  - intros [= <- <-]. right. by exists e.
Qed.

Lemma Scale_init_fresh (h0 h h' : heap) l matrix r :
  h0 ⊆ h -> h0 !! l = None -> Scale_init (VRef l) matrix h = (r, h') -> h0 ⊆ h'.
Proof.
  intros Hs Hl E. unfold Scale_init in E.
  apply bind_inv in E as [(t & h1 & E1 & E2)|(e & E1 & _)];
    apply readonly_truthy in E1; subst; [|done].
  apply bind_inv in E2 as [([] & h1 & E1 & E2)|(e & E1 & _)].
  - assert (h1 = h) as ->; [|by eapply setattr_fresh].
    destruct t; [|by injection E1].
    revert E1. apply readonly_bind; [apply readonly_load_matrix|]. intros m.
    apply readonly_bind; [apply readonly_lift|]. intros d.
    apply readonly_bind; [apply readonly_lift|]. intros check.
    destruct (negb _); [apply readonly_raise|apply readonly_ret].
  - assert (h' = h) as ->; [|done].
    destruct t; [|by injection E1].
    revert E1. apply readonly_bind; [apply readonly_load_matrix|]. intros m.
    apply readonly_bind; [apply readonly_lift|]. intros d.
    apply readonly_bind; [apply readonly_lift|]. intros check.
    destruct (negb _); [apply readonly_raise|apply readonly_ret].
Qed.

(** The constructor returns a new object and changes no other. *)
Lemma new_fresh c matrix (h : heap) r h' :
  new c matrix h = (r, h') ->
  h ⊆ h' /\ (forall v, r = Ret v -> exists l, v = VRef l /\ h !! l = None).
Proof.
  unfold new. unfold bind at 1, alloc. cbn zeta.
  set (l := fresh (dom h)). set (h1 := <[l := OInst c ∅]> h).
  assert (h !! l = None) as Hl by apply fresh_None.
  assert (h ⊆ h1) as Hs by apply insert_fresh_subseteq.
  assert (forall (i : M unit) r h',
            (forall rr hh, i h1 = (rr, hh) -> h ⊆ hh) ->
            bind i (fun _ => ret (VRef l)) h1 = (r, h') ->
            h ⊆ h' /\ (forall v, r = Ret v -> exists l, v = VRef l /\ h !! l = None)) as Hgen.
  { intros i r0 h0 Hi. unfold bind. destruct (i h1) as [[[]|e] h2] eqn:E.
    - intros [= <- <-]. split; [by eapply Hi|]. intros v [= <-]. by exists l.
    - intros [= <- <-]. split; [by eapply Hi|]. intros v [=]. }
  destruct c.
  - apply Hgen. intros rr hh E. by eapply setattr_fresh.
  - apply Hgen. intros rr hh E. by eapply Scale_init_fresh.
  - apply Hgen. by intros rr hh [= _ <-].
Qed.

Lemma extends_new c matrix : extends (new c matrix).
Proof. intros h r h' E. by apply (new_fresh _ _ _ _ _ E). Qed.

Lemma extends_to_data self : extends (to_data self).
Proof.
  unfold to_data. apply extends_bind; [apply readonly_extends, readonly_getattr|]. intros m.
  apply extends_bind; [apply extends_alloc|]. intros l. apply readonly_extends, readonly_ret.
Qed.

Lemma extends_from_data c data : extends (from_data c data).
Proof.
  unfold from_data. apply extends_bind; [apply readonly_extends, readonly_getkey|].
  intros m. apply extends_new.
Qed.

Lemma copy_fresh self (h : heap) r h' :
  copy self h = (r, h') ->
  h ⊆ h' /\ (forall v, r = Ret v -> exists l, v = VRef l /\ h !! l = None).
Proof.
  unfold copy. unfold bind at 1.
  destruct (type_of self h) as [[c|e] h1] eqn:E1; apply readonly_type_of in E1; subst h1.
  2:{ intros [= <- <-]. split; [done|]. by intros v [=]. }
  unfold bind at 1.
  destruct (getattr self "matrix" h) as [[m|e] h1] eqn:E2;
    apply readonly_getattr in E2; subst h1.
  2:{ intros [= <- <-]. split; [done|]. by intros v [=]. }
  unfold bind at 1.
  destruct (copy_method m h) as [[m'|e] h1] eqn:E3; apply extends_copy_method in E3.
  2:{ intros [= <- <-]. split; [done|]. by intros v [=]. }
  intros E4. apply new_fresh in E4 as [Hs Hv]. split; [by etrans|].
  intros v Hr. destruct (Hv v Hr) as (l & -> & Hl). exists l. split; [done|].
  by eapply lookup_weaken_None.
Qed.

(** [T = self.copy(); T.update(); return T] where [update] assigns an
    attribute of [T] after computing new objects. *)
Lemma copy_then_update self (f : mat -> outcome mat) :
  extends (let* T := copy self in
           (let* m := getattr T "matrix" in
            let* t := call1 f m in
            setattr T "matrix" t) ;;
           ret T).
Proof.
  intros h r h'. unfold bind at 1.
  destruct (copy self h) as [[T|e] h1] eqn:E1; apply copy_fresh in E1 as [Hs Hv].
  2:{ by intros [= _ <-]. }
  destruct (Hv T eq_refl) as (l & -> & Hl).
  unfold bind at 1. unfold bind at 1.
  destruct (getattr (VRef l) "matrix" h1) as [[m|e] h2] eqn:E2;
    apply readonly_getattr in E2; subst h2.
  2:{ by intros [= _ <-]. }
  unfold bind at 1.
  destruct (call1 f m h1) as [[t|e] h2] eqn:E3; apply extends_call1 in E3.
  2:{ intros [= _ <-]. by etrans. }
  destruct (setattr (VRef l) "matrix" t h2) as [[[]|e] h3] eqn:E4;
    eapply (setattr_fresh h) in E4; try done; try (by etrans).
  - by intros [= _ <-].
  - by intros [= _ <-].
Qed.

Lemma extends_concatenated self other : extends (concatenated self other).
Proof.
  unfold concatenated.
  apply extends_bind; [apply readonly_extends, readonly_type_of|]. intros c.
  apply extends_bind; [apply readonly_extends, readonly_isinstance|]. intros [|].
  all: apply extends_bind; [apply readonly_extends, readonly_getattr|]; intros a.
  all: apply extends_bind; [apply readonly_extends, readonly_getattr|]; intros b.
  all: apply extends_bind; [apply extends_call2|]; intros p.
  all: apply extends_new.
Qed.

Lemma extends_from_frame c f : extends (from_frame c f).
Proof.
  unfold from_frame. apply extends_bind; [apply readonly_extends, readonly_lift|]. intros m.
  apply extends_bind; [apply extends_store_matrix|]. intros v. apply extends_new.
Qed.

Lemma extends_from_frame_to_frame c f1 f2 : extends (from_frame_to_frame c f1 f2).
Proof.
  unfold from_frame_to_frame.
  apply extends_bind; [apply extends_from_frame|]. intros T1.
  apply extends_bind; [apply extends_from_frame|]. intros T2.
  apply extends_bind; [apply readonly_extends, readonly_getattr|]. intros m2.
  apply extends_bind; [apply readonly_extends, readonly_getattr|]. intros m1.
  apply extends_bind; [apply extends_call1|]. intros i1.
  apply extends_bind; [apply extends_call2|]. intros p. apply extends_new.
Qed.

Lemma extends_change_basis c f1 f2 : extends (change_basis c f1 f2).
Proof.
  unfold change_basis.
  apply extends_bind; [apply extends_from_frame|]. intros T1.
  apply extends_bind; [apply extends_from_frame|]. intros T2.
  apply extends_bind; [apply readonly_extends, readonly_getattr|]. intros m2.
  apply extends_bind; [apply extends_call1|]. intros i2.
  apply extends_bind; [apply readonly_extends, readonly_getattr|]. intros m1.
  apply extends_bind; [apply extends_call2|]. intros p. apply extends_new.
Qed.

Lemma extends_from_factors c factors fr : extends (from_factors c factors fr).
Proof.
  intros h r h'. unfold from_factors. unfold bind at 1.
  destruct (new c VNone h) as [[S|e] h1] eqn:E1; apply new_fresh in E1 as [Hs Hv].
  2:{ by intros [= _ <-]. }
  destruct (Hv S eq_refl) as (l & -> & Hl).
  assert (forall m r h', 
            (let* v := store_matrix m in setattr (VRef l) "matrix" v) h1 = (r, h') -> h ⊆ h')
    as Hset.
  { intros m r0 h0. unfold bind.
    destruct (store_matrix m h1) as [[v|e] h2] eqn:E2; apply extends_store_matrix in E2.
    - intros E3. eapply setattr_fresh; [|exact Hl|exact E3]. by etrans.
    - intros [= _ <-]. by etrans. }
  assert (forall (i : M unit) r h',
            (forall rr hh, i h1 = (rr, hh) -> h ⊆ hh) ->
            bind i (fun _ => ret (VRef l)) h1 = (r, h') -> h ⊆ h') as Hgen.
  { intros i r0 h0 Hi. unfold bind. destruct (i h1) as [[[]|e] h2] eqn:E.
    - intros [= _ <-]. by eapply Hi.
    - intros [= _ <-]. by eapply Hi. }
  apply Hgen. intros rr hh. destruct fr as [f|].
  - unfold bind at 1. unfold lift at 1.
    destruct (matrix_from_change_of_basis worldXY f); [|by intros [= _ <-]].
    unfold bind at 1. unfold lift at 1.
    destruct (matrix_from_scale_factors factors); [|by intros [= _ <-]].
    unfold bind at 1. unfold lift at 1.
    destruct (matrix_from_change_of_basis f worldXY); [|by intros [= _ <-]].
    unfold bind at 1. unfold lift at 1.
    destruct (multiply_matrices _ _); [|by intros [= _ <-]].
    unfold bind at 1. unfold lift at 1.
    destruct (multiply_matrices _ _); [|by intros [= _ <-]].
    apply Hset.
  - unfold bind at 1. unfold lift at 1.
    destruct (matrix_from_scale_factors factors); [|by intros [= _ <-]].
    apply Hset.
Qed.

(** ** [from_list] builds its matrix from new objects *)

Lemma for_invariant {A R} (I : heap -> Prop) (body : A -> M (option R)) xs :
  (forall x, x ∈ xs -> forall h r h', I h -> body x h = (r, h') -> I h') ->
  forall h r h', I h -> for_ xs body h = (r, h') -> I h'.
Proof.
  induction xs as [|x xs IH]; intros Hb h r h' HI; simpl.
  - by intros [= _ <-].
  - intros E. apply bind_inv in E as [(o & h1 & E1 & E2)|(e & E1 & _)].
    + assert (I h1) as HI1 by (eapply Hb; [left|exact HI|exact E1]).
      destruct o as [v|]; [by injection E2 as _ <-|].
      eapply IH; [|exact HI1|exact E2]. intros y Hy. apply Hb. by right.
    + eapply Hb; [left|exact HI|exact E1].
Qed.

Lemma range4_elem (i : Z) : i ∈ range4 -> (0 <= i < 4)%Z.
Proof. intros Hi. exact (proj1 (Forall_forall _ _) range4_bounds _ Hi). Qed.

Lemma index_readonly numbers z : readonly (index numbers z).
Proof.
  unfold index. repeat case_match; (apply readonly_ret || apply readonly_raise).
Qed.

Lemma from_list_body_inv numbers (h : heap) lo ls rows (i j : Z) r h' :
  matrix_at h lo ls rows -> shape4 rows -> NoDup ls -> lo ∉ ls ->
  (0 <= i < 4)%Z -> (0 <= j < 4)%Z ->
  from_list_body numbers (VRef lo) i j h = (r, h') ->
  (exists rows', matrix_at h' lo ls rows' /\ shape4 rows') /\ same_outside ls h h'.
Proof.
  intros Hmat Hsh Hnd Hnot Hi Hj E. unfold from_list_body in E.
  apply bind_inv in E as [(x & h1 & E1 & E2)|(e & E1 & _)];
    apply index_readonly in E1; subst; [|by split; [exists rows|]].
  destruct Hsh as [Hlen Hrows].
  destruct (lookup_lt_is_Some_2 rows (Z.to_nat i)) as [rw Hr]; [lia|].
  destruct (lookup_lt_is_Some_2 ls (Z.to_nat i)) as [l Hl].
  { destruct Hmat as [_ HF]. apply Forall2_length in HF. lia. }
  pose proof (proj1 (Forall_lookup _ _) Hrows _ _ Hr) as Hlr. simpl in Hlr.
  destruct (matrix_at_set h lo ls rows (Z.to_nat i) (Z.to_nat j) l rw (VFloat x)
              Hmat Hnd Hl Hr ltac:(lia)) as [E0 Hmat'].
  rewrite !Z2Nat.id in E0 by lia.
  rewrite <- bind_assoc_at in E2. rewrite (bind_Ret _ _ _ _ _ E0) in E2.
  injection E2 as _ <-. split.
  - eexists. split; [by apply Hmat'|].
    pose proof (write_shape rows (Z.to_nat i) (Z.to_nat j) (VFloat x) (conj Hlen Hrows)) as Hw.
    unfold write in Hw. by rewrite Hr in Hw.
  - intros l' Hl'. rewrite lookup_insert_ne; [done|]. intros <-. apply Hl'.
    by eapply list_elem_of_lookup_2.
Qed.

Lemma from_list_loops_inv numbers (h : heap) lo ls rows r h' :
  matrix_at h lo ls rows -> shape4 rows -> NoDup ls -> lo ∉ ls ->
  for_ range4 (fun i => for_ range4 (fun j => from_list_body numbers (VRef lo) i j)) h
    = (r, h') ->
  (exists rows', matrix_at h' lo ls rows' /\ shape4 rows') /\ same_outside ls h h'.
Proof.
  intros Hmat Hsh Hnd Hnot.
  set (I := fun h1 : heap =>
              (exists rows', matrix_at h1 lo ls rows' /\ shape4 rows') /\ same_outside ls h h1).
  assert (I h) as HI by (split; [by exists rows|done]).
  revert h r h' Hmat Hsh I HI. intros h r h' Hmat Hsh I HI.
  apply (for_invariant (R := unit) I); [|done]. intros i Hi%range4_elem h1 r1 h2 HI1.
  apply (for_invariant (R := unit) I); [|done]. intros j Hj%range4_elem h3 r3 h4 HI3 E.
  destruct HI3 as [(rows3 & Hmat3 & Hsh3) Hout3].
  destruct (from_list_body_inv numbers h3 lo ls rows3 i j r3 h4 Hmat3 Hsh3 Hnd Hnot Hi Hj E)
    as [Hrows4 Hout4].
  split; [done|]. intros l Hl. by rewrite (Hout4 l Hl), (Hout3 l Hl).
Qed.

Lemma store_matrix_fresh m (h : heap) :
  exists lo ls h', store_matrix m h = (Ret (VRef lo), h') /\ h ⊆ h' /\
    matrix_at h' lo ls (float_rows m) /\ NoDup ls /\ (lo ∉ ls) /\
    h !! lo = None /\ Forall (fun l => h !! l = None) ls.
Proof.
  unfold store_matrix.
  destruct (store_rows_fresh m h) as (ls & h1 & E & Hs & Hrows & Hfresh & Hnd).
  rewrite (bind_Ret _ _ _ _ _ E). unfold bind, alloc, ret. cbn zeta.
  set (lo := fresh (dom h1)). exists lo, ls, (<[lo := OList (VRef <$> ls)]> h1).
  assert (h1 !! lo = None) as Hlo by apply fresh_None.
  assert (lo ∉ ls) as Hnot.
  { intros Hin. destruct (list_elem_of_lookup_1 _ _ Hin) as [k Hk].
    destruct (Forall2_lookup_l _ _ _ _ _ Hrows Hk) as (r & _ & Hr). congruence. }
  repeat split; try done.
  - etrans; [exact Hs|]. by apply insert_subseteq.
  - apply lookup_insert_eq.
  - unfold float_rows. apply Forall2_fmap_r. eapply Forall2_impl; [exact Hrows|].
    intros l r Hl. simpl in *. rewrite lookup_insert_ne; [done|]. intros ->. congruence.
  - by eapply lookup_weaken_None.
Qed.

Lemma from_list_spec numbers (M : mat) (h : heap) :
  row_major numbers = Some M ->
  exists lT lo ls h',
    from_list Transformation numbers h = (Ret (VRef lT), h') /\ h ⊆ h' /\
    attr h' (VRef lT) "matrix" = Some (VRef lo) /\
    class_of h' (VRef lT) = Some Transformation /\
    matrix_at h' lo ls (float_rows M) /\ NoDup ls /\ (lo ∉ ls) /\
    h !! lT = None /\ h !! lo = None /\ Forall (fun l => h !! l = None) ls.
Proof.
  intros HM.
  destruct (store_matrix_fresh (identity_matrix 4) h)
    as (lo & ls & h1 & E1 & Hs1 & Hmat & Hnd & Hnot & Hlo & Hls).
  assert (shape4 (float_rows (identity_matrix 4))) as Hsh.
  { split; [done|]. by repeat constructor. }
  destruct (outer_loop numbers lo ls range4 range4 Hnd Hnot range4_bounds range4_bounds
              h1 _ Hmat Hsh) as [h2 Hloop].
  rewrite fill_identity, HM in Hloop. simpl in Hloop. destruct Hloop as (E2 & Hmat2 & _).
  destruct (from_list_loops_inv numbers h1 lo ls _ _ _ Hmat Hsh Hnd Hnot E2) as [_ Hout].
  assert (h ⊆ h2) as Hs2.
  { apply map_subseteq_spec. intros l o Hl.
    rewrite Hout; [by eapply lookup_weaken|].
    intros Hin. pose proof (proj1 (Forall_forall _ _) Hls _ Hin) as Hn. simpl in Hn.
    congruence. }
  unfold from_list. rewrite (bind_Ret _ _ _ _ _ E1), (bind_Ret _ _ _ _ _ E2).
  rewrite new_Transformation_eq.
  set (lT := fresh (dom h2)).
  assert (h2 !! lT = None) as HlT by apply fresh_None.
  assert (h2 ⊆ <[lT := OInst Transformation {["matrix" := VRef lo]}]> h2) as Hs3
    by apply insert_fresh_subseteq.
  exists lT, lo, ls, (<[lT := OInst Transformation {["matrix" := VRef lo]}]> h2).
  repeat split; try done.
  - by etrans.
  - unfold attr. rewrite lookup_insert_eq. apply lookup_singleton_eq.
  - unfold class_of. by rewrite lookup_insert_eq.
  - eapply lookup_weaken; [apply Hmat2|done].
  - destruct Hmat2 as [_ HF]. eapply Forall2_impl; [exact HF|].
    intros l r Hl. simpl in *. by apply (lookup_weaken _ _ _ _ Hl).
  - by eapply lookup_weaken_None.
Qed.

Lemma extends_from_list c numbers : extends (from_list c numbers).
Proof.
  intros h r h' E. unfold from_list in E.
  destruct (store_matrix_fresh (identity_matrix 4) h)
    as (lo & ls & h1 & E1 & Hs1 & Hmat & Hnd & Hnot & Hlo & Hls).
  rewrite (bind_Ret _ _ _ _ _ E1) in E.
  assert (shape4 (float_rows (identity_matrix 4))) as Hsh.
  { split; [done|]. by repeat constructor. }
  assert (forall r2 h2,
            for_ range4 (fun i => for_ range4
              (fun j => from_list_body numbers (VRef lo) i j)) h1 = (r2, h2) -> h ⊆ h2) as Hl.
  { intros r2 h2 E2.
    destruct (from_list_loops_inv numbers h1 lo ls _ _ _ Hmat Hsh Hnd Hnot E2) as [_ Hout].
    apply map_subseteq_spec. intros l o Hlk.
    rewrite Hout; [by eapply lookup_weaken|].
    intros Hin. pose proof (proj1 (Forall_forall _ _) Hls _ Hin) as Hn. simpl in Hn.
    congruence. }
  apply bind_inv in E as [(o & h2 & E2 & E3)|(e & E2 & _)].
  - etrans; [exact (Hl _ _ E2)|]. exact (extends_new _ _ _ _ _ E3).
  - exact (Hl _ _ E2).
Qed.

(** X4.  None of these methods changes an object that exists when it is
    called, whatever its arguments and whether it returns or raises:
    they only add objects to the store. *)
Theorem methods_change_no_object
    (self other data : val) (c : cls) (numbers factors : list float)
    (f1 f2 : frame) (fr : option frame) (i j : Z) :
  extends (Transformation_eq self other) /\
  extends (Transformation_getitem self i j) /\
  extends (to_data self) /\
  extends (from_data c data) /\
  extends (from_list c numbers) /\
  extends (from_frame c f1) /\
  extends (from_frame_to_frame c f1 f2) /\
  extends (change_basis c f1 f2) /\
  extends (copy self) /\
  extends (transposed self) /\
  extends (inverse self) /\
  extends (concatenated self other) /\
  extends (from_factors c factors fr).
Proof.
  repeat split.
  - intros h r h' E. rewrite eq_spec_correct in E. by injection E as _ <-.
  - unfold Transformation_getitem.
    apply readonly_extends, readonly_bind; [apply readonly_getattr|]. intros m.
    apply readonly_bind; [apply readonly_getitem|]. intros row. apply readonly_getitem.
  - apply extends_to_data.
  - apply extends_from_data.
  - apply extends_from_list.
  - apply extends_from_frame.
  - apply extends_from_frame_to_frame.
  - apply extends_change_basis.
  - intros h r h' E. by apply (copy_fresh _ _ _ _ E).
  - apply (copy_then_update self transpose_matrix).
  - apply (copy_then_update self matrix_inverse).
  - apply extends_concatenated.
  - apply extends_from_factors.
Qed.

Lemma copy_rebind_ok (f : mat -> outcome mat) (T m : val) (A Ai : mat) (h : heap) :
  class_of h T = Some Transformation ->
  attr h T "matrix" = Some m ->
  read_matrix h m = Some A ->
  f A = Ret Ai ->
  exists T' h',
    (let* T0 := copy T in
     (let* m0 := getattr T0 "matrix" in
      let* t := call1 f m0 in
      setattr T0 "matrix" t) ;;
     ret T0) h = (Ret T', h') /\ h ⊆ h' /\ T' <> T /\
    class_of h' T' = Some Transformation /\
    matrix_of h' T' = Some Ai /\
    matrix_of h' T = Some A.
Proof.
  intros Hc Ha Hr Hinv.
  destruct (read_matrix_inv _ _ _ Hr) as (lm & rs & -> & Hlm & HM).
  rewrite (bind_Ret _ _ _ _ _ (copy_Transformation_eq h T lm rs Hc Ha Hlm)).
  set (l1 := fresh (dom h)). set (h1 := <[l1 := OList rs]> h).
  set (l2 := fresh (dom h1)).
  set (h2 := <[l2 := OInst Transformation {["matrix" := VRef l1]}]> h1).
  assert (h !! l1 = None) as Hl1 by apply fresh_None.
  assert (h1 !! l2 = None) as Hl2 by apply fresh_None.
  assert (h ⊆ h1) as Hs1 by apply insert_fresh_subseteq.
  assert (h1 ⊆ h2) as Hs2 by apply insert_fresh_subseteq.
  assert (h ⊆ h2) as Hs by (by etrans).
  assert (h !! l2 = None) as Hl2' by (eapply lookup_weaken_None; eauto).
  assert (attr h2 (VRef l2) "matrix" = Some (VRef l1)) as Ha2.
  { unfold attr, h2. rewrite lookup_insert_eq. apply lookup_singleton_eq. }
  assert (h2 !! l1 = Some (OList rs)) as Hl1'.
  { eapply lookup_weaken; [|exact Hs2]. apply lookup_insert_eq. }
  pose proof (lookup_weaken _ _ _ _ Hlm Hs) as Hlm2.
  pose proof (read_matrix_mono _ _ _ _ Hs Hr) as Hr2.
  assert (read_matrix h2 (VRef l1) = Some A) as Hr1.
  { unfold read_matrix in *. by rewrite Hl1', <- Hr2, Hlm2. }
  unfold bind at 1.
  rewrite (bind_Ret _ _ _ _ _ (getattr_eq _ _ _ _ Ha2)).
  destruct (call1_ok _ _ _ _ h2 Hr1 Hinv) as (li & h3 & E3 & Hs3 & Hli & Hr3).
  rewrite (bind_Ret _ _ _ _ _ E3).
  assert (h3 !! l2 = Some (OInst Transformation {["matrix" := VRef l1]})) as Hl23.
  { eapply lookup_weaken; [|exact Hs3]. apply lookup_insert_eq. }
  unfold setattr. rewrite Hl23. unfold ret.
  set (h4 := <[l2 := _]> h3).
  assert (h ⊆ h4) as Hs4.
  { unfold h4. apply insert_subseteq_r; [done|]. by etrans. }
  exists (VRef l2), h4. repeat split; try done.
  - intros <-. unfold class_of in Hc. by rewrite Hl2' in Hc.
  - unfold class_of, h4. by rewrite lookup_insert_eq.
  - unfold matrix_of. replace (attr h4 (VRef l2) "matrix") with (Some (VRef li)).
    + eapply read_matrix_kept; [|exact Hr3]. by eapply lists_kept_inst.
    + unfold attr, h4. rewrite lookup_insert_eq. by rewrite lookup_insert_eq.
  - eapply matrix_of_mono; [exact Hs4|]. unfold matrix_of. by rewrite Ha.
Qed.

(** X5.  [transposed] of a base [Transformation] returns a new instance
    holding the transposed matrix; the instance it is called on keeps
    its matrix. *)
Theorem transposed_returns_a_new_instance (T m : val) (A At : mat) (h : heap) :
  class_of h T = Some Transformation ->
  attr h T "matrix" = Some m ->
  read_matrix h m = Some A ->
  transpose_matrix A = Ret At ->
  exists T' h',
    transposed T h = (Ret T', h') /\ h ⊆ h' /\ T' <> T /\
    class_of h' T' = Some Transformation /\
    matrix_of h' T' = Some At /\
    matrix_of h' T = Some A.
Proof. apply (copy_rebind_ok transpose_matrix). Qed.
End Frames.

(** ** Further members *)

Section More.
Context {K : Kernel}.

(** *** [__eq__] *)

Lemma is_nan_Prim2SF (x : float) : PrimFloat.is_nan x = true -> Prim2SF x = S754_nan.
Proof.
  unfold PrimFloat.is_nan. rewrite FloatAxioms.eqb_spec. unfold SFeqb, SFcompare.
  destruct (Prim2SF x) as [s|s| |s m e]; try (destruct s; discriminate); try done.
  rewrite Z.compare_refl, Pos.compare_refl. by destruct s.
Qed.

Lemma close_nan_r (a b : float) : PrimFloat.is_nan b = true -> close a b = true.
Proof.
  intros Hb%is_nan_Prim2SF. unfold close.
  rewrite ltb_spec, abs_spec, sub_spec, Hb. unfold SF64sub, SFsub.
  assert (SFltb (Prim2SF tol) (SFabs S754_nan) = false) as Hn by (vm_compute; reflexivity).
  by destruct (Prim2SF a) as [s|s| |s m e]; rewrite Hn.
Qed.

Lemma close_nan_l (a b : float) : PrimFloat.is_nan a = true -> close a b = true.
Proof.
  intros Ha%is_nan_Prim2SF. unfold close.
  rewrite ltb_spec, abs_spec, sub_spec, Ha. unfold SF64sub, SFsub.
  assert (SFltb (Prim2SF tol) (SFabs S754_nan) = false) as Hn by (vm_compute; reflexivity).
  by rewrite Hn.
Qed.

Lemma eq_spec_cells (h : heap) X Y mx my MX MY :
  attr h X "matrix" = Some mx -> attr h Y "matrix" = Some my ->
  read_matrix h mx = Some MX -> read_matrix h my = Some MY ->
  is_4x4 MX -> is_4x4 MY ->
  (forall (i j : nat) a b, entry MX i j = Some a -> entry MY i j = Some b -> close a b = true) ->
  eq_spec h X Y = true.
Proof.
  intros HaX HaY HrX HrY [HlX HrowsX] [HlY HrowsY] Hclose.
  destruct (read_matrix_inv _ _ _ HrX) as (lx & rsx & -> & Hlx & HMX).
  destruct (read_matrix_inv _ _ _ HrY) as (ly & rsy & -> & Hly & HMY).
  unfold eq_spec. rewrite HaX, HaY.
  apply forallb_forall. intros i (n & Hn & ->)%range4_nat.
  apply forallb_forall. intros j (k & Hk & ->)%range4_nat.
  destruct (lookup_lt_is_Some_2 MX n) as [rx Hrx]; [lia|].
  destruct (lookup_lt_is_Some_2 MY n) as [ry Hry]; [lia|].
  pose proof (proj1 (Forall_lookup _ _) HrowsX n rx Hrx) as Hlrx. simpl in Hlrx.
  pose proof (proj1 (Forall_lookup _ _) HrowsY n ry Hry) as Hlry. simpl in Hlry.
  destruct (lookup_lt_is_Some_2 rx k) as [a Ha]; [lia|].
  destruct (lookup_lt_is_Some_2 ry k) as [b Hb]; [lia|].
  unfold close_at.
  rewrite (cell_of_matrix _ _ _ _ _ _ _ _ Hlx HMX Hrx Ha).
  rewrite (cell_of_matrix _ _ _ _ _ _ _ _ Hly HMY Hry Hb).
  apply (Hclose n k); unfold entry; [by rewrite Hrx|by rewrite Hry].
Qed.

Lemma entry_Forall (P : float -> Prop) (M : mat) i j a :
  Forall (Forall P) M -> entry M i j = Some a -> P a.
Proof.
  intros HM. unfold entry. destruct (M !! i) as [r|] eqn:Hr; [|done].
  intros Ha. pose proof (proj1 (Forall_lookup _ _) HM _ _ Hr) as HPr.
  exact (proj1 (Forall_lookup _ _) HPr _ _ Ha).
Qed.

(** X6.  [T == T] holds for every instance with a 4x4 matrix of floats,
    whatever the floats are. *)
Theorem eq_is_reflexive (T m : val) (M : mat) (h : heap) :
  attr h T "matrix" = Some m ->
  read_matrix h m = Some M ->
  is_4x4 M ->
  Transformation_eq T T h = (Ret true, h).
Proof.
  intros Ha Hr H44. rewrite eq_spec_correct. f_equal. f_equal.
  apply (eq_spec_cells h T T m m M M Ha Ha Hr Hr H44 H44).
  intros i j a b Hi Hj. rewrite Hi in Hj. injection Hj as <-. apply self_close.
Qed.

(** X7.  A matrix of NaNs equals every matrix: the test
    [math.fabs(a - b) > tol] is false when the difference is not a number. *)
Theorem eq_holds_against_nan (A B ma mb : val) (MA MB : mat) (h : heap) :
  attr h A "matrix" = Some ma -> attr h B "matrix" = Some mb ->
  read_matrix h ma = Some MA -> read_matrix h mb = Some MB ->
  is_4x4 MA -> is_4x4 MB ->
  Forall (Forall (fun x => PrimFloat.is_nan x = true)) MB ->
  Transformation_eq A B h = (Ret true, h) /\
  Transformation_eq B A h = (Ret true, h).
Proof.
  intros HaA HaB HrA HrB HA HB Hnan. rewrite !eq_spec_correct. split; f_equal; f_equal.
  - apply (eq_spec_cells h A B ma mb MA MB); try done.
    intros i j a b _ Hb. apply close_nan_r. exact (entry_Forall _ _ _ _ _ Hnan Hb).
  - apply (eq_spec_cells h B A mb ma MB MA); try done.
    intros i j a b Ha _. apply close_nan_l. exact (entry_Forall _ _ _ _ _ Hnan Ha).
Qed.

(** *** The default constructor *)

Lemma no_matrix_never_equal (h : heap) T other :
  attr h T "matrix" = Some VNone ->
  Transformation_eq T other h = (Ret false, h) /\
  Transformation_eq other T h = (Ret false, h).
Proof.
  intros Ha. rewrite !eq_spec_correct. unfold eq_spec. rewrite Ha. split.
  - destruct (attr h other "matrix"); reflexivity.
  - destruct (attr h other "matrix") as [v|]; [|reflexivity].
    assert (close_at h v VNone 0 0 = false) as Hc.
    { unfold close_at. by destruct (cell h v 0 0). }
    unfold range4. simpl. by rewrite Hc.
Qed.

Lemma new_Scale_None (h : heap) :
  new Scale VNone h =
  (Ret (VRef (fresh (dom h))), <[fresh (dom h) := OInst Scale {["matrix" := VNone]}]> h).
Proof.
  unfold new. unfold bind at 1, alloc. cbn zeta.
  set (l := fresh (dom h)). set (h1 := <[l := OInst Scale ∅]> h).
  assert (Scale_init (VRef l) VNone h1
          = (Ret tt, <[l := OInst Scale {["matrix" := VNone]}]> h)) as E.
  { unfold Scale_init.
    rewrite (bind_Ret (truthy VNone) _ h1 false h1 eq_refl).
    rewrite (bind_Ret (ret tt) _ h1 tt h1 eq_refl).
    unfold Transformation_init, setattr, h1.
    by rewrite lookup_insert_eq, insert_insert_eq, insert_empty. }
  by rewrite (bind_Ret _ _ _ _ _ E).
Qed.

(** X8.  [Transformation()] and [Scale()] store [None] as the matrix, and
    [Scale.__init__] skips its check.  Such an instance equals nothing,
    not even itself; it has no element and cannot be copied. *)
Theorem default_instance_has_no_matrix (other : val) (i j : Z) (h : heap) :
  let dflt (c : cls) :=
    exists T h',
      new c VNone h = (Ret T, h') /\
      class_of h' T = Some c /\
      attr h' T "matrix" = Some VNone /\
      Transformation_eq T T h' = (Ret false, h') /\
      Transformation_eq T other h' = (Ret false, h') /\
      Transformation_eq other T h' = (Ret false, h') /\
      Transformation_getitem T i j h' = (Raise TypeError, h') /\
      copy T h' = (Raise AttributeError, h') /\
      inverse T h' = (Raise AttributeError, h') in
  dflt Transformation /\ dflt Scale.
Proof.
  assert (forall c l (h' : heap),
            h' !! l = Some (OInst c {["matrix" := VNone]}) ->
            class_of h' (VRef l) = Some c /\
            attr h' (VRef l) "matrix" = Some VNone /\
            Transformation_eq (VRef l) (VRef l) h' = (Ret false, h') /\
            Transformation_eq (VRef l) other h' = (Ret false, h') /\
            Transformation_eq other (VRef l) h' = (Ret false, h') /\
            Transformation_getitem (VRef l) i j h' = (Raise TypeError, h') /\
            copy (VRef l) h' = (Raise AttributeError, h') /\
            inverse (VRef l) h' = (Raise AttributeError, h')) as Hgen.
  { intros c l h' Hl.
    assert (attr h' (VRef l) "matrix" = Some VNone) as Ha.
    { unfold attr. rewrite Hl. apply lookup_singleton_eq. }
    assert (class_of h' (VRef l) = Some c) as Hc by (unfold class_of; by rewrite Hl).
    assert (copy (VRef l) h' = (Raise AttributeError, h')) as Hcopy.
    { unfold copy. rewrite (bind_Ret _ _ _ _ _ (type_of_eq _ _ _ Hc)).
      by rewrite (bind_Ret _ _ _ _ _ (getattr_eq _ _ _ _ Ha)). }
    repeat split; try done.
    - exact (proj1 (no_matrix_never_equal h' (VRef l) (VRef l) Ha)).
    - exact (proj1 (no_matrix_never_equal h' (VRef l) other Ha)).
    - exact (proj2 (no_matrix_never_equal h' (VRef l) other Ha)).
    - unfold Transformation_getitem. by rewrite (bind_Ret _ _ _ _ _ (getattr_eq _ _ _ _ Ha)).
    - unfold inverse. by rewrite (bind_Raise _ _ _ _ _ Hcopy). }
  cbn zeta. split.
  - rewrite new_Transformation_eq. do 2 eexists. split; [reflexivity|].
    apply Hgen. apply lookup_insert_eq.
  - rewrite new_Scale_None. do 2 eexists. split; [reflexivity|].
    apply Hgen. apply lookup_insert_eq.
Qed.

(** *** [__setitem__] and [__getitem__] *)

Lemma norm_index_length_insert {A} (xs : list A) k x i :
  norm_index (length (<[k := x]> xs)) i = norm_index (length xs) i.
Proof. by rewrite length_insert. Qed.

(** X9.  For an instance whose matrix has distinct row objects: after
    [T[i, j] = x] the element [T[i, j]] is [x] and every other element
    reads as before; negative indices count from the end. *)
Theorem setitem_then_getitem
    (T : val) (lo : loc) (ls : list loc) (rows : list (list val)) (r : list val)
    (i j : Z) (ki kj : nat) (x : val) (h : heap) :
  attr h T "matrix" = Some (VRef lo) ->
  matrix_at h lo ls rows -> NoDup ls -> lo ∉ ls ->
  norm_index (length rows) i = Some ki ->
  rows !! ki = Some r ->
  norm_index (length r) j = Some kj ->
  exists h',
    Transformation_setitem T i j x h = (Ret tt, h') /\
    Transformation_getitem T i j h' = (Ret x, h') /\
    matrix_at h' lo ls (<[ki := <[kj := x]> r]> rows) /\
    (forall i' j' ki' kj' r' y,
       norm_index (length rows) i' = Some ki' -> rows !! ki' = Some r' ->
       norm_index (length r') j' = Some kj' -> r' !! kj' = Some y ->
       (ki', kj') <> (ki, kj) ->
       Transformation_getitem T i' j' h' = (Ret y, h')).
Proof.
  intros Ha [Hlo Hrows] Hnd Hnot Hi Hr Hj.
  pose proof (Forall2_length _ _ _ Hrows) as Hlen.
  destruct (lookup_lt_is_Some_2 ls ki) as [l Hl].
  { apply lookup_lt_Some in Hr. lia. }
  pose proof (Forall2_lookup_lr _ _ _ _ _ _ Hrows Hl Hr) as Hlr. simpl in Hlr.
  set (h' := <[l := OList (<[kj := x]> r)]> h).
  assert (l <> lo) as Hllo.
  { intros ->. apply Hnot. by eapply list_elem_of_lookup_2. }
  assert (attr h' T "matrix" = Some (VRef lo)) as Ha'.
  { unfold attr in *. destruct T as [| | |lT]; try done.
    destruct (decide (l = lT)) as [->|Hne]; [by rewrite Hlr in Ha|].
    unfold h'. by rewrite lookup_insert_ne. }
  assert (matrix_at h' lo ls (<[ki := <[kj := x]> r]> rows)) as Hmat'.
  { split.
    - unfold h'. by rewrite lookup_insert_ne.
    - apply Forall2_lookup. intros k. destruct (decide (k = ki)) as [->|Hne].
      + rewrite Hl, list_lookup_insert_eq by (apply lookup_lt_Some in Hr; lia).
        constructor. apply lookup_insert_eq.
      + rewrite list_lookup_insert_ne by done.
        destruct (ls !! k) as [l'|] eqn:Hl', (rows !! k) as [r'|] eqn:Hr'.
        * constructor. unfold h'. rewrite lookup_insert_ne.
          -- exact (Forall2_lookup_lr _ _ _ _ _ _ Hrows Hl' Hr').
          -- intros <-. apply Hne. eapply NoDup_lookup; eauto.
        * apply lookup_lt_Some in Hl'. apply lookup_ge_None in Hr'. lia.
        * apply lookup_lt_Some in Hr'. apply lookup_ge_None in Hl'. lia.
        * constructor. }
  assert (forall i' j' ki' kj' r' y (hh : heap) rws,
            attr hh T "matrix" = Some (VRef lo) -> matrix_at hh lo ls rws ->
            length rws = length rows ->
            norm_index (length rows) i' = Some ki' -> rws !! ki' = Some r' ->
            norm_index (length r') j' = Some kj' -> r' !! kj' = Some y ->
            Transformation_getitem T i' j' hh = (Ret y, hh)) as Hget.
  { intros i' j' ki' kj' r' y hh rws Hat [Hlo' Hrows'] Hlen' Hi' Hr' Hj' Hy.
    unfold Transformation_getitem.
    rewrite (bind_Ret _ _ _ _ _ (getattr_eq _ _ _ _ Hat)).
    pose proof (Forall2_length _ _ _ Hrows') as Hlen''.
    destruct (lookup_lt_is_Some_2 ls ki') as [l' Hl'].
    { apply lookup_lt_Some in Hr'. lia. }
    pose proof (Forall2_lookup_lr _ _ _ _ _ _ Hrows' Hl' Hr') as Hlr'. simpl in Hlr'.
    unfold bind, getitem. rewrite Hlo', length_fmap.
    replace (length ls) with (length rows) by lia. rewrite Hi'.
    rewrite list_lookup_fmap, Hl'. simpl. by rewrite Hlr', Hj', Hy. }
  exists h'. repeat split.
  - unfold Transformation_setitem.
    rewrite (bind_Ret _ _ _ _ _ (getattr_eq _ _ _ _ Ha)).
    unfold bind, getitem. rewrite Hlo, length_fmap.
    replace (length ls) with (length rows) by lia. rewrite Hi.
    rewrite list_lookup_fmap, Hl. simpl. unfold setitem. by rewrite Hlr, Hj.
  - apply (Hget i j ki kj (<[kj := x]> r) x h' (<[ki := <[kj := x]> r]> rows)); try done.
    + by rewrite length_insert.
    + apply list_lookup_insert_eq. apply lookup_lt_Some in Hr. lia.
    + by rewrite length_insert.
    + apply list_lookup_insert_eq. by eapply norm_index_lt.
  - apply Hmat'.
  - apply Hmat'.
  - intros i' j' ki' kj' r' y Hi' Hr' Hj' Hy Hne.
    destruct (decide (ki' = ki)) as [->|Hk].
    + rewrite Hr in Hr'. injection Hr' as <-.
      apply (Hget i' j' ki kj' (<[kj := x]> r) y h' (<[ki := <[kj := x]> r]> rows));
        try done.
      * by rewrite length_insert.
      * apply list_lookup_insert_eq. apply lookup_lt_Some in Hr. lia.
      * by rewrite length_insert.
      * rewrite list_lookup_insert_ne; [done|]. intros <-. by apply Hne.
    + apply (Hget i' j' ki' kj' r' y h' (<[ki := <[kj := x]> r]> rows)); try done.
      * by rewrite length_insert.
      * by rewrite list_lookup_insert_ne.
Qed.

(** *** [list], [scale] and [from_list] *)

Lemma setitem_eq (h : heap) X lo ls rows r l (i j : Z) ki kj x :
  attr h X "matrix" = Some (VRef lo) -> matrix_at h lo ls rows ->
  norm_index (length rows) i = Some ki -> rows !! ki = Some r -> ls !! ki = Some l ->
  norm_index (length r) j = Some kj ->
  Transformation_setitem X i j x h = (Ret tt, <[l := OList (<[kj := x]> r)]> h).
Proof.
  intros Ha [Hlo Hrows] Hi Hr Hl Hj.
  pose proof (Forall2_length _ _ _ Hrows) as Hlen.
  pose proof (Forall2_lookup_lr _ _ _ _ _ _ Hrows Hl Hr) as Hlr. simpl in Hlr.
  unfold Transformation_setitem.
  rewrite (bind_Ret _ _ _ _ _ (getattr_eq _ _ _ _ Ha)).
  unfold bind, getitem. rewrite Hlo, length_fmap.
  replace (length ls) with (length rows) by lia. rewrite Hi.
  rewrite list_lookup_fmap, Hl. simpl. unfold setitem. by rewrite Hlr, Hj.
Qed.

Lemma getitem_eq (h : heap) T lo ls rows r (i j : Z) ki kj y :
  attr h T "matrix" = Some (VRef lo) -> matrix_at h lo ls rows ->
  norm_index (length rows) i = Some ki -> rows !! ki = Some r ->
  norm_index (length r) j = Some kj -> r !! kj = Some y ->
  Transformation_getitem T i j h = (Ret y, h).
Proof.
  intros Ha [Hlo Hrows] Hi Hr Hj Hy.
  pose proof (Forall2_length _ _ _ Hrows) as Hlen.
  destruct (lookup_lt_is_Some_2 ls ki) as [l Hl].
  { apply lookup_lt_Some in Hr. lia. }
  pose proof (Forall2_lookup_lr _ _ _ _ _ _ Hrows Hl Hr) as Hlr. simpl in Hlr.
  unfold Transformation_getitem.
  rewrite (bind_Ret _ _ _ _ _ (getattr_eq _ _ _ _ Ha)).
  unfold bind, getitem. rewrite Hlo, length_fmap.
  replace (length ls) with (length rows) by lia. rewrite Hi.
  rewrite list_lookup_fmap, Hl. simpl. by rewrite Hlr, Hj, Hy.
Qed.

Lemma scale_as_getitems self h :
  Transformation_scale self h =
  (let* a := Transformation_getitem self 0 0 in
   let* b := Transformation_getitem self 1 1 in
   let* c := Transformation_getitem self 2 2 in
   let* l := alloc (OList [a; b; c]) in
   ret (VRef l)) h.
Proof.
  unfold Transformation_scale, Transformation_getitem, bind.
  repeat match goal with
         | |- context [match ?c with (_, _) => _ end] =>
             lazymatch c with
             | (_, _) => fail
             | _ => destruct c as [[?|?] ?]
             end
         end; reflexivity.
Qed.

Lemma collect_rows (h : heap) ls rows :
  Forall2 (fun l r => h !! l = Some (OList r)) ls rows ->
  collect (VRef <$> ls) h = (Ret (concat rows), h).
Proof.
  induction 1 as [|l r ls rows Hl _ IH]; [done|]. simpl.
  assert (py_iter (VRef l) h = (Ret r, h)) as E by (unfold py_iter; by rewrite Hl).
  rewrite (bind_Ret _ _ _ _ _ E), (bind_Ret _ _ _ _ _ IH). done.
Qed.

Lemma Transformation_list_eq (h : heap) T lo ls rows :
  attr h T "matrix" = Some (VRef lo) -> matrix_at h lo ls rows ->
  Transformation_list T h =
  (Ret (VRef (fresh (dom h))), <[fresh (dom h) := OList (concat rows)]> h).
Proof.
  intros Ha [Hlo Hrows]. unfold Transformation_list.
  rewrite (bind_Ret _ _ _ _ _ (getattr_eq _ _ _ _ Ha)).
  assert (py_iter (VRef lo) h = (Ret (VRef <$> ls), h)) as E
    by (unfold py_iter; by rewrite Hlo).
  rewrite (bind_Ret _ _ _ _ _ E), (bind_Ret _ _ _ _ _ (collect_rows _ _ _ Hrows)). done.
Qed.

Lemma concat_float_rows (M : mat) : concat (float_rows M) = VFloat <$> concat M.
Proof.
  induction M as [|r M IH]; [done|]. unfold float_rows in *.
  rewrite fmap_cons. cbn [concat]. by rewrite IH, fmap_app.
Qed.

Lemma row_major_concat numbers M : row_major numbers = Some M -> concat M = take 16 numbers.
Proof.
  do 16 (destruct numbers as [|? numbers]; [done|]). by intros [= <-].
Qed.

Lemma row_major_of_concat (M : mat) : is_4x4 M -> row_major (concat M) = Some M.
Proof.
  intros [Hlen Hrows].
  do 4 (destruct M as [|? M]; [done|]). destruct M; [|done].
  repeat match goal with
         | H : Forall _ (_ :: _) |- _ => apply Forall_cons in H as [? H]
         end.
  repeat match goal with
         | H : length ?l = 4%nat |- _ =>
             do 4 (destruct l as [|? l]; [done|]); destruct l; [clear H|done]
         end.
  reflexivity.
Qed.

(** Matrices of the store as [matrix_at] sees them. *)
Lemma read_matrix_at (h : heap) m M :
  read_matrix h m = Some M ->
  exists lo ls, m = VRef lo /\ matrix_at h lo ls (float_rows M).
Proof.
  intros Hr. destruct (read_matrix_inv _ _ _ Hr) as (lo & rs & -> & Hlo & HM).
  apply mapM_Some in HM.
  assert (exists ls, rs = VRef <$> ls /\
            Forall2 (fun l r => h !! l = Some (OList r)) ls (float_rows M)) as (ls & -> & HF).
  { clear Hlo Hr. induction HM as [|v r rs M Hv _ IH].
    - by exists [].
    - destruct IH as (ls & -> & HF). unfold read_row in Hv.
      destruct v as [| | |l]; try done.
      destruct (h !! l) as [[xs| |]|] eqn:El; try done.
      exists (l :: ls). split; [done|]. constructor; [|done].
      rewrite El. f_equal. f_equal. apply mapM_Some in Hv.
      clear El. induction Hv as [|y z xs r Hy _ IHv]; [done|].
      simpl. rewrite IHv. by destruct y; try done; injection Hy as ->. }
  by exists lo, ls.
Qed.

(** X10.  [Transformation.from_list(numbers).list] is the first sixteen
    numbers again, and [.scale] reads the numbers 0, 5 and 10. *)
Theorem list_of_from_list (numbers : list float) (h : heap) :
  (16 <= length numbers)%nat ->
  exists T h1,
    from_list Transformation numbers h = (Ret T, h1) /\
    (exists v h2, Transformation_list T h1 = (Ret v, h2) /\
                  read_row h2 v = Some (take 16 numbers)) /\
    (exists s h3 a b c, Transformation_scale T h1 = (Ret s, h3) /\
                        read_row h3 s = Some [a; b; c] /\
                        numbers !! 0%nat = Some a /\
                        numbers !! 5%nat = Some b /\
                        numbers !! 10%nat = Some c).
Proof.
  intros Hlen. destruct (row_major_Some numbers Hlen) as (M & HM & H44 & Hent).
  destruct (from_list_spec numbers M h HM)
    as (lT & lo & ls & h1 & E & Hs & Ha & Hc & Hmat & Hnd & Hnot & _).
  exists (VRef lT), h1. split; [done|]. split.
  - rewrite (Transformation_list_eq h1 _ lo ls _ Ha Hmat). do 2 eexists. split; [done|].
    unfold read_row. rewrite lookup_insert_eq, concat_float_rows, mapM_as_float.
    by rewrite (row_major_concat _ _ HM).
  - assert (forall k : nat, (k < 4)%nat ->
              exists r y, float_rows M !! k = Some r /\ r !! k = Some (VFloat y) /\
                          numbers !! (4 * k + k)%nat = Some y) as Hdiag.
    { intros k Hk. pose proof (Hent k k Hk Hk) as He. unfold entry in He.
      destruct H44 as [HlM HrM].
      destruct (lookup_lt_is_Some_2 M k) as [r Hr]; [lia|]. rewrite Hr in He.
      pose proof (proj1 (Forall_lookup _ _) HrM _ _ Hr) as Hlr. simpl in Hlr.
      destruct (lookup_lt_is_Some_2 r k) as [y Hy]; [lia|].
      exists (VFloat <$> r), y. unfold float_rows. split; [|split].
      - by rewrite list_lookup_fmap, Hr.
      - by rewrite list_lookup_fmap, Hy.
      - by rewrite <- He. }
    assert (length (float_rows M) = 4%nat) as HlM.
    { unfold float_rows. rewrite length_fmap. apply H44. }
    assert (forall (k : nat) r y, (k < 4)%nat -> float_rows M !! k = Some r ->
              r !! k = Some y ->
              Transformation_getitem (VRef lT) (Z.of_nat k) (Z.of_nat k) h1 = (Ret y, h1))
      as Hget.
    { intros k r y Hk Hr Hy.
      apply (getitem_eq h1 (VRef lT) lo ls (float_rows M) r (Z.of_nat k) (Z.of_nat k) k k y);
        try done.
      - rewrite norm_index_nonneg, Nat2Z.id; [done|lia].
      - rewrite norm_index_nonneg, Nat2Z.id; [done|].
        apply lookup_lt_Some in Hy. lia. }
    destruct (Hdiag 0%nat ltac:(lia)) as (r0 & a & Hr0 & Ha0 & Hn0).
    destruct (Hdiag 1%nat ltac:(lia)) as (r1 & b & Hr1 & Hb1 & Hn1).
    destruct (Hdiag 2%nat ltac:(lia)) as (r2 & c & Hr2 & Hc2 & Hn2).
    rewrite scale_as_getitems.
    rewrite (bind_Ret _ _ _ _ _ (Hget 0%nat _ _ ltac:(lia) Hr0 Ha0)).
    rewrite (bind_Ret _ _ _ _ _ (Hget 1%nat _ _ ltac:(lia) Hr1 Hb1)).
    rewrite (bind_Ret _ _ _ _ _ (Hget 2%nat _ _ ltac:(lia) Hr2 Hc2)).
    unfold bind, alloc, ret. cbn zeta. exists (VRef (fresh (dom h1))). eexists.
    exists a, b, c. split; [reflexivity|].
    unfold read_row. rewrite lookup_insert_eq. by repeat split.
Qed.

(** X11.  [Transformation.from_list(T.list)] is a copy of [T] that shares
    nothing with it: the matrices are equal, and an element assigned
    through the new instance leaves every object of [T] as it was. *)
Theorem from_list_of_list_is_independent (T m : val) (M : mat) (h : heap) :
  attr h T "matrix" = Some m ->
  read_matrix h m = Some M ->
  is_4x4 M ->
  exists v h1 T' h2,
    Transformation_list T h = (Ret v, h1) /\
    read_row h1 v = Some (concat M) /\
    from_list Transformation (concat M) h1 = (Ret T', h2) /\
    matrix_of h2 T' = Some M /\
    Transformation_eq T' T h2 = (Ret true, h2) /\
    forall i j x, (0 <= i < 4)%Z -> (0 <= j < 4)%Z ->
      exists h3,
        Transformation_setitem T' i j x h2 = (Ret tt, h3) /\
        Transformation_getitem T' i j h3 = (Ret x, h3) /\
        h ⊆ h3 /\ matrix_of h3 T = Some M.
Proof.
  intros Ha Hr H44.
  destruct (read_matrix_at _ _ _ Hr) as (lo & ls & -> & Hmat).
  rewrite (Transformation_list_eq h T lo ls _ Ha Hmat).
  set (lv := fresh (dom h)). set (h1 := <[lv := OList (concat (float_rows M))]> h).
  assert (h ⊆ h1) as Hs1 by apply insert_fresh_subseteq.
  destruct (from_list_spec (concat M) M h1 (row_major_of_concat M H44))
    as (lT & lo' & ls' & h2 & E & Hs2 & Ha' & Hc' & Hmat' & Hnd' & Hnot' & HlT & Hlo' & Hls').
  assert (h ⊆ h2) as Hs by (by etrans).
  pose proof (matrix_at_read _ _ _ _ Hmat') as Hr'.
  exists (VRef lv), h1, (VRef lT), h2. repeat split; try done.
  - unfold read_row, h1. by rewrite lookup_insert_eq, concat_float_rows, mapM_as_float.
  - unfold matrix_of. by rewrite Ha'.
  - rewrite eq_spec_correct. f_equal. f_equal.
    apply (eq_spec_cells h2 (VRef lT) T (VRef lo') (VRef lo) M M); try done.
    + by eapply attr_mono.
    + by eapply read_matrix_mono.
    + intros i j a b Hi Hj. rewrite Hi in Hj. injection Hj as <-. apply self_close.
  - intros i j x Hi Hj.
    destruct H44 as [HlM HrM].
    assert (length (float_rows M) = 4%nat) as Hlen.
    { unfold float_rows. by rewrite length_fmap. }
    destruct (lookup_lt_is_Some_2 (float_rows M) (Z.to_nat i)) as [r Hrw]; [lia|].
    assert (length r = 4%nat) as Hlr.
    { unfold float_rows in Hrw. rewrite list_lookup_fmap in Hrw.
      destruct (M !! Z.to_nat i) as [r'|] eqn:Hr''; [|done]. injection Hrw as <-.
      rewrite length_fmap. exact (proj1 (Forall_lookup _ _) HrM _ _ Hr''). }
    destruct (lookup_lt_is_Some_2 ls' (Z.to_nat i)) as [l Hl].
    { destruct Hmat' as [_ HF]. apply Forall2_length in HF. lia. }
    assert (norm_index (length (float_rows M)) i = Some (Z.to_nat i)) as Hni
      by (apply norm_index_nonneg; lia).
    assert (norm_index (length r) j = Some (Z.to_nat j)) as Hnj
      by (apply norm_index_nonneg; lia).
    pose proof (setitem_eq h2 (VRef lT) lo' ls' _ r l i j _ _ x Ha' Hmat' Hni Hrw Hl Hnj) as Es.
    assert (h !! l = None) as Hfresh.
    { eapply lookup_weaken_None; [|exact Hs1].
      apply (proj1 (Forall_forall _ _) Hls'). by eapply list_elem_of_lookup_2. }
    assert (h ⊆ <[l := OList (<[Z.to_nat j := x]> r)]> h2) as Hs3
      by (by apply insert_subseteq_r).
    eexists. split; [exact Es|]. split; [|split; [exact Hs3|]].
    + assert (l <> lo') as Hne.
      { intros ->. apply Hnot'. by eapply list_elem_of_lookup_2. }
      assert (l <> lT) as Hne'.
      { intros ->. destruct Hmat' as [_ HF].
        pose proof (Forall2_lookup_lr _ _ _ _ _ _ HF Hl Hrw) as Hx. simpl in Hx.
        unfold class_of in Hc'. by rewrite Hx in Hc'. }
      apply (getitem_eq _ (VRef lT) lo' ls' (<[Z.to_nat i := <[Z.to_nat j := x]> r]> (float_rows M))
               (<[Z.to_nat j := x]> r) i j (Z.to_nat i) (Z.to_nat j) x).
      * unfold attr in *. by rewrite lookup_insert_ne.
      * destruct Hmat' as [Hlo2 HF]. split; [by rewrite lookup_insert_ne|].
        apply Forall2_lookup. intros k. destruct (decide (k = Z.to_nat i)) as [->|Hk].
        -- rewrite Hl, list_lookup_insert_eq by lia. constructor. apply lookup_insert_eq.
        -- rewrite list_lookup_insert_ne by done.
           destruct (ls' !! k) as [l'|] eqn:Hl', (float_rows M !! k) as [r'|] eqn:Hr''.
           ++ constructor. rewrite lookup_insert_ne.
              ** exact (Forall2_lookup_lr _ _ _ _ _ _ HF Hl' Hr'').
              ** intros <-. apply Hk. eapply NoDup_lookup; eauto.
           ++ apply lookup_lt_Some in Hl'. apply lookup_ge_None in Hr''.
              apply Forall2_length in HF. lia.
           ++ apply lookup_lt_Some in Hr''. apply lookup_ge_None in Hl'.
              apply Forall2_length in HF. lia.
           ++ constructor.
      * by rewrite length_insert.
      * apply list_lookup_insert_eq. lia.
      * by rewrite length_insert.
      * apply list_lookup_insert_eq. lia.
    + eapply matrix_of_mono; [exact Hs3|]. unfold matrix_of. rewrite Ha.
      by eapply matrix_at_read.
Qed.

(** *** In-place methods *)

(** Rebinding [self.matrix] to the result of a kernel call: the
    instance keeps its class, the objects it held before keep their
    values, nothing is validated. *)
Lemma rebind_ok (T p : val) (c : cls) (P : mat) (h h1 : heap) :
  class_of h T = Some c -> h ⊆ h1 -> read_matrix h1 p = Some P ->
  exists h',
    setattr T "matrix" p h1 = (Ret tt, h') /\
    class_of h' T = Some c /\ attr h' T "matrix" = Some p /\
    read_matrix h' p = Some P /\ lists_kept h1 h' /\
    (forall l o, h1 !! l = Some o -> VRef l <> T -> h' !! l = Some o).
Proof.
  intros Hc Hs Hp. unfold class_of in Hc. destruct T as [| | |lT]; try done.
  destruct (h !! lT) as [[| |c' a]|] eqn:El; try done. injection Hc as ->.
  pose proof (lookup_weaken _ _ _ _ El Hs) as El1.
  unfold setattr. rewrite El1. eexists. split; [reflexivity|].
  assert (lists_kept h1 (<[lT := OInst c (<["matrix" := p]> a)]> h1)) as Hk
    by (by eapply lists_kept_inst).
  repeat split.
  - unfold class_of. by rewrite lookup_insert_eq.
  - unfold attr. rewrite lookup_insert_eq. apply lookup_insert_eq.
  - by eapply read_matrix_kept.
  - done.
  - intros l o Hl Hne. rewrite lookup_insert_ne; [done|]. by intros <-.
Qed.

(** X12.  [concatenate] assigns the product to [self.matrix] whatever the
    class of [self]: a [Scale] stays a [Scale] and its new matrix is not
    checked.  The matrix objects of both operands keep their values. *)
Theorem concatenate_assigns_without_check
    (A B a b : val) (c : cls) (mA mB P : mat) (h : heap) :
  class_of h A = Some c ->
  attr h A "matrix" = Some a -> attr h B "matrix" = Some b ->
  read_matrix h a = Some mA -> read_matrix h b = Some mB ->
  multiply_matrices mA mB = Ret P ->
  exists p h',
    concatenate A B h = (Ret tt, h') /\
    class_of h' A = Some c /\
    attr h' A "matrix" = Some p /\ p <> a /\
    read_matrix h' p = Some P /\
    read_matrix h' a = Some mA /\ read_matrix h' b = Some mB.
Proof.
  intros Hc HaA HaB Hra Hrb HP. unfold concatenate.
  rewrite (bind_Ret _ _ _ _ _ (getattr_eq _ _ _ _ HaA)).
  rewrite (bind_Ret _ _ _ _ _ (getattr_eq _ _ _ _ HaB)).
  destruct (call2_ok _ _ _ _ _ _ _ Hra Hrb HP) as (lp & h1 & E1 & Hs1 & Hlp & Hr1).
  rewrite (bind_Ret _ _ _ _ _ E1).
  destruct (rebind_ok A (VRef lp) c P h h1 Hc Hs1 Hr1) as (h' & E2 & Hc' & Ha' & Hr' & Hk & _).
  exists (VRef lp), h'. repeat split; try done.
  - intros <-. unfold read_matrix in Hra. by rewrite Hlp in Hra.
  - eapply read_matrix_kept; [exact Hk|]. by eapply read_matrix_mono.
  - eapply read_matrix_kept; [exact Hk|]. by eapply read_matrix_mono.
Qed.

(** X13.  [invert] and [transpose] assign a new matrix object: a record taken
    with [to_data] before still holds the old matrix, unchanged. *)
Theorem invert_and_transpose_rebind
    (T m : val) (c : cls) (A Ai At : mat) (h : heap) :
  class_of h T = Some c ->
  attr h T "matrix" = Some m ->
  read_matrix h m = Some A ->
  exists d h1,
    to_data T h = (Ret d, h1) /\
    (matrix_inverse A = Ret Ai ->
       exists h2, invert T h1 = (Ret tt, h2) /\
                  class_of h2 T = Some c /\ matrix_of h2 T = Some Ai /\
                  getkey d "matrix" h2 = (Ret m, h2) /\ read_matrix h2 m = Some A) /\
    (transpose_matrix A = Ret At ->
       exists h2, transpose T h1 = (Ret tt, h2) /\
                  class_of h2 T = Some c /\ matrix_of h2 T = Some At /\
                  getkey d "matrix" h2 = (Ret m, h2) /\ read_matrix h2 m = Some A).
Proof.
  intros Hc Ha Hr. unfold to_data.
  rewrite (bind_Ret _ _ _ _ _ (getattr_eq _ _ _ _ Ha)).
  unfold bind, alloc, ret. cbn zeta.
  set (ld := fresh (dom h)). set (h1 := <[ld := ODict {["matrix" := m]}]> h).
  assert (h !! ld = None) as Hld by apply fresh_None.
  assert (h ⊆ h1) as Hs1 by apply insert_fresh_subseteq.
  pose proof (attr_mono _ _ _ _ _ Hs1 Ha) as Ha1.
  pose proof (read_matrix_mono _ _ _ _ Hs1 Hr) as Hr1.
  assert (VRef ld <> T) as Hne.
  { intros <-. unfold class_of in Hc. by rewrite Hld in Hc. }
  assert (forall (f : mat -> outcome mat) R, f A = Ret R ->
            exists h2,
              (let* m0 := getattr T "matrix" in
               let* t := call1 f m0 in
               setattr T "matrix" t) h1 = (Ret tt, h2) /\
              class_of h2 T = Some c /\ matrix_of h2 T = Some R /\
              getkey (VRef ld) "matrix" h2 = (Ret m, h2) /\ read_matrix h2 m = Some A) as Hgen.
  { intros f R Hf.
    rewrite (bind_Ret _ _ _ _ _ (getattr_eq _ _ _ _ Ha1)).
    destruct (call1_ok _ _ _ _ _ Hr1 Hf) as (lp & h2 & E2 & Hs2 & Hlp & Hr2).
    rewrite (bind_Ret _ _ _ _ _ E2).
    destruct (rebind_ok T (VRef lp) c R h h2 Hc ltac:(by etrans) Hr2)
      as (h3 & E3 & Hc3 & Ha3 & Hr3 & Hk & Hother).
    exists h3. repeat split; try done.
    - unfold matrix_of. by rewrite Ha3.
    - unfold getkey. rewrite (Hother ld (ODict {["matrix" := m]})); [|
        eapply lookup_weaken; [apply lookup_insert_eq|exact Hs2] | done].
      by rewrite lookup_singleton_eq.
    - eapply read_matrix_kept; [exact Hk|]. by eapply read_matrix_mono. }
  exists (VRef ld), h1. split; [done|]. split; intros Hf; by apply Hgen.
Qed.

(** *** [concatenated] on a base [Transformation] *)

(** X14.  With a base [Transformation] as [self] the result is a new base
    [Transformation] holding [self.matrix * other.matrix], whatever the
    class of the operand: nothing is validated and both operands keep
    their matrices.  [__mul__] and [__imul__] are this method, so
    [A *= B] does not change the object [A] named before. *)
Theorem concatenated_of_a_base_transformation
    (A B a b : val) (mA mB P : mat) (cB : cls) (h : heap) :
  class_of h A = Some Transformation -> class_of h B = Some cB ->
  attr h A "matrix" = Some a -> attr h B "matrix" = Some b ->
  read_matrix h a = Some mA -> read_matrix h b = Some mB ->
  multiply_matrices mA mB = Ret P ->
  exists T h',
    Transformation_mul A B h = (Ret T, h') /\
    class_of h' T = Some Transformation /\ matrix_of h' T = Some P /\
    T <> A /\ T <> B /\ h ⊆ h' /\
    matrix_of h' A = Some mA /\ matrix_of h' B = Some mB.
Proof.
  intros HcA HcB HaA HaB Hra Hrb HP. unfold Transformation_mul, concatenated.
  rewrite (bind_Ret _ _ _ _ _ (type_of_eq _ _ _ HcA)).
  rewrite (bind_Ret _ _ _ _ _ (isinstance_eq _ Transformation _ _ HcB)).
  destruct (call2_ok _ _ _ _ _ _ _ Hra Hrb HP) as (lp & h1 & E1 & Hs1 & _ & Hr1).
  destruct (new_Transformation_ok _ _ _ Hr1) as (l & h2 & E2 & Hs2 & Hl & Ha2 & Hr2 & Hc2).
  assert (forall X c, class_of h X = Some c -> VRef l <> X) as Hne.
  { intros X c HX <-. unfold class_of in HX.
    destruct (h !! l) as [o|] eqn:El; [|done].
    by rewrite (lookup_weaken _ _ _ _ El Hs1) in Hl. }
  assert (h ⊆ h2) as Hs by (by etrans).
  exists (VRef l), h2. split.
  { destruct (subclass cB Transformation);
      rewrite (bind_Ret _ _ _ _ _ (getattr_eq _ _ _ _ HaA));
      rewrite (bind_Ret _ _ _ _ _ (getattr_eq _ _ _ _ HaB));
      by rewrite (bind_Ret _ _ _ _ _ E1). }
  repeat split; try done.
  - unfold matrix_of. by rewrite Ha2.
  - by eapply Hne.
  - by eapply Hne.
  - eapply matrix_of_mono; [exact Hs|]. unfold matrix_of. by rewrite HaA.
  - eapply matrix_of_mono; [exact Hs|]. unfold matrix_of. by rewrite HaB.
Qed.

(** *** [Scale.from_factors] *)

Lemma new_None (c : cls) (h : heap) :
  c <> Other ->
  new c VNone h =
  (Ret (VRef (fresh (dom h))), <[fresh (dom h) := OInst c {["matrix" := VNone]}]> h).
Proof.
  intros Hc. destruct c; [apply new_Transformation_eq|apply new_Scale_None|done].
Qed.

Lemma from_factors_store (c : cls) (m : mat) (h : heap) :
  c <> Other ->
  exists S h',
    (let* S := new c VNone in
     (let* v := store_matrix m in setattr S "matrix" v) ;; ret S) h = (Ret S, h') /\
    class_of h' S = Some c /\ matrix_of h' S = Some m /\ h ⊆ h'.
Proof.
  intros Hc. rewrite (bind_Ret _ _ _ _ _ (new_None c h Hc)).
  set (l := fresh (dom h)). set (h1 := <[l := OInst c {["matrix" := VNone]}]> h).
  assert (h ⊆ h1) as Hs1 by apply insert_fresh_subseteq.
  destruct (store_matrix_spec m h1) as (lm & h2 & E2 & Hs2 & Hlm & Hr2).
  assert (class_of h1 (VRef l) = Some c) as Hc1.
  { unfold class_of, h1. by rewrite lookup_insert_eq. }
  destruct (rebind_ok (VRef l) (VRef lm) c m h1 h2 Hc1 Hs2 Hr2)
    as (h3 & E3 & Hc3 & Ha3 & Hr3 & _ & Hother).
  exists (VRef l), h3. split.
  { unfold bind at 1. unfold bind at 1. rewrite E2, E3. reflexivity. }
  repeat split; try done.
  - unfold matrix_of. by rewrite Ha3.
  - apply map_subseteq_spec. intros k o Hk. apply Hother.
    + eapply lookup_weaken; [|exact Hs2]. by eapply lookup_weaken.
    + intros [= Hkl]. pose proof (fresh_None h) as Hf. fold l in Hf.
      rewrite <- Hkl in Hf. by rewrite Hf in Hk.
Qed.

(** X15.  [from_factors] makes an instance without a matrix (so the check of
    [Scale.__init__] is skipped) and assigns the matrix afterwards: the
    result has the class asked for and the matrix
    [Tw * Sc * Tl] (with a frame) or [Sc] (without), whether or not that
    matrix would pass the check. *)
Theorem from_factors_skips_the_check
    (c : cls) (factors : list float) (f : frame) (Tl Sc Tw TwSc m : mat) (h : heap) :
  c <> Other ->
  matrix_from_scale_factors factors = Ret Sc ->
  matrix_from_change_of_basis worldXY f = Ret Tl ->
  matrix_from_change_of_basis f worldXY = Ret Tw ->
  multiply_matrices Tw Sc = Ret TwSc ->
  multiply_matrices TwSc Tl = Ret m ->
  (exists S h',
     from_factors c factors (Some f) h = (Ret S, h') /\
     class_of h' S = Some c /\ matrix_of h' S = Some m /\ h ⊆ h') /\
  (exists S h',
     from_factors c factors None h = (Ret S, h') /\
     class_of h' S = Some c /\ matrix_of h' S = Some Sc /\ h ⊆ h').
Proof.
  intros Hc HSc HTl HTw HX Hm. split.
  - destruct (from_factors_store c m h Hc) as (S & h' & E & H).
    exists S, h'. split; [|exact H]. rewrite <- E. unfold from_factors, bind, lift.
    destruct (new c VNone h) as [[S0|e] h0]; [|reflexivity].
    by rewrite HTl, HSc, HTw, HX, Hm.
  - destruct (from_factors_store c Sc h Hc) as (S & h' & E & H).
    exists S, h'. split; [|exact H]. rewrite <- E. unfold from_factors, bind, lift.
    destruct (new c VNone h) as [[S0|e] h0]; [|reflexivity].
    by rewrite HSc.
Qed.

(** *** [to_data] and [from_data] *)

(** X16.  [Scale.from_data] on the record of any instance runs the check of
    [Scale.__init__] on the recorded matrix: it raises when the matrix
    does not pass, and otherwise returns a [Scale] whose [matrix] is the
    very object the record holds. *)
Theorem from_data_validates
    (T m : val) (A : mat) (d : decomposition) (check : mat) (h : heap) :
  attr h T "matrix" = Some m ->
  read_matrix h m = Some A -> A <> [] ->
  decompose_matrix A = Ret d ->
  matrix_from_scale_factors (d_scale d) = Ret check ->
  exists data h1,
    to_data T h = (Ret data, h1) /\
    (allclose (flatten A) (flatten check) = false ->
       exists h2, from_data Scale data h1 = (Raise not_a_scale, h2)) /\
    (allclose (flatten A) (flatten check) = true ->
       exists S h2, from_data Scale data h1 = (Ret S, h2) /\
                    class_of h2 S = Some Scale /\ attr h2 S "matrix" = Some m /\
                    S <> T).
Proof.
  intros Ha Hr Hne Hd Hc. unfold to_data.
  rewrite (bind_Ret _ _ _ _ _ (getattr_eq _ _ _ _ Ha)).
  unfold bind at 1. unfold alloc, ret. cbn zeta.
  set (ld := fresh (dom h)). set (h1 := <[ld := ODict {["matrix" := m]}]> h).
  assert (h ⊆ h1) as Hs1 by apply insert_fresh_subseteq.
  pose proof (read_matrix_mono _ _ _ _ Hs1 Hr) as Hr1.
  assert (getkey (VRef ld) "matrix" h1 = (Ret m, h1)) as Hk.
  { unfold getkey, h1. by rewrite lookup_insert_eq, lookup_singleton_eq. }
  exists (VRef ld), h1. split; [done|].
  unfold from_data. rewrite (bind_Ret _ _ _ _ _ Hk).
  rewrite (new_Scale_eq _ _ _ _ _ Hr1 Hne Hd Hc). repeat split.
  - intros ->. by eexists.
  - intros ->. do 2 eexists. split; [reflexivity|]. repeat split.
    + unfold class_of. by rewrite lookup_insert_eq.
    + unfold attr. by rewrite lookup_insert_eq, lookup_singleton_eq.
    + intros <-. unfold attr in Ha.
      destruct (h !! fresh (dom h1)) as [o|] eqn:El; [|done].
      pose proof (lookup_weaken _ _ _ _ El Hs1) as El1.
      by rewrite (fresh_None h1) in El1.
Qed.

(** *** [LinesConduit.thickness] *)

(** X17.  The setter keeps the caller's list object and resizes it in place
    to [len(self.lines)]: its own first items, then the default
    thickness.  An empty list is skipped like [None]: the store and so
    the thickness set before stay as they are. *)
Theorem thickness_setter_resizes_in_place
    (ls lt ll : loc) (c : cls) (a : gmap string val) (xs ys : list val) (d : val) (h : heap) :
  h !! ls = Some (OInst c a) ->
  a !! "lines" = Some (VRef ll) -> h !! ll = Some (OList ys) ->
  a !! "_default_thickness" = Some d ->
  h !! lt = Some (OList xs) ->
  exists h',
    set_thickness (VRef ls) (VRef lt) h = (Ret tt, h') /\
    match xs with
    | [] => h' = h
    | _ =>
        get_thickness (VRef ls) h' = (Ret (VRef lt), h') /\
        h' !! lt = Some (OList (take (length ys) xs ++ replicate (length ys - length xs) d)) /\
        len (VRef lt) h' = (Ret (length ys), h') /\
        forall l, l <> ls -> l <> lt -> h' !! l = h !! l
    end.
Proof.
  intros Hs Hlines Hll Hd Hlt.
  assert (ls <> lt) as Hne by (intros ->; by rewrite Hs in Hlt).
  unfold set_thickness.
  assert (is_true (VRef lt) h = (Ret (negb (Nat.eqb (length xs) 0)), h)) as Et
    by (unfold is_true; by rewrite Hlt).
  rewrite (bind_Ret _ _ _ _ _ Et).
  destruct xs as [|x xs']; [by exists h|]. cbn [length Nat.eqb negb].
  set (xs := x :: xs') in *.
  assert (getattr (VRef ls) "lines" h = (Ret (VRef ll), h)) as E1
    by (unfold getattr; by rewrite Hs, Hlines).
  rewrite (bind_Ret _ _ _ _ _ E1).
  assert (len (VRef ll) h = (Ret (length ys), h)) as E2 by (unfold len; by rewrite Hll).
  rewrite (bind_Ret _ _ _ _ _ E2).
  assert (len (VRef lt) h = (Ret (length xs), h)) as E3 by (unfold len; by rewrite Hlt).
  rewrite (bind_Ret _ _ _ _ _ E3).
  assert (forall zs : list val,
            length zs = length ys ->
            zs = take (length ys) xs ++ replicate (length ys - length xs) d ->
            forall h1 : heap,
            h1 !! ls = Some (OInst c a) -> h1 !! lt = Some (OList zs) ->
            (forall l, l <> lt -> h1 !! l = h !! l) ->
            exists h',
              setattr (VRef ls) "_thickness" (VRef lt) h1 = (Ret tt, h') /\
              get_thickness (VRef ls) h' = (Ret (VRef lt), h') /\
              h' !! lt = Some (OList (take (length ys) xs ++ replicate (length ys - length xs) d)) /\
              len (VRef lt) h' = (Ret (length ys), h') /\
              forall l, l <> ls -> l <> lt -> h' !! l = h !! l) as Hfin.
  { intros zs Hlen Hzs h1 Hs1 Hlt1 Hsame. unfold setattr. rewrite Hs1.
    eexists. split; [reflexivity|]. repeat split.
    - unfold get_thickness, getattr. by rewrite lookup_insert_eq, lookup_insert_eq.
    - rewrite lookup_insert_ne by done. by rewrite Hlt1, Hzs.
    - unfold len. rewrite lookup_insert_ne by done. by rewrite Hlt1, Hlen.
    - intros l Hl1 Hl2. rewrite lookup_insert_ne by done. by apply Hsame. }
  destruct (Nat.ltb_spec (length xs) (length ys)) as [Hlt'|Hge].
  - assert (getattr (VRef ls) "_default_thickness" h = (Ret d, h)) as E4
      by (unfold getattr; by rewrite Hs, Hd).
    unfold bind at 1. rewrite (bind_Ret _ _ _ _ _ E4).
    unfold list_iadd. rewrite Hlt.
    apply (Hfin (xs ++ replicate (length ys - length xs) d)).
    + rewrite length_app, length_replicate. lia.
    + by rewrite take_ge by lia.
    + by rewrite lookup_insert_ne.
    + apply lookup_insert_eq.
    + intros l Hl. by rewrite lookup_insert_ne.
  - destruct (Nat.ltb_spec (length ys) (length xs)) as [Hgt|Hle].
    + unfold bind at 1. unfold list_keep. rewrite Hlt.
      apply (Hfin (take (length ys) xs)).
      * rewrite length_take. lia.
      * replace (length ys - length xs) with 0 by lia. simpl. by rewrite app_nil_r.
      * by rewrite lookup_insert_ne.
      * apply lookup_insert_eq.
      * intros l Hl. by rewrite lookup_insert_ne.
    + unfold bind at 1, ret.
      apply (Hfin xs); try done.
      * lia.
      * replace (length ys - length xs) with 0 by lia. simpl.
        rewrite app_nil_r. by rewrite take_ge by lia.
Qed.
End More.

(** ** The methods on explicit inputs *)

Section Examples.
Local Open Scope float_scope.

(** C2.  [copy] passes [self.matrix.copy()] to the constructor:
    [list.copy] makes a new outer list of the same row objects.  At the
    4x4 identity: after [C = T.copy()] and [C[0, 3] = 7.0], the element
    [T[0, 3]], which was 0.0, reads 7.0. *)
Theorem copy_then_assign_changes_the_original :
  run (let* m := store_matrix (identity_matrix 4) in
       let* T := new Transformation m in
       let* C := copy T in
       let* before := Transformation_getitem T 0 3 in
       Transformation_setitem C 0 3 (VFloat 7) ;;
       let* after := Transformation_getitem T 0 3 in
       ret (before, after))
  = Ret (VFloat 0, VFloat 7).
Proof. vm_compute. reflexivity. Qed.

(** C6.  [S = Scale.from_factors([2, 2, 2], frame)] for the frame with
    origin (2, 5, 0) and the world axes has the matrix shown, of
    determinant 8.  [S.inverse()] does not return: [inverse] starts with
    [self.copy()], [copy] calls [Scale(matrix)], and the check of
    [Scale.__init__] rejects the matrix that [from_factors] assigned
    without checking.  So [S * S.inverse()] raises too. *)
Theorem inverse_of_a_frame_scale_raises :
  run (let* S := from_factors Scale [2; 2; 2] (Some example_frame) in
       let* m := getattr S "matrix" in
       load_matrix m)
  = Ret [[2; 0; 0; -2]; [0; 2; 0; -5]; [0; 0; 2; 0]; [0; 0; 0; 1]] /\
  run (let* S := from_factors Scale [2; 2; 2] (Some example_frame) in determinant S)
  = Ret 8 /\
  run (let* S := from_factors Scale [2; 2; 2] (Some example_frame) in inverse S)
  = Raise not_a_scale /\
  run (let* S := from_factors Scale [2; 2; 2] (Some example_frame) in
       let* S' := inverse S in
       Transformation_mul S S')
  = Raise not_a_scale.
Proof. repeat split; vm_compute; reflexivity. Qed.

(** C8.  For the frame with origin (2, 5, 0) and axes (1, 0, 0),
    (0, 1, 0), [S = Scale.from_factors([2, 2, 2], frame)] maps the point
    (2, 5, 0) to (2, 5, 0) and the point (2, 10, 0) to (2, 15, 0). *)
Theorem frame_relative_scale_example :
  run (let* S := from_factors Scale [2; 2; 2] (Some example_frame) in
       let* p := transformed [2; 5; 0] S in
       let* q := transformed [2; 10; 0] S in
       ret (p, q))
  = Ret ([2; 5; 0], [2; 15; 0]).
Proof. vm_compute. reflexivity. Qed.

(** [__eq__] of a [Transformation] holding the 4x4 identity and an object
    of an unrelated class whose [matrix] is the 5x5 identity is [True]. *)
Lemma eq_accepts_a_larger_matrix :
  run (let* a := store_matrix (identity_matrix 4) in
       let* T := new Transformation a in
       let* b := store_matrix (identity_matrix 5) in
       let* l := alloc (OInst Other {["matrix" := b]}) in
       Transformation_eq T (VRef l))
  = Ret true.
Proof. vm_compute. reflexivity. Qed.

(** [from_list] of seventeen numbers returns the matrix of the first
    sixteen; of three numbers it raises [IndexError]. *)
Lemma from_list_accepts_seventeen :
  run (let* T := from_list Transformation
                   [1; 2; 3; 4; 5; 6; 7; 8; 9; 10; 11; 12; 13; 14; 15; 16; 17] in
       let* m := getattr T "matrix" in
       load_matrix m)
  = Ret [[1; 2; 3; 4]; [5; 6; 7; 8]; [9; 10; 11; 12]; [13; 14; 15; 16]] /\
  run (from_list Transformation [1; 2; 3]) = Raise IndexError.
Proof. split; vm_compute; reflexivity. Qed.


Lemma Scale_rejects_shear :
  new Scale m5 sheared =
  (Raise not_a_scale, <[fresh (dom sheared) := OInst Scale ∅]> sheared).
Proof.
  refine (proj1 (Scale_validates_eagerly m5 _ _ _ sheared _ _ _ _) _).
  - vm_compute. reflexivity.
  - done.
  - lazy. reflexivity.
  - lazy. reflexivity.
  - vm_compute. reflexivity.
Defined.


Lemma from_list_witness :
  (exists h', from_list Transformation [1; 2; 3] ∅ = (Raise IndexError, h')) /\
  (exists T M h',
     from_list Transformation
       [1; 2; 3; 4; 5; 6; 7; 8; 9; 10; 11; 12; 13; 14; 15; 16] ∅ = (Ret T, h') /\
     matrix_of h' T = Some M /\
     entry M 0 3 = Some 4 /\ entry M 1 3 = Some 8 /\ entry M 2 3 = Some 12).
Proof.
  split.
  - apply (proj1 (from_list_reads_sixteen [1; 2; 3] ∅)). simpl. lia.
  - destruct (proj2 (from_list_reads_sixteen
                       [1; 2; 3; 4; 5; 6; 7; 8; 9; 10; 11; 12; 13; 14; 15; 16] ∅))
      as (T & M & h' & E & HM & _ & _ & H3 & H7 & H11).
    + simpl. lia.
    + exists T, M, h'. repeat split; assumption.
Defined.

Lemma frame_factories_witness :
  (exists T h',
     from_frame_to_frame Transformation example_frame other_frame ∅ = (Ret T, h') /\
     matrix_of h' T = Some [[0; -1; 0; 6]; [1; 0; 0; -1]; [0; 0; 1; 1]; [0; 0; 0; 1]]) /\
  (exists T h',
     change_basis Transformation example_frame other_frame ∅ = (Ret T, h') /\
     matrix_of h' T = Some [[0; 1; 0; 4]; [-1; 0; 0; -1]; [0; 0; 1; -1]; [0; 0; 0; 1]]).
Proof.
  destruct (frame_to_frame_and_change_basis example_frame other_frame
              [[1; 0; 0; 2]; [0; 1; 0; 5]; [0; 0; 1; 0]; [0; 0; 0; 1]]
              [[0; -1; 0; 1]; [1; 0; -0; 1]; [0; 0; 1; 1]; [0; 0; 0; 1]] ∅)
    as (_ & _ & Hftf & Hcb).
  - vm_compute. reflexivity.
  - vm_compute. reflexivity.
  - split.
    + destruct (Hftf [[1; -0; 0; -2]; [-0; 1; -0; -5]; [0; -0; 1; -0]; [-0; 0; -0; 1]]
                     [[0; -1; 0; 6]; [1; 0; 0; -1]; [0; 0; 1; 1]; [0; 0; 0; 1]])
        as (T & h' & E & _ & HM).
      * vm_compute. reflexivity.
      * vm_compute. reflexivity.
      * exists T, h'. split; [exact E | exact HM].
    + destruct (Hcb [[0; 1; 0; -1]; [-1; 0; -0; 1]; [0; -0; 1; -1]; [-0; 0; -0; 1]]
                    [[0; 1; 0; 4]; [-1; 0; 0; -1]; [0; 0; 1; -1]; [0; 0; 0; 1]])
        as (T & h' & E & _ & HM).
      * vm_compute. reflexivity.
      * vm_compute. reflexivity.
      * exists T, h'. split; [exact E | exact HM].
Defined.

Lemma data_round_trip_witness :
  exists d T' h1 h2 h3,
    to_data T6 scale_222 = (Ret d, h1) /\
    getkey d "matrix" h1 = (Ret m5, h1) /\
    from_data Transformation d h1 = (Ret T', h2) /\
    attr h2 T' "matrix" = Some m5 /\
    Transformation_eq T' T6 h2 = (Ret true, h2) /\
    Transformation_setitem T' 0 3 (VFloat 7) h2 = (Ret tt, h3) /\
    Transformation_getitem T6 0 3 h3 = (Ret (VFloat 7), h3).
Proof.
  destruct (data_round_trip_shares_the_matrix T6 m5
              [[2; 0; 0; 0]; [0; 2; 0; 0]; [0; 0; 2; 0]; [0; 0; 0; 1]] scale_222)
    as (d & T' & h1 & h2 & E1 & Ek & E2 & _ & Ha & _ & Eeq & Hset).
  - vm_compute. reflexivity.
  - vm_compute. reflexivity.
  - split; [reflexivity|]. repeat constructor.
  - destruct (Hset 0%Z 3%Z (VFloat 7) ltac:(lia) ltac:(lia)) as [(h3 & Es & Eg) _].
    exists d, T', h1, h2, h3. repeat split; assumption.
Defined.

Lemma copy_shares_rows_witness :
  exists C h' h3,
    copy T6 plain_222 = (Ret C, h') /\
    Transformation_setitem C 0 3 (VFloat 7) h' = (Ret tt, h3) /\
    Transformation_getitem T6 0 3 h3 = (Ret (VFloat 7), h3).
Proof.
  destruct (copy_shares_rows T6 m5
              [[2; 0; 0; 0]; [0; 2; 0; 0]; [0; 0; 2; 0]; [0; 0; 0; 1]] plain_222)
    as (C & m' & h' & E & _ & _ & _ & _ & _ & Hset).
  - vm_compute. reflexivity.
  - vm_compute. reflexivity.
  - vm_compute. reflexivity.
  - split; [reflexivity|]. repeat constructor.
  - destruct (Hset 0%Z 3%Z (VFloat 7) ltac:(lia) ltac:(lia)) as (h3 & Es & Eg).
    exists C, h', h3. split; [exact E|]. split; [exact Es | exact Eg].
Defined.

Lemma inverse_witness :
  exists T' h',
    inverse T6 plain_222 = (Ret T', h') /\
    matrix_of h' T' =
      Some [[0.5; -0; 0; -0]; [-0; 0.5; -0; 0]; [0; -0; 0.5; -0]; [-0; 0; -0; 1]] /\
    matrix_of h' T6 = Some [[2; 0; 0; 0]; [0; 2; 0; 0]; [0; 0; 2; 0]; [0; 0; 0; 1]].
Proof.
  destruct (inverse_returns_a_new_instance T6 m5
              [[2; 0; 0; 0]; [0; 2; 0; 0]; [0; 0; 2; 0]; [0; 0; 0; 1]]
              [[0.5; -0; 0; -0]; [-0; 0.5; -0; 0]; [0; -0; 0.5; -0]; [-0; 0; -0; 1]]
              plain_222)
    as (T' & h' & E & _ & _ & _ & Hi & Hm).
  - vm_compute. reflexivity.
  - vm_compute. reflexivity.
  - vm_compute. reflexivity.
  - vm_compute. reflexivity.
  - exists T', h'. split; [exact E|]. split; [exact Hi | exact Hm].
Defined.

Lemma copy_validates_again_witness :
  (exists h', copy T6 frame_scale = (Raise not_a_scale, h')) /\
  (exists h', inverse T6 frame_scale = (Raise not_a_scale, h')).
Proof.
  apply (copy_validates_again T6 m5 [[2; 0; 0; -2]; [0; 2; 0; -5]; [0; 0; 2; 0]; [0; 0; 0; 1]]
           (Decomposition [2; 2; 2] [0; 0; 0] [1; 0; 0; 0; 1; 0; 0; 0; 1] [-2; -5; 0] [0; 0; 0; 1])
           [[2; 0; 0; 0]; [0; 2; 0; 0]; [0; 0; 2; 0]; [0; 0; 0; 1]]).
  - vm_compute. reflexivity.
  - vm_compute. reflexivity.
  - vm_compute. reflexivity.
  - done.
  - vm_compute. reflexivity.
  - vm_compute. reflexivity.
  - vm_compute. reflexivity.
Defined.

Lemma transposed_witness :
  exists T' h',
    transposed T6 sheared = (Ret T', h') /\
    matrix_of h' T' = Some [[1; 0; 0; 0]; [0.5; 1; 0; 0]; [0; 0; 1; 0]; [0; 0; 0; 1]] /\
    matrix_of h' T6 = Some [[1; 0.5; 0; 0]; [0; 1; 0; 0]; [0; 0; 1; 0]; [0; 0; 0; 1]].
Proof.
  destruct (transposed_returns_a_new_instance T6 m5
              [[1; 0.5; 0; 0]; [0; 1; 0; 0]; [0; 0; 1; 0]; [0; 0; 0; 1]]
              [[1; 0; 0; 0]; [0.5; 1; 0; 0]; [0; 0; 1; 0]; [0; 0; 0; 1]]
              sheared)
    as (T' & h' & E & _ & _ & _ & Ht & Hm).
  - vm_compute. reflexivity.
  - vm_compute. reflexivity.
  - vm_compute. reflexivity.
  - vm_compute. reflexivity.
  - exists T', h'. split; [exact E|]. split; [exact Ht | exact Hm].
Defined.

Lemma eq_reflexive_witness : Transformation_eq T6 T6 sheared = (Ret true, sheared).
Proof.
  apply (eq_is_reflexive T6 m5 [[1; 0.5; 0; 0]; [0; 1; 0; 0]; [0; 0; 1; 0]; [0; 0; 0; 1]]).
  - vm_compute. reflexivity.
  - vm_compute. reflexivity.
  - split; [reflexivity|]. repeat constructor.
Defined.

Lemma eq_nan_witness :
  Transformation_eq T6 T12 with_nan = (Ret true, with_nan) /\
  Transformation_eq T12 T6 with_nan = (Ret true, with_nan).
Proof.
  apply (eq_holds_against_nan T6 T12 m5 m11
           [[1; 0.5; 0; 0]; [0; 1; 0; 0]; [0; 0; 1; 0]; [0; 0; 0; 1]]
           [[nan; nan; nan; nan]; [nan; nan; nan; nan];
            [nan; nan; nan; nan]; [nan; nan; nan; nan]]).
  - vm_compute. reflexivity.
  - vm_compute. reflexivity.
  - vm_compute. reflexivity.
  - vm_compute. reflexivity.
  - split; [reflexivity|]. repeat constructor.
  - split; [reflexivity|]. repeat constructor.
  - repeat constructor.
Defined.

Lemma setitem_witness :
  exists h',
    Transformation_setitem T6 (-1) 3 (VFloat 7) plain_222 = (Ret tt, h') /\
    Transformation_getitem T6 (-1) 3 h' = (Ret (VFloat 7), h') /\
    Transformation_getitem T6 0 0 h' = (Ret (VFloat 2), h').
Proof.
  destruct (setitem_then_getitem T6 5%positive [1; 2; 3; 4]%positive
              (float_rows [[2; 0; 0; 0]; [0; 2; 0; 0]; [0; 0; 2; 0]; [0; 0; 0; 1]])
              (VFloat <$> [0; 0; 0; 1]) (-1) 3 3 3 (VFloat 7) plain_222)
    as (h' & Es & Eg & _ & Hother).
  - vm_compute. reflexivity.
  - split; [vm_compute; reflexivity|]. repeat constructor.
  - apply (bool_decide_unpack _). vm_compute. exact I.
  - apply (bool_decide_unpack _). vm_compute. exact I.
  - vm_compute. reflexivity.
  - reflexivity.
  - vm_compute. reflexivity.
  - exists h'. split; [exact Es|]. split; [exact Eg|].
    apply (Hother 0%Z 0%Z 0%nat 0%nat (VFloat <$> [2; 0; 0; 0]) (VFloat 2)).
    + vm_compute. reflexivity.
    + reflexivity.
    + vm_compute. reflexivity.
    + reflexivity.
    + discriminate.
Defined.

Lemma list_of_from_list_witness :
  exists T h1 v h2,
    from_list Transformation
      [1; 2; 3; 4; 5; 6; 7; 8; 9; 10; 11; 12; 13; 14; 15; 16; 17] ∅ = (Ret T, h1) /\
    Transformation_list T h1 = (Ret v, h2) /\
    read_row h2 v = Some [1; 2; 3; 4; 5; 6; 7; 8; 9; 10; 11; 12; 13; 14; 15; 16].
Proof.
  destruct (list_of_from_list
              [1; 2; 3; 4; 5; 6; 7; 8; 9; 10; 11; 12; 13; 14; 15; 16; 17] ∅)
    as (T & h1 & E & (v & h2 & El & Hr) & _).
  - simpl. lia.
  - exists T, h1, v, h2. split; [exact E|]. split; [exact El | exact Hr].
Defined.

Lemma from_list_of_list_witness :
  exists v h1 T' h2 h3,
    Transformation_list T6 sheared = (Ret v, h1) /\
    from_list Transformation
      [1; 0.5; 0; 0; 0; 1; 0; 0; 0; 0; 1; 0; 0; 0; 0; 1] h1 = (Ret T', h2) /\
    Transformation_eq T' T6 h2 = (Ret true, h2) /\
    Transformation_setitem T' 0 3 (VFloat 7) h2 = (Ret tt, h3) /\
    matrix_of h3 T6 = Some [[1; 0.5; 0; 0]; [0; 1; 0; 0]; [0; 0; 1; 0]; [0; 0; 0; 1]].
Proof.
  destruct (from_list_of_list_is_independent T6 m5
              [[1; 0.5; 0; 0]; [0; 1; 0; 0]; [0; 0; 1; 0]; [0; 0; 0; 1]] sheared)
    as (v & h1 & T' & h2 & El & _ & Ef & _ & Eeq & Hset).
  - vm_compute. reflexivity.
  - vm_compute. reflexivity.
  - split; [reflexivity|]. repeat constructor.
  - destruct (Hset 0%Z 3%Z (VFloat 7) ltac:(lia) ltac:(lia)) as (h3 & Es & _ & _ & Hm).
    exists v, h1, T', h2, h3.
    split; [exact El|]. split; [exact Ef|]. split; [exact Eeq|]. split; [exact Es | exact Hm].
Defined.

Lemma concatenate_witness :
  exists p h',
    concatenate T6 T12 scale_and_shear = (Ret tt, h') /\
    class_of h' T6 = Some Scale /\
    attr h' T6 "matrix" = Some p /\
    read_matrix h' p = Some [[2; 1; 0; 0]; [0; 2; 0; 0]; [0; 0; 2; 0]; [0; 0; 0; 1]] /\
    read_matrix h' m5 = Some [[2; 0; 0; 0]; [0; 2; 0; 0]; [0; 0; 2; 0]; [0; 0; 0; 1]].
Proof.
  destruct (concatenate_assigns_without_check T6 T12 m5 m11 Scale
              [[2; 0; 0; 0]; [0; 2; 0; 0]; [0; 0; 2; 0]; [0; 0; 0; 1]]
              [[1; 0.5; 0; 0]; [0; 1; 0; 0]; [0; 0; 1; 0]; [0; 0; 0; 1]]
              [[2; 1; 0; 0]; [0; 2; 0; 0]; [0; 0; 2; 0]; [0; 0; 0; 1]]
              scale_and_shear)
    as (p & h' & E & Hc & Ha & _ & Hp & Hold & _).
  - vm_compute. reflexivity.
  - vm_compute. reflexivity.
  - vm_compute. reflexivity.
  - vm_compute. reflexivity.
  - vm_compute. reflexivity.
  - vm_compute. reflexivity.
  - exists p, h'. split; [exact E|]. split; [exact Hc|]. split; [exact Ha|].
    split; [exact Hp | exact Hold].
Defined.

Lemma invert_witness :
  exists d h1 h2,
    to_data T6 sheared = (Ret d, h1) /\
    invert T6 h1 = (Ret tt, h2) /\
    matrix_of h2 T6 =
      Some [[1; -0.5; 0; -0]; [-0; 1; -0; 0]; [0; -0; 1; -0]; [-0; 0; -0; 1]] /\
    getkey d "matrix" h2 = (Ret m5, h2) /\
    read_matrix h2 m5 = Some [[1; 0.5; 0; 0]; [0; 1; 0; 0]; [0; 0; 1; 0]; [0; 0; 0; 1]].
Proof.
  destruct (invert_and_transpose_rebind T6 m5 Transformation
              [[1; 0.5; 0; 0]; [0; 1; 0; 0]; [0; 0; 1; 0]; [0; 0; 0; 1]]
              [[1; -0.5; 0; -0]; [-0; 1; -0; 0]; [0; -0; 1; -0]; [-0; 0; -0; 1]]
              [[1; 0; 0; 0]; [0.5; 1; 0; 0]; [0; 0; 1; 0]; [0; 0; 0; 1]]
              sheared)
    as (d & h1 & E & Hinv & _).
  - vm_compute. reflexivity.
  - vm_compute. reflexivity.
  - vm_compute. reflexivity.
  - destruct Hinv as (h2 & Ei & _ & Hm & Hk & Hold).
    + vm_compute. reflexivity.
    + exists d, h1, h2. split; [exact E|]. split; [exact Ei|]. split; [exact Hm|].
      split; [exact Hk | exact Hold].
Defined.

Lemma mul_witness :
  exists T h',
    Transformation_mul T6 T12 plain_and_scale = (Ret T, h') /\
    class_of h' T = Some Transformation /\
    matrix_of h' T = Some [[2; 1; 0; 0]; [0; 2; 0; 0]; [0; 0; 2; 0]; [0; 0; 0; 1]].
Proof.
  destruct (concatenated_of_a_base_transformation T6 T12 m5 m11
              [[1; 0.5; 0; 0]; [0; 1; 0; 0]; [0; 0; 1; 0]; [0; 0; 0; 1]]
              [[2; 0; 0; 0]; [0; 2; 0; 0]; [0; 0; 2; 0]; [0; 0; 0; 1]]
              [[2; 1; 0; 0]; [0; 2; 0; 0]; [0; 0; 2; 0]; [0; 0; 0; 1]]
              Scale plain_and_scale)
    as (T & h' & E & Hc & Hm & _).
  - vm_compute. reflexivity.
  - vm_compute. reflexivity.
  - vm_compute. reflexivity.
  - vm_compute. reflexivity.
  - vm_compute. reflexivity.
  - vm_compute. reflexivity.
  - vm_compute. reflexivity.
  - exists T, h'. split; [exact E|]. split; [exact Hc | exact Hm].
Defined.

Lemma from_factors_witness :
  exists S h',
    from_factors Scale [2; 2; 2] (Some example_frame) ∅ = (Ret S, h') /\
    class_of h' S = Some Scale /\
    matrix_of h' S = Some [[2; 0; 0; -2]; [0; 2; 0; -5]; [0; 0; 2; 0]; [0; 0; 0; 1]].
Proof.
  destruct (from_factors_skips_the_check Scale [2; 2; 2] example_frame
              [[1; 0; 0; -2]; [0; 1; 0; -5]; [0; 0; 1; 0]; [0; 0; 0; 1]]
              [[2; 0; 0; 0]; [0; 2; 0; 0]; [0; 0; 2; 0]; [0; 0; 0; 1]]
              [[1; 0; 0; 2]; [0; 1; 0; 5]; [0; 0; 1; 0]; [0; 0; 0; 1]]
              [[2; 0; 0; 2]; [0; 2; 0; 5]; [0; 0; 2; 0]; [0; 0; 0; 1]]
              [[2; 0; 0; -2]; [0; 2; 0; -5]; [0; 0; 2; 0]; [0; 0; 0; 1]] ∅)
    as [(S & h' & E & Hc & Hm & _) _].
  - discriminate.
  - vm_compute. reflexivity.
  - vm_compute. reflexivity.
  - vm_compute. reflexivity.
  - vm_compute. reflexivity.
  - vm_compute. reflexivity.
  - exists S, h'. split; [exact E|]. split; [exact Hc | exact Hm].
Defined.

Lemma from_data_witness :
  exists data h1 h2,
    to_data T6 frame_scale = (Ret data, h1) /\
    from_data Scale data h1 = (Raise not_a_scale, h2).
Proof.
  destruct (from_data_validates T6 m5
              [[2; 0; 0; -2]; [0; 2; 0; -5]; [0; 0; 2; 0]; [0; 0; 0; 1]]
              (Decomposition [2; 2; 2] [0; 0; 0] [1; 0; 0; 0; 1; 0; 0; 0; 1]
                             [-2; -5; 0] [0; 0; 0; 1])
              [[2; 0; 0; 0]; [0; 2; 0; 0]; [0; 0; 2; 0]; [0; 0; 0; 1]] frame_scale)
    as (data & h1 & E & Hbad & _).
  - vm_compute. reflexivity.
  - vm_compute. reflexivity.
  - done.
  - vm_compute. reflexivity.
  - vm_compute. reflexivity.
  - destruct Hbad as (h2 & E2).
    + vm_compute. reflexivity.
    + exists data, h1, h2. split; [exact E | exact E2].
Defined.

Lemma thickness_witness :
  exists h',
    set_thickness (VRef 3%positive) (VRef 2%positive) conduit_store = (Ret tt, h') /\
    get_thickness (VRef 3%positive) h' = (Ret (VRef 2%positive), h') /\
    h' !! 2%positive = Some (OList [VFloat 2; VFloat 1; VFloat 1]).
Proof.
  destruct (thickness_setter_resizes_in_place 3%positive 2%positive 1%positive Other
              {["lines" := VRef 1%positive; "_default_thickness" := VFloat 1;
                "_thickness" := VNone]}
              [VFloat 2] [VStr "a"; VStr "b"; VStr "c"] (VFloat 1) conduit_store)
    as (h' & E & Eg & Hl & _).
  - vm_compute. reflexivity.
  - vm_compute. reflexivity.
  - vm_compute. reflexivity.
  - vm_compute. reflexivity.
  - vm_compute. reflexivity.
  - exists h'. split; [exact E|]. split; [exact Eg | exact Hl].
Defined.

End Examples.
